(** * Service supervisor of go-runner (internal/service/manager.go)

    A shallow embedding of the process supervisor: the byte-level text
    helpers it borrows from Go's [strings], [strconv] and [regexp]
    packages, the port parsers, the environment assembly, the log ring
    and live channel of a process handle, and the lifecycle operations
    over the catalog ([projects] table) and the in-memory handle map.

    Go strings are byte sequences; they are modelled by [string], whose
    characters are bytes.  Go's [int] is 64 bits wide and is modelled by
    [Z]; no arithmetic of the supervisor can leave that range except the
    decimal parser, where the range check is written out.  The host
    (process table, sockets, clock, file system) is a parameter of the
    development: every theorem holds for every host. *)

From Stdlib Require Import ZArith Ascii String List Lia Bool.
From stdpp Require Import gmap strings list fin_maps.
Import ListNotations.
Local Open Scope Z_scope.

(** ** Bytes and character classes *)

Definition byte_of (n : nat) : ascii := ascii_of_nat n.
Definition code (c : ascii) : N := N_of_ascii c.

Definition ESC : ascii := byte_of 27.
Definition TAB : ascii := byte_of 9.
Definition LF : ascii := byte_of 10.
Definition VT : ascii := byte_of 11.
Definition FF : ascii := byte_of 12.
Definition CR : ascii := byte_of 13.

(** [[0-9]] *)
Definition isDigit (c : ascii) : bool :=
  ((48 <=? code c) && (code c <=? 57))%N.

(** [[a-zA-Z]] *)
Definition isLetter (c : ascii) : bool :=
  (((97 <=? code c) && (code c <=? 122)) || ((65 <=? code c) && (code c <=? 90)))%N.

(** [[0-9;]] *)
Definition isParam (c : ascii) : bool :=
  isDigit c || Ascii.eqb c ";".

(** The class [\s] of Go's regexp syntax: [[\t\n\f\r ]]. *)
Definition isRegexpSpace (c : ascii) : bool :=
  Ascii.eqb c TAB || Ascii.eqb c LF || Ascii.eqb c FF || Ascii.eqb c CR
  || Ascii.eqb c " ".

(** ** Slices of strings *)

(** [s[n:]] *)
Fixpoint sliceFrom (n : nat) (s : string) : string :=
  match n, s with
  | O, _ => s
  | S k, String _ s' => sliceFrom k s'
  | S _, EmptyString => EmptyString
  end.

(** [s[:n]] *)
Fixpoint sliceTo (n : nat) (s : string) : string :=
  match n, s with
  | O, _ => EmptyString
  | S k, String c s' => String c (sliceTo k s')
  | S _, EmptyString => EmptyString
  end.

(** [strings.HasPrefix(s, prefix)] *)
Fixpoint HasPrefix (s pre : string) : bool :=
  match pre, s with
  | EmptyString, _ => true
  | String a pre', String b s' => Ascii.eqb a b && HasPrefix s' pre'
  | String _ _, EmptyString => false
  end.

Definition isEmpty (s : string) : bool :=
  match s with EmptyString => true | _ => false end.

(** [strings.Index(s, substr)]: the byte offset of the first occurrence,
    or -1. *)
Fixpoint indexFrom (i : Z) (s substr : string) : Z :=
  if HasPrefix s substr then i
  else match s with
       | EmptyString => -1
       | String _ s' => indexFrom (i + 1) s' substr
       end.

Definition Index (s substr : string) : Z := indexFrom 0 s substr.

(** [strings.LastIndex(s, substr)]: the byte offset of the last
    occurrence, or -1. *)
Fixpoint lastIndexFrom (i : Z) (s substr : string) : Z :=
  match s with
  | EmptyString => if HasPrefix s substr then i else -1
  | String _ s' =>
      let r := lastIndexFrom (i + 1) s' substr in
      if r =? -1 then (if HasPrefix s substr then i else -1) else r
  end.

Definition LastIndex (s substr : string) : Z := lastIndexFrom 0 s substr.

(** [strings.Contains(s, substr)] *)
Definition Contains (s substr : string) : bool := 0 <=? Index s substr.

(** ** Unicode white space, as [unicode.IsSpace] sees it in UTF-8 text

    [spaceLen s] is the width in bytes of the white-space rune encoded at
    the head of [s], and 0 when [s] does not start with one.  The runes
    are U+0009..U+000D, U+0020, U+0085, U+00A0, U+1680, U+2000..U+200A,
    U+2028, U+2029, U+202F, U+205F and U+3000. *)
Definition isAsciiSpace (c : ascii) : bool :=
  Ascii.eqb c TAB || Ascii.eqb c LF || Ascii.eqb c VT || Ascii.eqb c FF
  || Ascii.eqb c CR || Ascii.eqb c " ".

Definition spaceLen (s : string) : nat :=
  match s with
  | EmptyString => O
  | String c0 s1 =>
      if isAsciiSpace c0 then 1%nat
      else match code c0, s1 with
           | 194%N, String c1 _ =>
               if ((code c1 =? 133) || (code c1 =? 160))%N then 2%nat else O
           | 225%N, String c1 (String c2 _) =>
               if ((code c1 =? 154) && (code c2 =? 128))%N then 3%nat else O
           | 226%N, String c1 (String c2 _) =>
               if (((code c1 =? 128)
                    && (((128 <=? code c2) && (code c2 <=? 138))
                        || (code c2 =? 168) || (code c2 =? 169) || (code c2 =? 175)))
                   || ((code c1 =? 129) && (code c2 =? 159)))%N
               then 3%nat else O
           | 227%N, String c1 (String c2 _) =>
               if ((code c1 =? 128) && (code c2 =? 128))%N then 3%nat else O
           | _, _ => O
           end
  end.

(** Drops the white-space runes at the head of [s]; [skip] counts the
    remaining bytes of the rune being dropped. *)
Fixpoint trimLeftGo (skip : nat) (s : string) : string :=
  match s with
  | EmptyString => EmptyString
  | String _ s' =>
      match skip with
      | S k => trimLeftGo k s'
      | O => match spaceLen s with
             | O => s
             | S n => trimLeftGo n s'
             end
      end
  end.

(** Is [s] a sequence of white-space runes only? *)
Fixpoint allSpaceGo (skip : nat) (s : string) : bool :=
  match s with
  | EmptyString => true
  | String _ s' =>
      match skip with
      | S k => allSpaceGo k s'
      | O => match spaceLen s with
             | O => false
             | S n => allSpaceGo n s'
             end
      end
  end.

Definition allSpace (s : string) : bool := allSpaceGo 0 s.

(** Cuts the longest suffix of [s] made of white-space runes. *)
Fixpoint trimRight (s : string) : string :=
  match s with
  | EmptyString => EmptyString
  | String c s' => if allSpace s then EmptyString else String c (trimRight s')
  end.

(** [strings.TrimSpace(s)] *)
Definition TrimSpace (s : string) : string := trimRight (trimLeftGo 0 s).

Definition flushField (cur : string) : list string :=
  if isEmpty cur then [] else [cur].

(** [strings.Fields(s)]: the maximal runs of bytes between white-space
    runes; [cur] is the field being read. *)
Fixpoint fieldsGo (skip : nat) (cur : string) (s : string) : list string :=
  match s with
  | EmptyString => flushField cur
  | String c s' =>
      match skip with
      | S k => fieldsGo k cur s'
      | O => match spaceLen s with
             | O => fieldsGo 0 (cur +:+ String c EmptyString) s'
             | S n => flushField cur ++ fieldsGo n EmptyString s'
             end
      end
  end.

Definition Fields (s : string) : list string := fieldsGo 0 EmptyString s.

(** [strings.Trim(s, cutset)] for a cutset of ASCII bytes. *)
Fixpoint inCutset (c : ascii) (cutset : string) : bool :=
  match cutset with
  | EmptyString => false
  | String d cutset' => Ascii.eqb c d || inCutset c cutset'
  end.

Fixpoint trimLeftCut (cutset s : string) : string :=
  match s with
  | EmptyString => EmptyString
  | String c s' => if inCutset c cutset then trimLeftCut cutset s' else s
  end.

Fixpoint allInCutset (cutset s : string) : bool :=
  match s with
  | EmptyString => true
  | String c s' => inCutset c cutset && allInCutset cutset s'
  end.

Fixpoint trimRightCut (cutset s : string) : string :=
  match s with
  | EmptyString => EmptyString
  | String c s' =>
      if allInCutset cutset s then EmptyString else String c (trimRightCut cutset s')
  end.

Definition Trim (s cutset : string) : string :=
  trimRightCut cutset (trimLeftCut cutset s).

(** [strings.Split(s, sep)] for a one-byte separator. *)
Fixpoint splitGo (sep : ascii) (cur : string) (s : string) : list string :=
  match s with
  | EmptyString => [cur]
  | String c s' =>
      if Ascii.eqb c sep then cur :: splitGo sep EmptyString s'
      else splitGo sep (cur +:+ String c EmptyString) s'
  end.

Definition Split (s : string) (sep : ascii) : list string :=
  splitGo sep EmptyString s.

(** [strings.SplitN(s, sep, 2)] for a one-byte separator: the text
    before the first separator and the text after it, or [s] alone. *)
Fixpoint splitFirst (sep : ascii) (cur : string) (s : string) : list string :=
  match s with
  | EmptyString => [cur]
  | String c s' =>
      if Ascii.eqb c sep then [cur; s']
      else splitFirst sep (cur +:+ String c EmptyString) s'
  end.

Definition SplitN2 (s : string) (sep : ascii) : list string :=
  splitFirst sep EmptyString s.

(** [strings.ReplaceAll(s, old, "")] for a non-empty [old]: the
    occurrences are found left to right and do not overlap; [skip] counts
    the bytes of the current occurrence still to drop. *)
Fixpoint removeAllGo (old : string) (skip : nat) (s : string) : string :=
  match s with
  | EmptyString => EmptyString
  | String c s' =>
      match skip with
      | S k => removeAllGo old k s'
      | O => if HasPrefix s old
             then removeAllGo old (String.length old - 1) s'
             else String c (removeAllGo old 0 s')
      end
  end.

Definition RemoveAll (s old : string) : string := removeAllGo old 0 s.

(** ** Decimal numbers *)

Definition digitVal (c : ascii) : Z := Z.of_N (code c) - 48.

Fixpoint allDigits (s : string) : bool :=
  match s with
  | EmptyString => true
  | String c s' => isDigit c && allDigits s'
  end.

Fixpoint digitsValue (acc : Z) (s : string) : Z :=
  match s with
  | EmptyString => acc
  | String c s' => digitsValue (acc * 10 + digitVal c) s'
  end.

Definition maxInt : Z := 2 ^ 63 - 1.
Definition minInt : Z := - 2 ^ 63.

(** [strconv.Atoi(s)]: an optional sign and at least one decimal digit,
    nothing else; [None] stands for a syntax or range error. *)
Definition Atoi (s : string) : option Z :=
  let '(neg, ds) :=
    match s with
    | String c s' =>
        if Ascii.eqb c "-" then (true, s')
        else if Ascii.eqb c "+" then (false, s') else (false, s)
    | EmptyString => (false, s)
    end in
  if isEmpty ds || negb (allDigits ds) then None
  else
    let n := if neg then - digitsValue 0 ds else digitsValue 0 ds in
    if (minInt <=? n) && (n <=? maxInt) then Some n else None.

Fixpoint natDigits (fuel : nat) (n : N) (acc : string) : string :=
  match fuel with
  | O => acc
  | S f =>
      let acc' := String (ascii_of_N (48 + n mod 10)) acc in
      if (n / 10 =? 0)%N then acc' else natDigits f (n / 10)%N acc'
  end.

(** [strconv.Itoa(n)], the text that [%d] prints. *)
Definition Itoa (n : Z) : string :=
  let ds := natDigits (S (N.to_nat (N.log2 (Z.abs_N n)))) (Z.abs_N n) EmptyString in
  if n <? 0 then String "-" ds else ds.

(** ** The regular expressions of the log cleaner

    A pattern is given by its matcher: [re s] is the length of the match
    that starts at the head of [s], if there is one.  The patterns below
    never match the empty string, and each has at most one match per
    start position (the classes [[0-9;]] and [[a-zA-Z]] are disjoint, so
    the greedy star never backtracks). *)

(** [[0-9;]*[a-zA-Z]] at the head of [s]. *)
Fixpoint paramsThenLetter (s : string) : option nat :=
  match s with
  | EmptyString => None
  | String c s' =>
      if isParam c then option_map S (paramsThenLetter s')
      else if isLetter c then Some 1%nat else None
  end.

(** [intro\[[0-9;]*[a-zA-Z]] for a literal [intro]. *)
Definition csiAt (intro : string) (s : string) : option nat :=
  if HasPrefix s (intro +:+ "[")
  then option_map (Nat.add (String.length intro + 1))
         (paramsThenLetter (sliceFrom (String.length intro + 1) s))
  else None.

(** [regexp.MustCompile(`\x1b\[[0-9;]*[a-zA-Z]`)] *)
Definition ansiEscapeRegex : string -> option nat :=
  csiAt (String ESC EmptyString).

(** [regexp.MustCompile(`\\u001b\[[0-9;]*[a-zA-Z]`)]: the six bytes
    backslash, u, 0, 0, 1, b introduce the sequence. *)
Definition ansiEscapeRegexJSON : string -> option nat :=
  csiAt "\u001b".

(** [[0-9;]*m] at the head of [s]. *)
Fixpoint paramsThenM (s : string) : option nat :=
  match s with
  | EmptyString => None
  | String c s' =>
      if isParam c then option_map S (paramsThenM s')
      else if Ascii.eqb c "m" then Some 1%nat else None
  end.

(** [regexp.MustCompile(`\[[0-9;]+m`)] *)
Definition sgrResidueRegex (s : string) : option nat :=
  match s with
  | String c0 (String c1 s') =>
      if Ascii.eqb c0 "[" && isParam c1
      then option_map (Nat.add 2) (paramsThenM s')
      else None
  | _ => None
  end.

Fixpoint spacesLen (s : string) : nat :=
  match s with
  | EmptyString => O
  | String c s' => if isRegexpSpace c then S (spacesLen s') else O
  end.

(** [regexp.MustCompile(`\s+`)] *)
Definition spacesRegex (s : string) : option nat :=
  match spacesLen s with
  | O => None
  | n => Some n
  end.

(** [re.ReplaceAllString(s, repl)] for a literal [repl]: matches are
    taken left to right and do not overlap; the text between them is
    copied.  [skip] counts the bytes of the current match still to drop. *)
Fixpoint replaceAllGo (re : string -> option nat) (repl : string)
    (skip : nat) (s : string) : string :=
  match s with
  | EmptyString => EmptyString
  | String c s' =>
      match skip with
      | S k => replaceAllGo re repl k s'
      | O => match re s with
             | Some (S n) => repl +:+ replaceAllGo re repl n s'
             | _ => String c (replaceAllGo re repl 0 s')
             end
      end
  end.

Definition ReplaceAllString (re : string -> option nat) (s repl : string) : string :=
  replaceAllGo re repl 0 s.

(** ** stripANSI *)

Definition stripANSI (s : string) : string :=
  let result := ReplaceAllString ansiEscapeRegexJSON s "" in
  let result := ReplaceAllString ansiEscapeRegex result "" in
  let result := RemoveAll result (String ESC EmptyString) in
  let result := RemoveAll result (String ESC EmptyString) in
  let result := RemoveAll result "\u001b" in
  let result := RemoveAll result "\033" in
  let result := ReplaceAllString sgrResidueRegex result "" in
  let result := ReplaceAllString spacesRegex result " " in
  TrimSpace result.

(** ** Port parsers *)

Definition extractPortFromLsofName (name : string) : Z :=
  let name := Trim name "[]" in
  let lastColon := LastIndex name ":" in
  if lastColon =? -1 then 0
  else
    let portStr := sliceFrom (Z.to_nat (lastColon + 1)) name in
    let parenIdx := Index portStr "(" in
    let portStr :=
      if parenIdx =? -1 then portStr else sliceTo (Z.to_nat parenIdx) portStr in
    match Atoi (TrimSpace portStr) with
    | None => 0
    | Some port => if (port <=? 0) || (65535 <? port) then 0 else port
    end.

Definition extractPortFromAddr (addr : string) : Z :=
  let lastColon := LastIndex addr ":" in
  if lastColon =? -1 then 0
  else
    let portStr := sliceFrom (Z.to_nat (lastColon + 1)) addr in
    match Atoi portStr with
    | None => 0
    | Some port => if (port <=? 0) || (65535 <? port) then 0 else port
    end.

(** ** Outcomes of Go code

    An [error] is [None] for Go's [nil] and [Some msg] otherwise.  A
    function that can panic returns an [outcome]. *)

Definition error : Type := option string.

Inductive outcome (A : Type) : Type :=
| Returned (a : A)
| Panicked (msg : string).
Arguments Returned {A} a.
Arguments Panicked {A} msg.

Definition bindOutcome {A B : Type} (x : outcome A) (k : A -> outcome B) : outcome B :=
  match x with
  | Returned a => k a
  | Panicked msg => Panicked msg
  end.

Notation "x <- e1 ;; e2" := (bindOutcome e1 (fun x => e2))
  (at level 100, e1 at next level, right associativity).

(** [xs[i]]: indexing a slice out of range panics. *)
Definition indexSlice {A : Type} (xs : list A) (i : nat) : outcome A :=
  match xs !! i with
  | Some x => Returned x
  | None => Panicked "index out of range"
  end.

(** ** Catalog rows ([projects] table) and the constants of package [types] *)

Definition StatusStopped : string := "stopped".
Definition StatusStarting : string := "starting".
Definition StatusRunning : string := "running".
Definition StatusStopping : string := "stopping".
Definition StatusError : string := "error".
Definition TypeBackend : string := "backend".
Definition TypeFrontend : string := "frontend".

Record Project : Type := mkProject {
  name : string;
  type : string;
  path : string;
  command : string;
  args : string;
  working_dir : string;
  port : Z;
  environment : string;
  env_file : string;
  env_vars : string;
  status : string;
  p_id : Z;
  start_time : option Z;
  stop_time : option Z;
  last_error : string;
  logs : string
}.

(** The columns that the supervisor writes, with the value written. *)
Inductive Column : Type :=
| col_status (v : string)
| col_p_id (v : Z)
| col_start_time (v : Z)
| col_stop_time (v : Z)
| col_last_error (v : string)
| col_logs (v : string).

Definition setColumn (p : Project) (c : Column) : Project :=
  match c with
  | col_status v =>
      mkProject (name p) (type p) (path p) (command p) (args p) (working_dir p)
        (port p) (environment p) (env_file p) (env_vars p)
        v (p_id p) (start_time p) (stop_time p) (last_error p) (logs p)
  | col_p_id v =>
      mkProject (name p) (type p) (path p) (command p) (args p) (working_dir p)
        (port p) (environment p) (env_file p) (env_vars p)
        (status p) v (start_time p) (stop_time p) (last_error p) (logs p)
  | col_start_time v =>
      mkProject (name p) (type p) (path p) (command p) (args p) (working_dir p)
        (port p) (environment p) (env_file p) (env_vars p)
        (status p) (p_id p) (Some v) (stop_time p) (last_error p) (logs p)
  | col_stop_time v =>
      mkProject (name p) (type p) (path p) (command p) (args p) (working_dir p)
        (port p) (environment p) (env_file p) (env_vars p)
        (status p) (p_id p) (start_time p) (Some v) (last_error p) (logs p)
  | col_last_error v =>
      mkProject (name p) (type p) (path p) (command p) (args p) (working_dir p)
        (port p) (environment p) (env_file p) (env_vars p)
        (status p) (p_id p) (start_time p) (stop_time p) v (logs p)
  | col_logs v =>
      mkProject (name p) (type p) (path p) (command p) (args p) (working_dir p)
        (port p) (environment p) (env_file p) (env_vars p)
        (status p) (p_id p) (start_time p) (stop_time p) (last_error p) v
  end.

(** [db.Table("projects").Where("id = ?", id).Updates(columns)]: the row
    with that id, if there is one, gets the columns; no other row changes. *)
Definition Updates (id : N) (cols : list Column) (db : gmap N Project) : gmap N Project :=
  alter (fun p => fold_left setColumn cols p) id db.

(** [db.Table("projects").Where("id = ?", id).Update(column, value)] *)
Definition Update (id : N) (col : Column) (db : gmap N Project) : gmap N Project :=
  Updates id [col] db.

(** ** Process handles *)

(** A buffered channel of strings. *)
Record Chan : Type := mkChan {
  chBuf : list string;
  chCap : nat;
  chClosed : bool
}.

Definition makeChan (capacity : nat) : Chan := mkChan [] capacity false.

Record ProcessInfo : Type := mkProcessInfo {
  ProjectID : N;
  (** [Process.Process]: the PID of the spawned child, [None] while nil *)
  Process : option Z;
  StartTime : Z;
  Logs : Chan;
  LogBuffer : list string;
  closed : bool
}.

Record Manager : Type := mkManager {
  db : gmap N Project;
  processes : gmap N ProcessInfo
}.

Definition NewManager (d : gmap N Project) : Manager := mkManager d ∅.

(** [select { case ch <- logLine: return true; default: return false }]
    under a deferred [recover]: a send on a closed channel panics, the
    panic is swallowed and the zero value [false] is returned. *)
Definition safeSendLog (ch : Chan) (logLine : string) : Chan * bool :=
  if chClosed ch then (ch, false)
  else if (length (chBuf ch) <? chCap ch)%nat
       then (mkChan (chBuf ch ++ [logLine]) (chCap ch) false, true)
       else (ch, false).

Definition closeChan (ch : Chan) : Chan := mkChan (chBuf ch) (chCap ch) true.

Definition safeCloseChannel (p : ProcessInfo) : ProcessInfo :=
  if closed p then p
  else mkProcessInfo (ProjectID p) (Process p) (StartTime p)
         (closeChan (Logs p)) (LogBuffer p) true.

Definition maxBufferSize : nat := 1000.

(** The ring of a handle: append, then keep the last [maxBufferSize]
    lines. *)
Definition appendLogBuffer (buffer : list string) (line : string) : list string :=
  let buffer := buffer ++ [line] in
  if (maxBufferSize <? length buffer)%nat
  then drop (length buffer - maxBufferSize) buffer
  else buffer.

Definition addToLogBuffer (p : ProcessInfo) (line : string) : ProcessInfo :=
  mkProcessInfo (ProjectID p) (Process p) (StartTime p) (Logs p)
    (appendLogBuffer (LogBuffer p) line) (closed p).

(** A copy of the ring. *)
Definition getLogBuffer (p : ProcessInfo) : list string := LogBuffer p.

Definition GetServiceLogBuffer (m : Manager) (projectID : N) : list string :=
  match processes m !! projectID with
  | Some processInfo => getLogBuffer processInfo
  | None => []
  end.

(** ** Child command *)

Record Cmd : Type := mkCmd {
  Args : list string;
  Dir : string;
  Env : list string
}.

(** [exec.CommandContext(ctx, name, arg...)] *)
Definition CommandContext (name : string) (arg : list string) : Cmd :=
  mkCmd (name :: arg) "" [].

Definition prepareCommand (Command Args_ Type_ : string) : outcome Cmd :=
  if negb (isEmpty Command) then
    let parts := Fields Command in
    cmd <- (if (1 <? length parts)%nat
            then (name <- indexSlice parts 0 ;;
                  Returned (CommandContext name (drop 1 parts)))
            else (name <- indexSlice parts 0 ;;
                  Returned (CommandContext name []))) ;;
    if negb (isEmpty Args_)
    then Returned (mkCmd (Args cmd ++ Fields Args_) (Dir cmd) (Env cmd))
    else Returned cmd
  else if String.eqb Type_ TypeBackend
       then Returned (CommandContext "go" ["run"; "main.go"])
  else if String.eqb Type_ TypeFrontend
       then Returned (CommandContext "npm" ["start"])
  else Returned (CommandContext "sh" ["-c"; "echo 'No command specified'"]).

(** ** Rows and a host for the examples

    The example host has one state.  No process answers a probe and no
    tool reports a socket, unless an example says otherwise. *)

Definition exampleRow (command_ : string) (port_ pid_ : Z) (status_ : string) : Project :=
  mkProject "svc" "backend" "/srv/svc" command_ "" "" port_ "development" "" ""
    status_ pid_ None None "" "".

Definition quiet : unit -> Z -> bool := fun _ _ => false.
Definition still : Z -> unit -> unit := fun _ h => h.
Definition stillN : N -> unit -> unit := fun _ h => h.
Definition waited : N -> Z -> unit -> bool * unit := fun _ _ h => (true, h).
Definition clock : unit -> Z := fun _ => 1700000000000.
Definition silent : unit -> option string := fun _ => None.
(** Every PID is found, as [os.FindProcess] does on Unix; process 4242
    exists; a socket listens on port 8080 and on no other port. *)
Definition found : unit -> Z -> bool := fun _ _ => true.
Definition alive4242 : unit -> Z -> Z -> bool := fun _ pid _ => pid =? 4242.
Definition listens8080 : unit -> Z -> bool := fun _ port_ => port_ =? 8080.

(** A stopped service: no port, PID 0, no handle. *)
Definition stoppedManager : Manager :=
  mkManager {[ 1%N := exampleRow "npm start" 0 0 "stopped" ]} ∅.

(** A row left [running] with the PID of a process that is gone. *)
Definition staleManager : Manager :=
  mkManager {[ 5%N := exampleRow "npm start" 0 999999 "running" ]} ∅.

Definition exampleEnviron : unit -> list string :=
  fun _ => ["PATH=/bin"; "PORT=1"; "MODE=inherited"].
Definition exampleEnvFile : unit -> string -> option string :=
  fun _ _ => Some ("PORT=3000" +:+ String LF "MODE='file'").
Definition exampleJoin : string -> string -> string :=
  fun dir file => dir +:+ "/" +:+ file.

(** Pipes that can be made and a child that starts with PID 4242. *)
Definition pipesReady : unit -> bool * bool := fun _ => (true, true).
Definition spawn : Cmd -> unit -> (Z + string) * unit := fun _ h => (inl 4242, h).
Definition noOutput : unit -> Z -> option string := fun _ _ => None.
Definition notExited : unit -> N -> bool := fun _ _ => false.

(** The handle of service 1, and a manager that tracks it beside a
    stopped service 2. *)
Definition exampleHandle : ProcessInfo :=
  mkProcessInfo 1%N (Some 4242) 1700000000000 (makeChan 1000) [] false.
Definition runningManager : Manager :=
  mkManager {[ 1%N := exampleRow "npm start" 0 4242 "running";
               2%N := exampleRow "npm start" 0 0 "stopped" ]}
            {[ 1%N := exampleHandle ]}.

(** What [netstat -tlnp] prints for one listener on port 8080. *)
Definition exampleNetstat : unit -> option string :=
  fun _ => Some "tcp 0 0 0.0.0.0:8080 0.0.0.0:* LISTEN 4242/node".

(** A stopped service that declares port 80. *)
Definition port80Manager : Manager :=
  mkManager {[ 1%N := exampleRow "npm start" 80 0 "stopped" ]} ∅.

(** ** The supervisor over a host

    What the supervisor asks of the operating system and of the Go
    libraries is a parameter: the process table and its signals, the
    tools it runs ([pgrep], [lsof], [netstat], [ss]), the clock, the file
    system, the JSON decoder and the order in which a Go map is ranged
    over. *)

Definition DQUOTE : ascii := byte_of 34.
Definition SQUOTE : ascii := byte_of 39.

Section Supervisor.

Set Default Proof Using "Type".

Variable Host : Type.

(** [os.FindProcess(pid)] returns no error. *)
Variable FindProcess : Host -> Z -> bool.
(** [proc.Signal(os.Signal(nil))] returns no error, for a process
    found by PID.  Go's [os] package answers this call with an error
    for every process ([nilSignalProbe] below); what holds whatever the
    probe answers is proved for a free probe, and liveness is settled
    on the probe as Go answers it. *)
Variable Signal0 : Host -> Z -> bool.
(** The same probe on the child held by a handle. *)
Variable ChildSignal0 : Host -> Z -> bool.
(** [proc.Kill()], [time.Sleep(ms)], [time.Now()]. *)
Variable Kill : Z -> Host -> Host.
Variable Sleep : Z -> Host -> Host.
Variable Now : Host -> Z.
(** Cancelling the context of a handle, killing its child, and waiting
    for [Process.Wait()] to return within a number of milliseconds. *)
Variable CtxCancel : N -> Host -> Host.
Variable KillChild : Z -> Host -> Host.
Variable WaitDone : N -> Z -> Host -> bool * Host.
(** [cmd.StdoutPipe()] and [cmd.StderrPipe()] succeed; [cmd.Start()]
    gives the child's PID or an error text. *)
Variable PipesOK : Host -> bool * bool.
Variable StartCmd : Cmd -> Host -> (Z + string) * Host.
(** [pgrep -P pid]: its output when it exits with status 0. *)
Variable pgrep_P : Host -> Z -> option string.
(** [lsof -i :port -sTCP:LISTEN] and [lsof -i :port] exit with
    status 0; the output of [netstat -an] and of [ss -an]. *)
Variable lsof_listen : Host -> Z -> bool.
Variable lsof_any : Host -> Z -> bool.
Variable netstat_an : Host -> option string.
Variable ss_an : Host -> option string.
(** [os.Environ()], [os.ReadFile(path)] of an existing file,
    [filepath.Join]. *)
Variable Environ : Host -> list string.
Variable ReadFile : Host -> string -> option string.
Variable filepath_Join : string -> string -> string.
(** [json.Unmarshal] into a [map[string]interface{}], the number
    formatter and [%v] for arrays and objects. *)
Variable Float64 : Type.
Variable Composite : Type.

(** A decoded JSON value: [string], [float64], [bool], [nil], or an
    array or object. *)
Inductive JValue : Type :=
| JString (s : string)
| JNumber (f : Float64)
| JBool (b : bool)
| JNull
| JComposite (v : Composite).

Variable Unmarshal : string -> option (gmap string JValue).
Variable FormatFloat : Float64 -> string.
Variable Sprintf_v : Composite -> string.
(** The escaped content of a JSON string literal. *)
Variable jsonEscape : string -> string.
(** The order in which [range] visits a map: unspecified, but every
    entry once. *)
Variable mapRange : gmap string string -> list (string * string).
Hypothesis mapRange_perm : forall m, mapRange m ≡ₚ map_to_list m.

(** *** Liveness *)

Definition hasChildProcesses (h : Host) (parentPID : Z) : bool :=
  match pgrep_P h parentPID with
  | Some output => (0 <? String.length output)%nat
  | None => false
  end.

Definition listensOn (portStr : string) (output : string) : bool :=
  existsb (fun line => Contains line portStr && Contains line "LISTEN")
    (Split output LF).

Definition isPortInUse (h : Host) (port_ : Z) : bool :=
  if lsof_listen h port_ then true
  else if lsof_any h port_ then true
  else if match netstat_an h with
          | Some output => listensOn (":" +:+ Itoa port_) output
          | None => false
          end then true
  else match ss_an h with
       | Some output => listensOn (":" +:+ Itoa port_) output
       | None => false
       end.

Definition IsServiceRunning (m : Manager) (h : Host) (projectID : N) : bool :=
  if match processes m !! projectID with
     | Some processInfo =>
         match Process processInfo with
         | Some pid => ChildSignal0 h pid
         | None => false
         end
     | None => false
     end
  then true
  else
    match db m !! projectID with
    | None => false
    | Some project =>
        if (0 <? port project) && isPortInUse h (port project) then true
        else if 0 <? p_id project then
          if FindProcess h (p_id project) && Signal0 h (p_id project) then true
          else if hasChildProcesses h (p_id project) then true
          else false
        else false
    end.

(** *** Stop and force kill *)

Definition killByPID (pid waitMs : Z) (h : Host) : Host :=
  if FindProcess h pid then
    let h := Kill pid h in
    let h := Sleep waitMs h in
    if Signal0 h pid then Sleep 500 (Kill pid h) else h
  else h.

Definition StopService (projectID : N) (m : Manager) (h : Host)
  : error * Manager * Host :=
  match db m !! projectID with
  | None => (Some "project not found", m, h)
  | Some p =>
      let processRunning :=
        (0 <? p_id p) && FindProcess h (p_id p) && Signal0 h (p_id p) in
      let handle := processes m !! projectID in
      if negb processRunning && negb (bool_decide (is_Some handle)) then
        let now := Now h in
        (None,
         mkManager
           (Updates projectID
              [col_status StatusStopped; col_stop_time now; col_p_id 0] (db m))
           (processes m),
         h)
      else
        let db1 := Update projectID (col_status StatusStopping) (db m) in
        let '(procs, h) :=
          match handle with
          | Some processInfo =>
              let h := CtxCancel projectID h in
              let '(done, h) := WaitDone projectID 10000 h in
              let h :=
                if done then h
                else match Process processInfo with
                     | Some pid =>
                         let h := KillChild pid h in
                         let '(done, h) := WaitDone projectID 2000 h in
                         if done then h else KillChild pid h
                     | None => h
                     end in
              (* safeCloseChannel, delete *)
              (delete projectID (processes m), h)
          | None =>
              if processRunning && (0 <? p_id p)
              then (processes m, killByPID (p_id p) 1000 h)
              else (processes m, h)
          end in
        let now := Now h in
        (None,
         mkManager
           (Updates projectID
              [col_status StatusStopped; col_stop_time now; col_p_id 0] db1)
           procs,
         h)
  end.

Definition ForceKillService (projectID : N) (m : Manager) (h : Host)
  : error * Manager * Host :=
  match db m !! projectID with
  | None => (Some "project not found", m, h)
  | Some p =>
      let h := if 0 <? p_id p then killByPID (p_id p) 500 h else h in
      let '(procs, h) :=
        match processes m !! projectID with
        | Some processInfo =>
            (* Cancel, safeCloseChannel, delete *)
            (delete projectID (processes m), CtxCancel projectID h)
        | None => (processes m, h)
        end in
      let now := Now h in
      (None,
       mkManager
         (Updates projectID
            [col_status StatusStopped; col_stop_time now; col_p_id 0;
             col_last_error "Force killed"] (db m))
         procs,
       h)
  end.

(** *** Environment of the child *)

(** Removes one pair of matching quotes around a value. *)
Definition unquote (value : string) : string :=
  let n := String.length value in
  if (2 <=? n)%nat
     && ((bool_decide (String.get 0 value = Some DQUOTE)
          && bool_decide (String.get (n - 1) value = Some DQUOTE))
         || (bool_decide (String.get 0 value = Some SQUOTE)
             && bool_decide (String.get (n - 1) value = Some SQUOTE)))
  then sliceTo (n - 2) (sliceFrom 1 value)
  else value.

Definition loadEnvLine (envVars : gmap string string) (line : string)
  : gmap string string :=
  let line := TrimSpace line in
  if isEmpty line || HasPrefix line "#" then envVars
  else match SplitN2 line "=" with
       | [k; v] => <[TrimSpace k := unquote (TrimSpace v)]> envVars
       | _ => envVars
       end.

Definition loadEnvFile (h : Host) (envPath : string) : gmap string string :=
  match ReadFile h envPath with
  | None => ∅
  | Some content => fold_left loadEnvLine (Split content LF) ∅
  end.

Definition jsonValueText (v : JValue) : string :=
  match v with
  | JString val => val
  | JNumber val => FormatFloat val
  | JBool val => if val then "true" else "false"
  | JNull => ""
  | JComposite val => Sprintf_v val
  end.

(** Every member of the decoded object, turned into text; nothing when
    the text is not a JSON object. *)
Definition parseEnvVarsJSON (envVarsJSON : string) : gmap string string :=
  match Unmarshal envVarsJSON with
  | None => ∅
  | Some jsonMap => jsonValueText <$> jsonMap
  end.

Definition removeEnvVar (env : list string) (key : string) : list string :=
  let pre := key +:+ "=" in
  List.filter (fun e => negb (HasPrefix e pre)) env.

(** [for k, v := range vars { env = removeEnvVar(env, k); env = append(env, k=v) }] *)
Definition mergeEnv (env : list string) (vars : gmap string string) : list string :=
  fold_left (fun env kv => removeEnvVar env (fst kv) ++ [fst kv +:+ "=" +:+ snd kv])
    (mapRange vars) env.

Definition prepareEnvironment (h : Host)
    (Port : Z) (Environment EnvFile EnvVars Path : string) : list string :=
  let env := Environ h in
  let envFilePath :=
    if isEmpty EnvFile && negb (isEmpty Path)
    then filepath_Join Path ".env" else EnvFile in
  let env :=
    if negb (isEmpty envFilePath)
    then mergeEnv env (loadEnvFile h envFilePath) else env in
  let env :=
    if negb (isEmpty EnvVars)
    then mergeEnv env (parseEnvVarsJSON EnvVars) else env in
  let portSet := existsb (fun e => HasPrefix e "PORT=") env in
  let env :=
    if negb portSet && (0 <? Port) then env ++ ["PORT=" +:+ Itoa Port] else env in
  let envSet := existsb (fun e => HasPrefix e "ENVIRONMENT=") env in
  if negb envSet && negb (isEmpty Environment)
  then env ++ ["ENVIRONMENT=" +:+ Environment] else env.

(** *** Start *)

Definition StartService (projectID : N) (m : Manager) (h : Host)
  : outcome (error * Manager * Host) :=
  match processes m !! projectID with
  | Some _ => Returned (Some "service is already running", m, h)
  | None =>
      match db m !! projectID with
      | None => Returned (Some "project not found", m, h)
      | Some p =>
          let db1 := Update projectID (col_status StatusStarting) (db m) in
          cmd <- prepareCommand (command p) (args p) (type p) ;;
          let dir := if negb (isEmpty (working_dir p)) then working_dir p else path p in
          let env := prepareEnvironment h (port p) (environment p)
                       (env_file p) (env_vars p) (path p) in
          let cmd := mkCmd (Args cmd) dir env in
          let logs := makeChan 1000 in
          if negb (fst (PipesOK h)) then
            Returned (Some "failed to create stdout pipe", mkManager db1 (processes m), h)
          else if negb (snd (PipesOK h)) then
            Returned (Some "failed to create stderr pipe", mkManager db1 (processes m), h)
          else
            let processInfo := mkProcessInfo projectID None (Now h) logs [] false in
            let procs := <[projectID := processInfo]> (processes m) in
            match StartCmd cmd h with
            | (inr err, h) =>
                Returned
                  (Some ("failed to start service: " +:+ err),
                   mkManager
                     (Updates projectID
                        [col_status StatusError; col_last_error err] db1)
                     (delete projectID procs),
                   CtxCancel projectID h)
            | (inl pid, h) =>
                if pid <=? 0 then
                  Returned
                    (Some "process started but PID is invalid",
                     mkManager
                       (Updates projectID
                          [col_status StatusError;
                           col_last_error "Process started but PID is invalid.";
                           col_p_id 0] db1)
                       (delete projectID procs),
                     CtxCancel projectID h)
                else
                  let processInfo :=
                    mkProcessInfo projectID (Some pid) (StartTime processInfo)
                      logs [] false in
                  let now := Now h in
                  Returned
                    (None,
                     mkManager
                       (Updates projectID
                          [col_status StatusRunning; col_p_id pid;
                           col_start_time now; col_last_error ""] db1)
                       (<[projectID := processInfo]> (processes m)),
                     h)
            end
      end
  end.

(** *** Log capture *)

(** [json.Marshal] of a slice of strings. *)
Definition jsonString (s : string) : string :=
  String DQUOTE (jsonEscape s +:+ String DQUOTE EmptyString).

Fixpoint joinStrings (sep : string) (xs : list string) : string :=
  match xs with
  | [] => EmptyString
  | [x] => x
  | x :: xs' => x +:+ sep +:+ joinStrings sep xs'
  end.

Definition jsonMarshal (logs_ : list string) : string :=
  "[" +:+ joinStrings "," (map jsonString logs_) +:+ "]".

Definition saveLogsToDatabase (projectID : N) (logs_ : list string)
    (d : gmap N Project) : gmap N Project :=
  if (length logs_ =? 0)%nat then d
  else Update projectID (col_logs (jsonMarshal logs_)) d.

Definition withLogs (p : ProcessInfo) (ch : Chan) : ProcessInfo :=
  mkProcessInfo (ProjectID p) (Process p) (StartTime p) ch (LogBuffer p) (closed p).

(** The state a capturer works on: the handle it shares, the catalog,
    and the time of its last save (milliseconds). *)
Record Capture : Type := mkCapture {
  handle : ProcessInfo;
  catalog : gmap N Project;
  lastSaveTime : Z
}.

(** The statements of the capturer that touch the state it shares with
    the rest of the supervisor, as the source has them:
    [processInfo.addToLogBuffer(logLine)],
    [safeSendLog(processInfo.Logs, logLine)], the save that the loop
    makes when more than two seconds have passed since the last one (at
    time [t], which becomes the time of the last save), and the save
    after a scanner error. *)
Inductive Stmt : Type :=
| AddToLogBuffer (logLine : string)
| SafeSendLog (logLine : string)
| SaveIfDue (t : Z)
| SaveLogs.

Definition exec (st : Capture) (s : Stmt) : Capture :=
  match s with
  | AddToLogBuffer logLine =>
      mkCapture (addToLogBuffer (handle st) logLine) (catalog st) (lastSaveTime st)
  | SafeSendLog logLine =>
      mkCapture (withLogs (handle st) (fst (safeSendLog (Logs (handle st)) logLine)))
        (catalog st) (lastSaveTime st)
  | SaveIfDue t =>
      if 2000 <? t - lastSaveTime st
      then mkCapture (handle st)
             (saveLogsToDatabase (ProjectID (handle st)) (getLogBuffer (handle st))
                (catalog st))
             t
      else st
  | SaveLogs =>
      mkCapture (handle st)
        (saveLogsToDatabase (ProjectID (handle st)) (getLogBuffer (handle st))
           (catalog st))
        (lastSaveTime st)
  end.

(** One turn of the scanner loop of [captureOutputWithBuffer], for a
    line read at time [t]: its statements in program order.  A line
    whose stripped form is empty is skipped ([continue]). *)
Definition loopBody (isStderr : bool) (line : string) (t : Z) : list Stmt :=
  let cleanLine := stripANSI line in
  if isEmpty cleanLine then []
  else
    let logLine := if isStderr then "[ERROR] " +:+ cleanLine else cleanLine in
    [AddToLogBuffer logLine; SafeSendLog logLine; SaveIfDue t].

Definition captureLine (isStderr : bool) (st : Capture) (line : string) (t : Z)
  : Capture :=
  fold_left exec (loopBody isStderr line t) st.

(** What follows the loop: nothing, or on a scanner error the error
    line and the final save. *)
Definition afterScan (scanErr : option string) : list Stmt :=
  match scanErr with
  | None => []
  | Some err =>
      let errorMsg := "[ERROR] Error reading output: " +:+ err in
      [AddToLogBuffer errorMsg; SafeSendLog errorMsg; SaveLogs]
  end.

(** The statements of a whole run over the lines of the pipe, in the
    order they are executed. *)
Definition captureProgram (isStderr : bool) (lines : list (string * Z))
    (scanErr : option string) : list Stmt :=
  flat_map (fun lt => loopBody isStderr (fst lt) (snd lt)) lines ++ afterScan scanErr.

(** The loop over the lines of the pipe, then the scanner error, if
    any. *)
Definition captureOutputWithBuffer (isStderr : bool) (st : Capture)
    (lines : list (string * Z)) (scanErr : option string) : Capture :=
  fold_left exec (captureProgram isStderr lines scanErr) st.

(** *** The rest of the supervisor: more of the host *)

(** [Process.ProcessState] of the handle is set and says the child has
    exited. *)
Variable Exited : Host -> N -> bool.
(** [proc.Kill()] returns this error ([None]: it returns nil). *)
Variable KillError : Host -> Z -> option string.
(** [lsof -ti :port], [netstat -tlnp], [ss -tlnp] and
    [lsof -iTCP -sTCP:LISTEN -P -n]: the output when the tool exits with
    status 0. *)
Variable lsof_ti : Host -> Z -> option string.
Variable netstat_tlnp : Host -> option string.
Variable ss_tlnp : Host -> option string.
Variable lsof_iTCP : Host -> option string.
(** [ps -p pid -o command=] and [ps -p pid -o args=]. *)
Variable ps_command : Host -> Z -> option string.
Variable ps_args : Host -> Z -> option string.
(** The order in which [range] visits the handle map. *)
Variable rangeProcesses : gmap N ProcessInfo -> list (N * ProcessInfo).

(** *** Restart, the exit watcher, live logs *)

Definition RestartService (projectID : N) (m : Manager) (h : Host)
  : outcome (error * Manager * Host) :=
  match processes m !! projectID with
  | Some _ =>
      match StopService projectID m h with
      | (Some err, m, h) =>
          Returned (Some ("failed to stop service: " +:+ err), m, h)
      | (None, m, h) => StartService projectID m (Sleep 2000 h)
      end
  | None => StartService projectID m h
  end.

(** [monitorProcess] once [Process.Wait()] has returned [waitErr]. *)
Definition monitorProcess (processInfo : ProcessInfo) (waitErr : error)
    (m : Manager) (h : Host) : Manager :=
  let now := Now h in
  let status_ := match waitErr with Some _ => StatusError | None => StatusStopped end in
  let lastError := match waitErr with Some err => err | None => "" end in
  mkManager
    (Updates (ProjectID processInfo)
       [col_status status_; col_stop_time now; col_p_id 0; col_last_error lastError]
       (db m))
    (* safeCloseChannel, delete *)
    (delete (ProjectID processInfo) (processes m)).

Definition GetServiceLogs (m : Manager) (h : Host) (projectID : N) : option Chan :=
  match processes m !! projectID with
  | Some processInfo =>
      match Process processInfo with
      | Some pid => if ChildSignal0 h pid then Some (Logs processInfo) else None
      | None => None
      end
  | None => None
  end.



(** *** The port inventory *)

Record PortInfo : Type := mkPortInfo {
  Port : Z;
  PID : Z;
  ProcessName : string;
  User : string;
  CommandLine : string;
  Status : string
}.

Definition getProcessCommand (h : Host) (pid : Z) : string :=
  match ps_command h pid with
  | Some output => TrimSpace output
  | None =>
      match ps_args h pid with
      | Some output => TrimSpace output
      | None => "unknown"
      end
  end.

(** The first element of [strings.Split(s, "/")]. *)
Definition beforeSlash (s : string) : string :=
  match Split s "/" with
  | first :: _ => first
  | [] => ""
  end.

(** [strings.TrimPrefix(s, prefix)] *)
Definition TrimPrefix (s pre : string) : string :=
  if HasPrefix s pre then sliceFrom (String.length pre) s else s.

Definition extractPIDFromSS (processField : string) : Z :=
  if HasPrefix processField "pid=" then
    match Split processField "," with
    | part0 :: _ =>
        match Atoi (TrimPrefix part0 "pid=") with
        | Some pid => pid
        | None => 0
        end
    | [] => 0
    end
  else 0.

Definition extractProcessNameFromSS (processField : string) : string :=
  let idx := Index processField "cmd=" in
  if idx =? -1 then "unknown"
  else
    let cmdPart := sliceFrom (Z.to_nat (idx + 4)) processField in
    let commaIdx := Index cmdPart "," in
    if commaIdx =? -1 then cmdPart else sliceTo (Z.to_nat commaIdx) cmdPart.

(** The PID that a [netstat -tlnp] line gives for the port, if the line
    is a LISTEN line of that port with a numeric PID in its 7th field. *)
Definition pidOfNetstatLine (port_ : Z) (line : string) : option Z :=
  if Contains line (":" +:+ Itoa port_) && Contains line "LISTEN" then
    let fields := Fields line in
    if (7 <=? length fields)%nat then
      match fields !! 6%nat with
      | Some field => Atoi (beforeSlash field)
      | None => None
      end
    else None
  else None.

Fixpoint firstPid (port_ : Z) (lines : list string) : option Z :=
  match lines with
  | [] => None
  | line :: lines' =>
      match pidOfNetstatLine port_ line with
      | Some pid => Some pid
      | None => firstPid port_ lines'
      end
  end.

Definition getPIDByPort (h : Host) (port_ : Z) : Z * error :=
  match match lsof_ti h port_ with
        | Some output => Atoi (TrimSpace output)
        | None => None
        end with
  | Some pid => (pid, None)
  | None =>
      match match netstat_tlnp h with
            | Some output => firstPid port_ (Split output LF)
            | None => None
            end with
      | Some pid => (pid, None)
      | None => (0, Some ("process not found on port " +:+ Itoa port_))
      end
  end.

Definition KillPort (port_ : Z) (h : Host) : error * Host :=
  match getPIDByPort h port_ with
  | (_, Some err) =>
      (Some ("failed to find process on port " +:+ Itoa port_ +:+ ": " +:+ err), h)
  | (pid, None) =>
      if pid =? 0 then (Some ("no process found on port " +:+ Itoa port_), h)
      else if negb (FindProcess h pid) then
        (Some ("failed to find process " +:+ Itoa pid), h)
      else
        match KillError h pid with
        | Some err =>
            (Some ("failed to kill process " +:+ Itoa pid +:+ ": " +:+ err), Kill pid h)
        | None =>
            let h := Kill pid h in
            let h := Sleep 500 h in
            (None, if Signal0 h pid then Kill pid h else h)
        end
  end.

(** [strings.Join(elems, sep)] *)
Definition Join (elems : list string) (sep : string) : string := joinStrings sep elems.

(** The NAME of an [lsof] line: from the last field with a colon to the
    end of the line, or nothing. *)
Fixpoint lsofNameField (fields : list string) : option string :=
  match fields with
  | [] => None
  | field :: rest =>
      match lsofNameField rest with
      | Some nameField => Some nameField
      | None => if Contains field ":" then Some (Join fields " ") else None
      end
  end.

(** The record that one line of the [lsof] listing gives, if any. *)
Definition lsofRecord (h : Host) (line : string) : option PortInfo :=
  if isEmpty (TrimSpace line) then None
  else
    let fields := Fields line in
    if (length fields <? 8)%nat then None
    else
      match fields !! 0%nat, fields !! 1%nat, fields !! 2%nat with
      | Some command_, Some pidStr, Some user =>
          match Atoi pidStr with
          | None => None
          | Some pid =>
              match lsofNameField fields with
              | None => None
              | Some nameField =>
                  if isEmpty nameField then None
                  else
                    let port_ := extractPortFromLsofName nameField in
                    if port_ =? 0 then None
                    else Some (mkPortInfo port_ pid command_ user
                                 (getProcessCommand h pid) "LISTEN")
              end
          end
      | _, _, _ => None
      end.

(** The record that one line of [netstat -tlnp] gives, if any. *)
Definition netstatRecord (h : Host) (line : string) : option PortInfo :=
  if Contains line "LISTEN" then
    let fields := Fields line in
    if (length fields <? 4)%nat then None
    else
      match fields !! 3%nat with
      | None => None
      | Some localAddr =>
          let port_ := extractPortFromAddr localAddr in
          if port_ =? 0 then None
          else
            let pid :=
              match (if (7 <=? length fields)%nat then fields !! 6%nat else None) with
              | Some field =>
                  match Atoi (beforeSlash field) with
                  | Some p => p
                  | None => 0
                  end
              | None => 0
              end in
            if 0 <? pid then
              let processName :=
                match fields !! 6%nat with
                | Some field =>
                    match Split field "/" with
                    | _ :: second :: _ => second
                    | _ => "unknown"
                    end
                | None => "unknown"
                end in
              Some (mkPortInfo port_ pid processName "unknown"
                      (getProcessCommand h pid) "LISTEN")
            else None
      end
  else None.

(** The record that one line of [ss -tlnp] gives, if any. *)
Definition ssRecord (h : Host) (line : string) : option PortInfo :=
  if Contains line "LISTEN" then
    let fields := Fields line in
    if (length fields <? 5)%nat then None
    else
      match fields !! 3%nat with
      | None => None
      | Some localAddr =>
          let port_ := extractPortFromAddr localAddr in
          if port_ =? 0 then None
          else
            let pidMatch :=
              match (if (6 <=? length fields)%nat then fields !! 5%nat else None) with
              | Some processField => extractPIDFromSS processField
              | None => 0
              end in
            if 0 <? pidMatch then
              let processName :=
                match fields !! 5%nat with
                | Some processField => extractProcessNameFromSS processField
                | None => "unknown"
                end in
              Some (mkPortInfo port_ pidMatch processName "unknown"
                      (getProcessCommand h pidMatch) "LISTEN")
            else None
      end
  else None.

Definition getPortsFromSS (h : Host) : list PortInfo * error :=
  match ss_tlnp h with
  | None => ([], Some "failed to get ports")
  | Some output => (omap (ssRecord h) (Split output LF), None)
  end.

Definition getPortsFromNetstat (h : Host) : list PortInfo * error :=
  match netstat_tlnp h with
  | None => getPortsFromSS h
  | Some output => (omap (netstatRecord h) (Split output LF), None)
  end.

(** The first line of the listing is its header. *)
Definition GetPortsInUse (h : Host) : list PortInfo * error :=
  match lsof_iTCP h with
  | None => getPortsFromNetstat h
  | Some output => (omap (lsofRecord h) (drop 1 (Split output LF)), None)
  end.

(** *** The reconciling status read *)

(** The PID to record for a service found running: the persisted one,
    or, when that is 0 and a port is declared, the owner of the port. *)
Definition resolvePID (h : Host) (p : Project) : Z :=
  if p_id p =? 0 then
    if 0 <? port p then
      match getPIDByPort h (port p) with
      | (pidFromPort, None) => pidFromPort
      | (_, Some _) => p_id p
      end
    else p_id p
  else p_id p.

(** [GetServiceStatus]: the reconciled row it returns (or the error), and
    the manager it leaves. *)
Definition GetServiceStatus (projectID : N) (m : Manager) (h : Host)
  : (option Project * error) * Manager :=
  if (projectID =? 0)%N then ((None, Some "invalid project ID"), m)
  else
    match db m !! projectID with
    | None => ((None, Some "record not found"), m)
    | Some p =>
        let isRunning := IsServiceRunning m h projectID in
        let currentStatus := status p in
        if isRunning
           && (String.eqb currentStatus StatusStopped
               || String.eqb currentStatus StatusStarting)
        then
          let now := Now h in
          let actualPID := resolvePID h p in
          let cols := [col_status StatusRunning; col_p_id actualPID;
                       col_start_time now] in
          ((Some (fold_left setColumn cols p), None),
           mkManager (Updates projectID cols (db m)) (processes m))
        else if negb isRunning then
          let now := Now h in
          let cols := [col_status StatusStopped; col_stop_time now; col_p_id 0] in
          match processes m !! projectID with
          | Some processInfo =>
              if Exited h projectID
                 || match Process processInfo with
                    | Some pid => negb (ChildSignal0 h pid)
                    | None => false
                    end
              then
                ((Some (fold_left setColumn cols p), None),
                 mkManager (Updates projectID cols (db m))
                   (* safeCloseChannel, delete *)
                   (delete projectID (processes m)))
              else ((Some p, None), m)
          | None =>
              if String.eqb currentStatus StatusRunning
                 || String.eqb currentStatus StatusStarting
              then
                ((Some (fold_left setColumn cols p), None),
                 mkManager (Updates projectID cols (db m)) (processes m))
              else ((Some p, None), m)
          end
        else ((Some p, None), m)
    end.

(** *** The probe of the source and the probe of the spec *)

(** [kill(2)] with a PID and a signal number returns 0; with the number
    0 no signal is sent and the call tells whether the process exists. *)
Variable kill : Host -> Z -> Z -> bool.
(** A socket is bound to the port in LISTEN state. *)
Variable Listening : Host -> Z -> bool.

(** [(p *os.Process).Signal(sig)] of Go's [os] package on Unix, for a
    process found by PID.  An [os.Signal] is [None] for the nil
    interface and [Some n] for [syscall.Signal(n)].  The method asserts
    that the signal is a [syscall.Signal]; for any other value, the nil
    interface among them, it returns the error
    [os: unsupported signal type] and makes no system call. *)
Definition Process_Signal (h : Host) (pid : Z) (sig : option Z) : error :=
  match sig with
  | None => Some "os: unsupported signal type"
  | Some n => if kill h pid n then None else Some "os: process already finished"
  end.

(** The probe of the source: [proc.Signal(os.Signal(nil))] returned no
    error. *)
Definition nilSignalProbe (h : Host) (pid : Z) : bool :=
  match Process_Signal h pid None with
  | None => true
  | Some _ => false
  end.

(** The probe of the spec, the no-op signal:
    [proc.Signal(syscall.Signal(0))] returned no error. *)
Definition signal0Probe (h : Host) (pid : Z) : bool :=
  match Process_Signal h pid (Some 0) with
  | None => true
  | Some _ => false
  end.

(** *** What the liveness claim speaks of *)

(** A tracked handle whose child answers the probe. *)
Definition handleLive (m : Manager) (h : Host) (projectID : N) : Prop :=
  exists processInfo pid,
    processes m !! projectID = Some processInfo
    /\ Process processInfo = Some pid
    /\ ChildSignal0 h pid = true.

(** The declared port is positive and in use. *)
Definition portLive (m : Manager) (h : Host) (projectID : N) : Prop :=
  exists p, db m !! projectID = Some p
    /\ 0 < port p /\ isPortInUse h (port p) = true.

(** The persisted PID is positive and answers the probe. *)
Definition pidLive (m : Manager) (h : Host) (projectID : N) : Prop :=
  exists p, db m !! projectID = Some p
    /\ 0 < p_id p
    /\ FindProcess h (p_id p) = true /\ Signal0 h (p_id p) = true.

(** The persisted PID has a child process. *)
Definition childLive (m : Manager) (h : Host) (projectID : N) : Prop :=
  exists p, db m !! projectID = Some p
    /\ hasChildProcesses h (p_id p) = true.

(** The persisted PID is positive and has a child process. *)
Definition positiveChildLive (m : Manager) (h : Host) (projectID : N) : Prop :=
  exists p, db m !! projectID = Some p
    /\ 0 < p_id p /\ hasChildProcesses h (p_id p) = true.

(** A tracked handle whose child answers a signal-0 probe. *)
Definition handleAnswers (m : Manager) (h : Host) (projectID : N) : Prop :=
  exists processInfo pid,
    processes m !! projectID = Some processInfo
    /\ Process processInfo = Some pid
    /\ signal0Probe h pid = true.

(** The declared port is positive and bound in LISTEN state. *)
Definition portListening (m : Manager) (h : Host) (projectID : N) : Prop :=
  exists p, db m !! projectID = Some p
    /\ 0 < port p /\ Listening h (port p) = true.

(** The persisted PID is positive and answers a signal-0 probe. *)
Definition pidAnswers (m : Manager) (h : Host) (projectID : N) : Prop :=
  exists p, db m !! projectID = Some p
    /\ 0 < p_id p /\ signal0Probe h (p_id p) = true.

(** The liveness claim word for word: live exactly when one of the four
    conditions holds. *)
Definition livenessAsClaimed (m : Manager) (h : Host) (projectID : N) : Prop :=
  IsServiceRunning m h projectID = true
  <-> handleAnswers m h projectID \/ portListening m h projectID
      \/ pidAnswers m h projectID \/ childLive m h projectID.

(** The row that Stop and ForceKill leave behind. *)
Definition stoppedRow (p : Project) (now : Z) (err : string) : Project :=
  mkProject (name p) (type p) (path p) (command p) (args p) (working_dir p)
    (port p) (environment p) (env_file p) (env_vars p)
    StatusStopped 0 (start_time p) (Some now) err (logs p).

(** The persisted PID answers the liveness probe. *)
Definition persistedPidAnswers (h : Host) (p : Project) : bool :=
  (0 <? p_id p) && FindProcess h (p_id p) && Signal0 h (p_id p).

(** A row with its [logs] column blanked: what the log writer must
    leave alone. *)
Definition withoutLogs (p : Project) : Project := setColumn p (col_logs "").

(** *** What the stripping claim speaks of *)

(** Does the byte [c] occur in [s]? *)
Definition hasByte (s : string) (c : ascii) : bool := inCutset c s.

(** [\[[0-9;]+[a-zA-Z]]: a bracket, parameters and a final letter, with
    no escape byte before it. *)
Definition bareResidueRegex (s : string) : option nat :=
  match s with
  | String c0 (String c1 s') =>
      if Ascii.eqb c0 "[" && isParam c1
      then option_map (Nat.add 2) (paramsThenLetter s')
      else None
  | _ => None
  end.

(** Does the pattern match somewhere in [s]? *)
Fixpoint hasMatch (re : string -> option nat) (s : string) : bool :=
  match re s with
  | Some _ => true
  | None => match s with
            | EmptyString => false
            | String _ s' => hasMatch re s'
            end
  end.

(** The stripping claim word for word: no escape byte and no bare
    residue in the output. *)
Definition strippedAsClaimed (line : string) : Prop :=
  hasByte (stripANSI line) ESC = false
  /\ hasMatch bareResidueRegex (stripANSI line) = false.

Fixpoint allParams (s : string) : bool :=
  match s with
  | EmptyString => true
  | String c s' => isParam c && allParams s'
  end.

(** The text that the residue pass of stripANSI reads: the line with
    the escape sequences and the escape markers removed. *)
Definition withoutEscapes (s : string) : string :=
  let result := ReplaceAllString ansiEscapeRegexJSON s "" in
  let result := ReplaceAllString ansiEscapeRegex result "" in
  let result := RemoveAll result (String ESC EmptyString) in
  let result := RemoveAll result (String ESC EmptyString) in
  let result := RemoveAll result "\u001b" in
  RemoveAll result "\033".

(** [[0-9;]*\[] at the head of [s]. *)
Fixpoint paramsThenOpen (s : string) : option nat :=
  match s with
  | EmptyString => None
  | String c s' =>
      if Ascii.eqb c "[" then Some 1%nat
      else if isParam c then option_map S (paramsThenOpen s') else None
  end.

(** [\[[0-9;]*\[]: a bracket, parameters if any, and another bracket.
    Where the text has none, taking a residue out cannot put a new one
    together. *)
Definition bracketPairRegex (s : string) : option nat :=
  match s with
  | String c s' =>
      if Ascii.eqb c "[" then option_map S (paramsThenOpen s') else None
  | EmptyString => None
  end.

(** *** What the port-extraction claim speaks of *)

(** A parsed number taken as a port: itself when it is in 1..65535,
    else 0. *)
Definition portValue (parsed : option Z) : Z :=
  match parsed with
  | Some n => if (0 <? n) && (n <=? 65535) then n else 0
  | None => 0
  end.

(** The text after the last colon of [addr], if it has a colon. *)
Definition afterLastColon (addr : string) : option string :=
  if hasByte addr ":" then last (Split addr ":") else None.

Fixpoint endsWith (s : string) (c : ascii) : bool :=
  match s with
  | EmptyString => false
  | String d EmptyString => Ascii.eqb c d
  | String _ s' => endsWith s' c
  end.

(** [text] without a trailing annotation in parentheses. *)
Definition stripAnnotation (text : string) : string :=
  if endsWith text ")" && hasByte text "("
  then sliceTo (Z.to_nat (LastIndex text "(")) text
  else text.

(** The port-extraction claim word for word: the text after the last
    colon, without a trailing annotation, read as a number (blanks around it
    ignored), is the port when it is in 1..65535, and the answer is 0
    otherwise. *)
Definition portAsClaimed (addr : string) : Z :=
  match afterLastColon addr with
  | Some text => portValue (Atoi (TrimSpace (stripAnnotation text)))
  | None => 0
  end.

Definition extractionAsClaimed (addr : string) : Prop :=
  extractPortFromLsofName addr = portAsClaimed addr
  /\ extractPortFromAddr addr = portAsClaimed addr.

(** *** What the environment claim speaks of *)

(** The entry [k=v] of an environment list. *)
Definition envEntry (k v : string) : string := k +:+ "=" +:+ v.

(** The variables of the env file that [prepareEnvironment] merges: those
    of the declared file, or of [.env] under the project path. *)
Definition envFileVars (h : Host) (EnvFile Path : string) : gmap string string :=
  let envFilePath :=
    if isEmpty EnvFile && negb (isEmpty Path)
    then filepath_Join Path ".env" else EnvFile in
  if negb (isEmpty envFilePath) then loadEnvFile h envFilePath else ∅.

(** The variables of the inline JSON that [prepareEnvironment] merges. *)
Definition inlineVars (EnvVars : string) : gmap string string :=
  if negb (isEmpty EnvVars) then parseEnvVarsJSON EnvVars else ∅.

(** [env] has the entry [k=v], and no other entry for the name [k]. *)
Definition bindsOnly (env : list string) (k v : string) : Prop :=
  envEntry k v ∈ env
  /\ forall e, e ∈ env -> HasPrefix e (k +:+ "=") = true -> e = envEntry k v.

(** No variable of the map gives [e] its name. *)
Definition notNamedBy (vars : gmap string string) (e : string) : Prop :=
  forall k v, vars !! k = Some v -> HasPrefix e (k +:+ "=") = false.

(** The names of the map are free of ['=']. *)
Definition plainNames (vars : gmap string string) : Prop :=
  map_Forall (fun k _ => hasByte k "=" = false) vars.

(** The default entries appended after the merges. *)
Definition portDefault (merged : list string) (Port : Z) : list string :=
  if negb (existsb (fun e => HasPrefix e "PORT=") merged) && (0 <? Port)
  then ["PORT=" +:+ Itoa Port] else [].

Definition environmentDefault (merged : list string) (Environment : string)
    : list string :=
  if negb (existsb (fun e => HasPrefix e "ENVIRONMENT=") merged)
     && negb (isEmpty Environment)
  then ["ENVIRONMENT=" +:+ Environment] else [].

(** *** What the handle map keeps *)

(** Every handle sits under its own project id and holds the positive
    PID of its child. *)
Definition tracked (m : Manager) : Prop :=
  forall projectID processInfo,
    processes m !! projectID = Some processInfo ->
    ProjectID processInfo = projectID
    /\ exists pid, Process processInfo = Some pid /\ 0 < pid.

(** *** The key of a line of the environment file *)

(** The key that [loadEnvFile] assigns when it reads the line, if the
    line is an assignment: not blank, no comment, and with an equal
    sign. *)
Definition lineKey (line : string) : option string :=
  let line := TrimSpace line in
  if isEmpty line || HasPrefix line "#" then None
  else match SplitN2 line "=" with
       | [k; _] => Some (TrimSpace k)
       | _ => None
       end.

(** *** What a capture run logs *)

(** The lines that a capturer logs for the lines it reads: stripped, the
    empty ones left out, the stderr ones marked. *)
Definition logLines (isStderr : bool) (lines : list (string * Z)) : list string :=
  omap (fun lt =>
          let cleanLine := stripANSI (fst lt) in
          if isEmpty cleanLine then None
          else Some (if isStderr then "[ERROR] " +:+ cleanLine else cleanLine))
    lines.

(** Appending a line to the ring of a handle and offering it to its
    channel. *)
Definition logTo (p : ProcessInfo) (logLine : string) : ProcessInfo :=
  withLogs (addToLogBuffer p logLine) (fst (safeSendLog (Logs p) logLine)).

(** *** White space of a cleaned line *)

(** No two blanks side by side. *)
Fixpoint noDoubleSpace (s : string) : bool :=
  match s with
  | String a ((String b _) as t) =>
      negb (Ascii.eqb a " " && Ascii.eqb b " ") && noDoubleSpace t
  | _ => true
  end.

(** ** Theorems *)

(** *** The log ring *)

Lemma appendLogBuffer_length (buffer : list string) (line : string) :
  (length (appendLogBuffer buffer line) <= maxBufferSize)%nat.
Proof.
  unfold appendLogBuffer.
  generalize maxBufferSize; intro cap.
  destruct (Nat.ltb_spec cap (length (buffer ++ [line]))) as [Hlt | Hge].
  - rewrite length_drop. lia.
  - exact Hge.
Qed.

Lemma appendLogBuffer_suffix (history buffer : list string) (line : string) :
  buffer = drop (length history - maxBufferSize) history ->
  appendLogBuffer buffer line
  = drop (length (history ++ [line]) - maxBufferSize) (history ++ [line]).
Proof.
  unfold appendLogBuffer.
  generalize maxBufferSize; intros cap ->.
  rewrite !length_app, length_drop. cbn [length].
  destruct (Nat.ltb_spec cap (length history - (length history - cap) + 1)) as [Hlt | Hge].
  - destruct (Nat.le_gt_cases (length history) cap) as [Hle | Hgt].
    + replace (length history - cap)%nat with 0%nat by lia.
      rewrite !drop_0.
      replace (length history - 0 + 1 - cap)%nat with (length history + 1 - cap)%nat by lia.
      reflexivity.
    + rewrite <- drop_app_le by lia.
      rewrite drop_drop. f_equal. lia.
  - replace (length history - cap)%nat with 0%nat by lia.
    replace (length history + 1 - cap)%nat with 0%nat by lia.
    reflexivity.
Qed.

Lemma fold_appendLogBuffer (lines history : list string) :
  fold_left appendLogBuffer lines (drop (length history - maxBufferSize) history)
  = drop (length (history ++ lines) - maxBufferSize) (history ++ lines).
Proof.
  revert history.
  induction lines as [| line lines IH]; intro history.
  - rewrite app_nil_r. reflexivity.
  - cbn [fold_left].
    rewrite (appendLogBuffer_suffix history _ line eq_refl).
    rewrite IH, <- app_assoc. reflexivity.
Qed.

Lemma LogBuffer_fold_addToLogBuffer (lines : list string) (p : ProcessInfo) :
  LogBuffer (fold_left addToLogBuffer lines p)
  = fold_left appendLogBuffer lines (LogBuffer p).
Proof.
  revert p. induction lines as [| line lines IH]; intro p; [reflexivity |].
  cbn [fold_left]. rewrite IH. reflexivity.
Qed.

(** C6.  Appending to the ring of a handle is a total function of the
    ring and the line (it never waits); whatever the ring held, it
    holds at most 1000 lines afterwards; and the ring of a handle that
    started empty, after any sequence of appends, is the sequence
    without all but its last 1000 lines: the oldest lines leave first,
    and from the 1000th append on the ring has exactly 1000 lines. *)
Theorem log_ring_keeps_last_1000 :
  forall (p : ProcessInfo) (line : string) (lines : list string)
         (id : N) (pid : option Z) (t : Z) (ch : Chan),
    let ring :=
      LogBuffer (fold_left addToLogBuffer lines (mkProcessInfo id pid t ch [] false)) in
    (length (LogBuffer (addToLogBuffer p line)) <= 1000)%nat
    /\ ring = drop (length lines - 1000) lines
    /\ length ring = Nat.min 1000 (length lines).
Proof.
  intros p line lines id pid t ch ring. subst ring.
  change 1000%nat with maxBufferSize.
  split; [apply appendLogBuffer_length |].
  rewrite LogBuffer_fold_addToLogBuffer. cbn [LogBuffer].
  pose proof (fold_appendLogBuffer lines []) as H.
  cbn [length app] in H. rewrite drop_nil in H. rewrite H.
  split; [reflexivity |].
  rewrite length_drop. generalize maxBufferSize. lia.
Qed.

(** *** The catalog writes *)

Lemma Updates_lookup (id j : N) (cols : list Column) (d : gmap N Project) :
  Updates id cols d !! j
  = if decide (id = j)
    then (fun p => fold_left setColumn cols p) <$> d !! j
    else d !! j.
Proof.
  unfold Updates. destruct (decide (id = j)) as [-> | Hne].
  - apply lookup_alter_eq.
  - apply lookup_alter_ne; exact Hne.
Qed.

Lemma jsonMarshal_cons_not_empty_array (l : string) (ls : list string) :
  jsonMarshal (l :: ls) <> "[]".
Proof.
  unfold jsonMarshal. cbn [map]. intro H.
  destruct (map jsonString ls); cbn in H; unfold jsonString in H; discriminate H.
Qed.

(** C9.  Persisting an empty snapshot leaves the catalog as it is; a
    snapshot with at least one line is marshalled to a JSON array that
    is not the empty array; and whatever the snapshot, every row keeps
    all its columns but [logs], rows other than the service's own keep
    [logs] too, and no row appears or disappears. *)
Theorem saveLogs_skips_empty_and_frames :
  forall (projectID j : N) (lines : list string) (line : string)
         (d : gmap N Project),
    saveLogsToDatabase projectID [] d = d
    /\ saveLogsToDatabase projectID (line :: lines) d !! projectID
       = (fun p => setColumn p (col_logs (jsonMarshal (line :: lines))))
           <$> d !! projectID
    /\ jsonMarshal (line :: lines) <> "[]"
    /\ withoutLogs <$> saveLogsToDatabase projectID lines d !! j
       = withoutLogs <$> d !! j
    /\ (if decide (projectID = j) then True
        else saveLogsToDatabase projectID lines d !! j = d !! j).
Proof.
  intros projectID j lines line d.
  split; [reflexivity |].
  split.
  { unfold saveLogsToDatabase, Update. cbn [length Nat.eqb].
    rewrite Updates_lookup. rewrite decide_True by reflexivity. reflexivity. }
  split; [apply jsonMarshal_cons_not_empty_array |].
  unfold saveLogsToDatabase, Update.
  destruct lines as [| l ls]; cbn [length Nat.eqb].
  - split; [reflexivity | destruct (decide (projectID = j)); reflexivity].
  - rewrite Updates_lookup.
    destruct (decide (projectID = j)) as [-> | Hne]; [| split; reflexivity].
    split; [| exact I].
    destruct (d !! j) as [p |]; reflexivity.
Qed.

(** *** Force kill and stop *)

(** C3.  For a project in the catalog, ForceKill returns no error; the
    handle map has no handle for the project afterwards and is
    otherwise as before; the row reads status [stopped], PID 0, last
    error [Force killed] and the stop time taken after the kill
    sequence, its other columns untouched; and a tracked handle has
    been cancelled.  Nothing is assumed of the handle or of the host:
    the persisted PID may be dead, alive, or never have existed. *)
Theorem ForceKill_always_succeeds :
  forall (projectID : N) (m : Manager) (h : Host) (p : Project),
    db m !! projectID = Some p ->
    exists (m' : Manager) (h' : Host),
      ForceKillService projectID m h = (None, m', h')
      /\ processes m' = delete projectID (processes m)
      /\ processes m' !! projectID = None
      /\ db m' = <[projectID := stoppedRow p (Now h') "Force killed"]> (db m)
      /\ (status <$> db m' !! projectID) = Some "stopped"
      /\ (p_id <$> db m' !! projectID) = Some 0
      /\ (last_error <$> db m' !! projectID) = Some "Force killed"
      /\ (stop_time <$> db m' !! projectID) = Some (Some (Now h'))
      /\ h' = (if bool_decide (is_Some (processes m !! projectID))
               then CtxCancel projectID else fun x => x)
                (if 0 <? p_id p then killByPID (p_id p) 500 h else h).
Proof.
  intros projectID m h p Hp.
  unfold ForceKillService. rewrite Hp.
  set (h1 := if 0 <? p_id p then killByPID (p_id p) 500 h else h).
  assert (Hrow : forall t,
    Updates projectID
      [col_status StatusStopped; col_stop_time t; col_p_id 0;
       col_last_error "Force killed"] (db m)
    = <[projectID := stoppedRow p t "Force killed"]> (db m)).
  { intro t. apply map_eq; intro j. rewrite Updates_lookup.
    destruct (decide (projectID = j)) as [<- | Hne].
    - rewrite lookup_insert_eq, Hp. reflexivity.
    - rewrite lookup_insert_ne by exact Hne. reflexivity. }
  destruct (processes m !! projectID) as [processInfo |] eqn:Hproc.
  - eexists _, _. split; [reflexivity |]. cbn [processes db].
    rewrite Hrow, lookup_insert_eq, lookup_delete_eq.
    rewrite bool_decide_true by (eexists; reflexivity).
    repeat split.
  - eexists _, _. split; [reflexivity |]. cbn [processes db].
    rewrite Hrow, lookup_insert_eq, Hproc.
    rewrite (delete_id _ _ Hproc).
    rewrite bool_decide_false by (intros [? ?]; discriminate).
    repeat split.
Qed.

(** C4.  For a project in the catalog with no handle and a persisted
    PID that does not answer the probe, Stop returns no error, touches
    neither the host nor the handle map, and leaves the row with status
    [stopped], PID 0 and the stop time; and Stop on the state it leaves
    behind, at any later moment of the host, returns no error again and
    leaves the same row but for the newer stop time. *)
Theorem Stop_is_idempotent_when_stopped :
  forall (projectID : N) (m : Manager) (h h2 : Host) (p : Project),
    db m !! projectID = Some p ->
    processes m !! projectID = None ->
    persistedPidAnswers h p = false ->
    exists m' : Manager,
      StopService projectID m h = (None, m', h)
      /\ processes m' = processes m
      /\ db m' = <[projectID := stoppedRow p (Now h) (last_error p)]> (db m)
      /\ (status <$> db m' !! projectID) = Some "stopped"
      /\ (p_id <$> db m' !! projectID) = Some 0
      /\ (stop_time <$> db m' !! projectID) = Some (Some (Now h))
      /\ StopService projectID m' h2
         = (None,
            mkManager
              (<[projectID := stoppedRow p (Now h2) (last_error p)]> (db m))
              (processes m),
            h2).
Proof.
  intros projectID m h h2 p Hp Hproc Hdead.
  assert (Hrow : forall t q, db m !! projectID = Some q ->
    Updates projectID
      [col_status StatusStopped; col_stop_time t; col_p_id 0] (db m)
    = <[projectID := stoppedRow q t (last_error q)]> (db m)).
  { intros t q Hq. apply map_eq; intro j. rewrite Updates_lookup.
    destruct (decide (projectID = j)) as [<- | Hne].
    - rewrite lookup_insert_eq, Hq. reflexivity.
    - rewrite lookup_insert_ne by exact Hne. reflexivity. }
  assert (Hstop : StopService projectID m h
    = (None,
       mkManager (<[projectID := stoppedRow p (Now h) (last_error p)]> (db m))
         (processes m), h)).
  { unfold StopService. rewrite Hp, Hproc.
    unfold persistedPidAnswers in Hdead. rewrite Hdead.
    rewrite bool_decide_false by (intros [? ?]; discriminate).
    cbn [negb andb]. rewrite (Hrow _ p Hp). reflexivity. }
  eexists. split; [exact Hstop |]. cbn [processes db].
  rewrite lookup_insert_eq.
  repeat split.
  unfold StopService. cbn [processes db].
  rewrite lookup_insert_eq, Hproc. cbn [p_id stoppedRow].
  rewrite bool_decide_false by (intros [? ?]; discriminate).
  cbn [Z.ltb Z.compare andb negb].
  f_equal. f_equal. f_equal.
  apply map_eq; intro j. rewrite Updates_lookup.
  destruct (decide (projectID = j)) as [<- | Hne].
  - rewrite !lookup_insert_eq. reflexivity.
  - rewrite !lookup_insert_ne by exact Hne. reflexivity.
Qed.

(** *** Liveness *)

(** The port probe succeeds exactly when one of its four attempts
    does. *)
Lemma isPortInUse_attempts (h : Host) (port_ : Z) :
  isPortInUse h port_ = true
  <-> lsof_listen h port_ = true
      \/ lsof_any h port_ = true
      \/ (exists output, netstat_an h = Some output
            /\ listensOn (":" +:+ Itoa port_) output = true)
      \/ (exists output, ss_an h = Some output
            /\ listensOn (":" +:+ Itoa port_) output = true).
Proof.
  unfold isPortInUse.
  destruct (lsof_listen h port_);
    [split; [intros _; left; reflexivity | reflexivity] |].
  destruct (lsof_any h port_);
    [split; [intros _; right; left; reflexivity | reflexivity] |].
  destruct (netstat_an h) as [o1 |], (ss_an h) as [o2 |].
  - destruct (listensOn _ o1) eqn:H1; [split; eauto 6 |].
    split.
    + intro H. right; right; right. eauto.
    + intros [H | [H | [(o & Ho & H) | (o & Ho & H)]]]; try discriminate.
      * injection Ho as <-. congruence.
      * injection Ho as <-. exact H.
  - destruct (listensOn _ o1) eqn:H1; [split; eauto 6 |].
    split; [discriminate |].
    intros [H | [H | [(o & Ho & H) | (o & Ho & H)]]]; try discriminate.
    injection Ho as <-. congruence.
  - split.
    + intro H. right; right; right. eauto.
    + intros [H | [H | [(o & Ho & H) | (o & Ho & H)]]]; try discriminate.
      injection Ho as <-. exact H.
  - split; [discriminate |].
    intros [H | [H | [(o & Ho & H) | (o & Ho & H)]]]; discriminate.
Qed.

Lemma row_live_iff (h : Host) (p : Project) :
  (if (0 <? port p) && isPortInUse h (port p) then true
   else if 0 <? p_id p then
     if FindProcess h (p_id p) && Signal0 h (p_id p) then true
     else if hasChildProcesses h (p_id p) then true
     else false
   else false) = true
  <-> (0 < port p /\ isPortInUse h (port p) = true)
      \/ (0 < p_id p /\ FindProcess h (p_id p) = true /\ Signal0 h (p_id p) = true)
      \/ (0 < p_id p /\ hasChildProcesses h (p_id p) = true).
Proof.
  destruct (Z.ltb_spec 0 (port p)), (isPortInUse h (port p)),
    (Z.ltb_spec 0 (p_id p)), (FindProcess h (p_id p)), (Signal0 h (p_id p)),
    (hasChildProcesses h (p_id p));
    cbn [andb]; split; intro Hyp;
    try reflexivity; try discriminate Hyp;
    try (left; split; [assumption | reflexivity]);
    try (right; left; repeat split; first [assumption | reflexivity]);
    try (right; right; split; [assumption | reflexivity]);
    destruct Hyp as [[? ?] | [[? [? ?]] | [? ?]]]; first [lia | discriminate].
Qed.

(** The branches of IsServiceRunning, whatever the probes answer: true
    exactly when a tracked handle's child answers the probe of the
    source, or the declared port is positive and the port probe
    succeeds, or the persisted PID is positive and answers the probe of
    the source, or the persisted PID is positive and has a child
    process. *)
Lemma IsServiceRunning_cases :
  forall (m : Manager) (h : Host) (projectID : N),
    (IsServiceRunning m h projectID = true
     <-> handleLive m h projectID \/ portLive m h projectID
         \/ pidLive m h projectID \/ positiveChildLive m h projectID)
    /\ (IsServiceRunning m h projectID = false
        <-> ~ (handleLive m h projectID \/ portLive m h projectID
               \/ pidLive m h projectID \/ positiveChildLive m h projectID)).
Proof.
  intros m h projectID.
  assert (Hiff : IsServiceRunning m h projectID = true
     <-> handleLive m h projectID \/ portLive m h projectID
         \/ pidLive m h projectID \/ positiveChildLive m h projectID).
  { unfold IsServiceRunning, handleLive, portLive, pidLive, positiveChildLive.
    set (tracked := match processes m !! projectID with
                    | Some processInfo =>
                        match Process processInfo with
                        | Some pid => ChildSignal0 h pid
                        | None => false
                        end
                    | None => false
                    end).
    assert (Htracked : tracked = true
      <-> exists processInfo pid,
            processes m !! projectID = Some processInfo
            /\ Process processInfo = Some pid /\ ChildSignal0 h pid = true).
    { subst tracked.
      destruct (processes m !! projectID) as [processInfo |].
      - destruct (Process processInfo) as [pid |] eqn:Hpid.
        + split; [intro Hs; eauto | intros (? & ? & [= <-] & Hq & Hs); congruence].
        + split; [discriminate | intros (? & ? & [= <-] & Hq & _); congruence].
      - split; [discriminate | intros (? & ? & Hq & _); discriminate]. }
    destruct tracked.
    - split; [intros _; left; apply Htracked; reflexivity | reflexivity].
    - assert (Hno : ~ exists processInfo pid,
                processes m !! projectID = Some processInfo
                /\ Process processInfo = Some pid /\ ChildSignal0 h pid = true)
        by (rewrite <- Htracked; discriminate).
      destruct (db m !! projectID) as [p |].
      + rewrite row_live_iff. split.
        * intros [Hyp | [Hyp | Hyp]]; [right; left | right; right; left | right; right; right];
            exists p; (split; [reflexivity | exact Hyp]).
        * intros [Hyp | [(q & [= <-] & Hyp) | [(q & [= <-] & Hyp) | (q & [= <-] & Hyp)]]];
            [exfalso; exact (Hno Hyp) | left; exact Hyp | right; left; exact Hyp
            | right; right; exact Hyp].
      + split; [discriminate |].
        intros [Hyp | [(q & Hq & _) | [(q & Hq & _) | (q & Hq & _)]]];
          [exfalso; exact (Hno Hyp) | discriminate ..]. }
  split; [exact Hiff |].
  rewrite <- Hiff. destruct (IsServiceRunning m h projectID); split; congruence.
Qed.

Lemma nilSignalProbe_false (h : Host) (pid : Z) : nilSignalProbe h pid = false.
Proof. reflexivity. Qed.

(** C1, on the probe as Go's [os] package answers it.  The source
    probes a process with [Signal(os.Signal(nil))], which returns an
    error for every process, so neither a tracked handle nor a
    persisted PID ever makes a service live: IsServiceRunning answers
    true exactly when the declared port is positive and the port probe
    succeeds, or the persisted PID is positive and has a child process.
    Hence the code parts from the claim in both directions.  A service
    whose tracked child, or whose persisted PID, answers a signal-0
    probe is reported as not running when the port probe and the child
    rule do not apply; and a service is reported as running on the port
    probe alone, which also succeeds for sockets that are not in LISTEN
    state on that port, when none of the four conditions of the claim
    holds. *)
Theorem liveness_probe_never_answers :
  forall (m : Manager) (h : Host) (projectID : N),
    (forall h pid, Signal0 h pid = nilSignalProbe h pid) ->
    (forall h pid, ChildSignal0 h pid = nilSignalProbe h pid) ->
    (IsServiceRunning m h projectID = true
     <-> portLive m h projectID \/ positiveChildLive m h projectID)
    /\ (handleAnswers m h projectID \/ pidAnswers m h projectID ->
        ~ portLive m h projectID -> ~ positiveChildLive m h projectID ->
        IsServiceRunning m h projectID = false
        /\ ~ livenessAsClaimed m h projectID)
    /\ (portLive m h projectID ->
        ~ (handleAnswers m h projectID \/ portListening m h projectID
           \/ pidAnswers m h projectID \/ childLive m h projectID) ->
        IsServiceRunning m h projectID = true
        /\ ~ livenessAsClaimed m h projectID).
Proof.
  intros m h projectID Hsig Hchild.
  destruct (IsServiceRunning_cases m h projectID) as [Hcases _].
  assert (Hhandle : ~ handleLive m h projectID).
  { intros (processInfo & pid & _ & _ & Hp).
    rewrite Hchild, nilSignalProbe_false in Hp. discriminate Hp. }
  assert (Hpid : ~ pidLive m h projectID).
  { intros (p & _ & _ & _ & Hp).
    rewrite Hsig, nilSignalProbe_false in Hp. discriminate Hp. }
  assert (Hiff : IsServiceRunning m h projectID = true
                 <-> portLive m h projectID \/ positiveChildLive m h projectID).
  { rewrite Hcases. split.
    - intros [H | [H | [H | H]]];
        [destruct (Hhandle H) | left; exact H | destruct (Hpid H) | right; exact H].
    - intros [H | H]; [right; left; exact H | right; right; right; exact H]. }
  split; [exact Hiff |]. split.
  - intros Hclaimed Hport Hkids.
    assert (Hrun : IsServiceRunning m h projectID = false).
    { destruct (IsServiceRunning m h projectID); [| reflexivity].
      destruct (proj1 Hiff eq_refl) as [H | H]; [destruct (Hport H) | destruct (Hkids H)]. }
    split; [exact Hrun |].
    unfold livenessAsClaimed. intros [_ Hback].
    rewrite Hback in Hrun; [discriminate Hrun |].
    destruct Hclaimed as [H | H]; [left; exact H | right; right; left; exact H].
  - intros Hport Hnone.
    assert (Hrun : IsServiceRunning m h projectID = true)
      by (apply Hiff; left; exact Hport).
    split; [exact Hrun |].
    unfold livenessAsClaimed. intros [Hforth _]. exact (Hnone (Hforth Hrun)).
Qed.

(** *** Building the child command *)

Lemma fieldsGo_allSpace (s : string) :
  forall skip, allSpaceGo skip s = true -> fieldsGo skip "" s = [].
Proof.
  induction s as [| c s IH]; intros skip Hs; [reflexivity |].
  cbn [fieldsGo allSpaceGo] in *.
  destruct skip as [| k]; [| apply IH; exact Hs].
  destruct (spaceLen (String c s)) as [| n]; [discriminate Hs |].
  cbn [flushField isEmpty app]. apply IH; exact Hs.
Qed.

(** A command of white space only has no fields. *)
Lemma Fields_allSpace (s : string) : allSpace s = true -> Fields s = [].
Proof. apply fieldsGo_allSpace. Qed.

(** A non-empty command made of white space only makes [parts[0]]
    panic, whatever the arguments and the type. *)
Lemma prepareCommand_allSpace_panics (Command Args_ Type_ : string) :
  isEmpty Command = false -> allSpace Command = true ->
  prepareCommand Command Args_ Type_ = Panicked "index out of range".
Proof.
  intros Hne Hsp. unfold prepareCommand.
  rewrite Hne, (Fields_allSpace _ Hsp). reflexivity.
Qed.

(** A command with at least one field gives an invocation whose program
    is the first field. *)
Lemma prepareCommand_returns (Command Args_ Type_ name_ : string) (rest : list string) :
  Fields Command = name_ :: rest ->
  isEmpty Command = false ->
  exists cmd, prepareCommand Command Args_ Type_ = Returned cmd
              /\ Args cmd !! 0%nat = Some name_.
Proof.
  intros Hf Hne. unfold prepareCommand. rewrite Hne, Hf. cbn [negb].
  destruct rest as [| r rest]; cbn; destruct (isEmpty Args_); cbn;
    eexists; split; reflexivity.
Qed.

(** C10, at the failing input.  For the command of one blank,
    [strings.Fields] gives no field and [parts[0]] is out of range:
    prepareCommand panics, and so does StartService on a catalog row
    with that command, after the row was marked [starting]. *)
Theorem prepareCommand_blank_command_panics :
  forall (Args_ Type_ : string) (projectID : N) (h : Host) (row : Project),
    prepareCommand " " Args_ Type_ = Panicked "index out of range"
    /\ StartService projectID
         (NewManager
            {[ projectID :=
                 mkProject (name row) (type row) (path row) " " (args row)
                   (working_dir row) (port row) (environment row) (env_file row)
                   (env_vars row) (status row) (p_id row) (start_time row)
                   (stop_time row) (last_error row) (logs row) ]})
         h
       = Panicked "index out of range".
Proof.
  intros Args_ Type_ projectID h row.
  split; [apply prepareCommand_allSpace_panics; reflexivity |].
  unfold StartService, NewManager. cbn [processes db].
  rewrite lookup_empty, lookup_singleton_eq. cbn [command args type].
  rewrite prepareCommand_allSpace_panics by reflexivity. reflexivity.
Qed.

(** *** Capture *)

Lemma appendLogBuffer_last (buffer : list string) (line : string) :
  last (appendLogBuffer buffer line) = Some line.
Proof.
  unfold appendLogBuffer.
  assert (Hcap : (1 <= maxBufferSize)%nat) by (unfold maxBufferSize; lia).
  revert Hcap. generalize maxBufferSize; intros cap Hcap.
  destruct (Nat.ltb_spec cap (length (buffer ++ [line]))) as [Hlt | Hge].
  - rewrite length_app in *. cbn [length] in *.
    rewrite drop_app_le by lia. apply last_snoc.
  - apply last_snoc.
Qed.

Lemma last_Some_elem_of (l : list string) (x : string) :
  last l = Some x -> x ∈ l.
Proof.
  intro H. apply last_Some in H as [l' ->].
  apply elem_of_app. right. apply list_elem_of_singleton. reflexivity.
Qed.

(** One turn of the loop, from the state before it to the state after
    it. *)
Lemma captureLine_unfold (isStderr : bool) (st : Capture) (line : string) (t : Z) :
  captureLine isStderr st line t
  = (if isEmpty (stripANSI line) then st
     else
       let logLine :=
         if isStderr then "[ERROR] " +:+ stripANSI line else stripANSI line in
       let processInfo :=
         withLogs (addToLogBuffer (handle st) logLine)
           (fst (safeSendLog (Logs (handle st)) logLine)) in
       if 2000 <? t - lastSaveTime st
       then mkCapture processInfo
              (saveLogsToDatabase (ProjectID processInfo) (getLogBuffer processInfo)
                 (catalog st))
              t
       else mkCapture processInfo (catalog st) (lastSaveTime st)).
Proof.
  unfold captureLine, loopBody. cbv zeta.
  destruct (isEmpty (stripANSI line)); [reflexivity |].
  cbn [fold_left exec handle catalog lastSaveTime].
  destruct (2000 <? t - lastSaveTime st); reflexivity.
Qed.

(** A whole run: the loop, turn by turn, and then what follows it. *)
Lemma captureOutputWithBuffer_unfold (isStderr : bool) (st : Capture)
    (lines : list (string * Z)) (scanErr : option string) :
  captureOutputWithBuffer isStderr st lines scanErr
  = fold_left exec (afterScan scanErr)
      (fold_left (fun st lt => captureLine isStderr st (fst lt) (snd lt)) lines st).
Proof.
  unfold captureOutputWithBuffer, captureProgram. rewrite fold_left_app. f_equal.
  revert st. induction lines as [| lt lines IH]; intro st; [reflexivity |].
  cbn [flat_map fold_left]. rewrite fold_left_app. apply IH.
Qed.

(** A line whose stripped form is empty is skipped. *)
Lemma captureLine_empty (isStderr : bool) (st : Capture) (line : string) (t : Z) :
  isEmpty (stripANSI line) = true -> captureLine isStderr st line t = st.
Proof. intro H. rewrite captureLine_unfold, H. reflexivity. Qed.

(** The handle after a turn on any other line: the ring has the line
    appended, then the channel has the send applied. *)
Lemma captureLine_handle (isStderr : bool) (st : Capture) (line : string) (t : Z) :
  isEmpty (stripANSI line) = false ->
  let logLine :=
    if isStderr then "[ERROR] " +:+ stripANSI line else stripANSI line in
  handle (captureLine isStderr st line t)
  = withLogs (addToLogBuffer (handle st) logLine)
      (fst (safeSendLog (Logs (handle st)) logLine)).
Proof.
  intros H logLine. rewrite captureLine_unfold, H. cbv zeta. fold logLine.
  destruct (2000 <? t - lastSaveTime st); reflexivity.
Qed.

(** The handle after the loop has ended on a scanner error: the error
    line is appended to the ring, then sent. *)
Lemma captureOutputWithBuffer_error_handle (isStderr : bool) (st : Capture)
    (lines : list (string * Z)) (err : string) :
  let before := captureOutputWithBuffer isStderr st lines None in
  let errorMsg := "[ERROR] Error reading output: " +:+ err in
  handle (captureOutputWithBuffer isStderr st lines (Some err))
  = withLogs (addToLogBuffer (handle before) errorMsg)
      (fst (safeSendLog (Logs (handle before)) errorMsg)).
Proof.
  intros before errorMsg. subst before.
  rewrite !captureOutputWithBuffer_unfold. reflexivity.
Qed.

(** What a send leaves in the channel. *)
Lemma safeSendLog_buffer (ch : Chan) (logLine : string) :
  chBuf (fst (safeSendLog ch logLine))
  = (if chClosed ch || negb (length (chBuf ch) <? chCap ch)%nat
     then chBuf ch else chBuf ch ++ [logLine])
  /\ snd (safeSendLog ch logLine)
     = negb (chClosed ch || negb (length (chBuf ch) <? chCap ch)%nat).
Proof.
  unfold safeSendLog.
  destruct (chClosed ch); cbn [orb negb fst snd]; [split; reflexivity |].
  destruct (length (chBuf ch) <? chCap ch)%nat; split; reflexivity.
Qed.

(** A block of the capturer: an append, the send of the same line, one
    more statement that is no send.  If every send of the statements
    after the block comes right after the append of its line, so does
    every send of the block and what follows. *)
Lemma send_follows_append_block (l : string) (third : Stmt) (rest : list Stmt) :
  (forall l', third <> SafeSendLog l') ->
  (forall before logLine after,
      rest = before ++ SafeSendLog logLine :: after ->
      exists before', before = before' ++ [AddToLogBuffer logLine]) ->
  forall before logLine after,
    AddToLogBuffer l :: SafeSendLog l :: third :: rest
    = before ++ SafeSendLog logLine :: after ->
    exists before', before = before' ++ [AddToLogBuffer logLine].
Proof.
  intros Hthird Hrest before logLine after H.
  destruct before as [| a [| b [| c before]]]; cbn [app] in H.
  - discriminate H.
  - simplify_eq. exists []. reflexivity.
  - simplify_eq. exfalso. eapply Hthird. reflexivity.
  - simplify_eq. destruct (Hrest _ _ _ eq_refl) as [before' ->].
    eexists (_ :: _ :: _ :: before'). reflexivity.
Qed.

(** In the statements of a whole run, every send comes right after the
    append of the same line. *)
Lemma captureProgram_send_follows_append (isStderr : bool)
    (lines : list (string * Z)) (scanErr : option string) :
  forall before logLine after,
    captureProgram isStderr lines scanErr = before ++ SafeSendLog logLine :: after ->
    exists before', before = before' ++ [AddToLogBuffer logLine].
Proof.
  unfold captureProgram.
  induction lines as [| [line t] lines IH].
  - cbn [flat_map app]. destruct scanErr as [err |]; cbn [afterScan].
    + apply send_follows_append_block; [discriminate |].
      intros [| ? ?] ? ? H; discriminate H.
    + intros [| ? ?] ? ? H; discriminate H.
  - cbn [flat_map fst snd]. rewrite <- app_assoc. unfold loopBody at 1. cbv zeta.
    destruct (isEmpty (stripANSI line)); [exact IH |].
    cbn [app]. apply send_follows_append_block; [discriminate | exact IH].
Qed.

(** C7.  Take any send of a whole run of the capturer: the statements
    of the run are some statements, the send of a line, and the rest.
    The statement just before the send is the append of that line, so
    in the state in which the send is made the line is already in the
    ring, as its newest line.  The send leaves the ring as it is; it
    puts the line in the channel when the channel is open and has
    room, and otherwise leaves the channel as it was, the line staying
    in the ring; in both cases the run goes on with the statements that
    follow. *)
Theorem capture_appends_before_sending :
  forall (isStderr : bool) (st : Capture) (lines : list (string * Z))
         (scanErr : option string) (before after : list Stmt) (logLine : string),
    captureProgram isStderr lines scanErr = before ++ SafeSendLog logLine :: after ->
    let atSend := fold_left exec before st in
    let sent := exec atSend (SafeSendLog logLine) in
    let ch := Logs (handle atSend) in
    let noRoom := chClosed ch || negb (length (chBuf ch) <? chCap ch)%nat in
    (exists before', before = before' ++ [AddToLogBuffer logLine])
    /\ last (LogBuffer (handle atSend)) = Some logLine
    /\ logLine ∈ LogBuffer (handle atSend)
    /\ LogBuffer (handle sent) = LogBuffer (handle atSend)
    /\ logLine ∈ LogBuffer (handle sent)
    /\ chBuf (Logs (handle sent)) = (if noRoom then chBuf ch else chBuf ch ++ [logLine])
    /\ (noRoom = true -> Logs (handle sent) = ch)
    /\ captureOutputWithBuffer isStderr st lines scanErr = fold_left exec after sent.
Proof.
  intros isStderr st lines scanErr before after logLine Hprog atSend sent ch noRoom.
  destruct (captureProgram_send_follows_append _ _ _ _ _ _ Hprog) as [before' Hbefore].
  assert (Hlast : last (LogBuffer (handle atSend)) = Some logLine).
  { subst atSend. rewrite Hbefore, fold_left_app. cbn [fold_left exec handle].
    cbn [addToLogBuffer LogBuffer]. apply appendLogBuffer_last. }
  assert (Hin : logLine ∈ LogBuffer (handle atSend))
    by (apply last_Some_elem_of; exact Hlast).
  split; [exists before'; exact Hbefore |].
  split; [exact Hlast |]. split; [exact Hin |].
  split; [reflexivity |]. split; [exact Hin |].
  split; [| split].
  - subst sent. cbn [exec handle withLogs Logs]. fold ch.
    apply safeSendLog_buffer.
  - subst sent noRoom. cbn [exec handle withLogs Logs]. fold ch.
    unfold safeSendLog. destruct (chClosed ch); [reflexivity |].
    destruct (length (chBuf ch) <? chCap ch)%nat; [discriminate | reflexivity].
  - unfold captureOutputWithBuffer. rewrite Hprog, fold_left_app. reflexivity.
Qed.

(** *** Stripping terminal control sequences *)

Lemma append_cons (d : ascii) (a b : string) :
  String d a +:+ b = String d (a +:+ b).
Proof. reflexivity. Qed.

Lemma append_nil (b : string) : "" +:+ b = b.
Proof. reflexivity. Qed.

Lemma append_assoc (a b c : string) : (a +:+ b) +:+ c = a +:+ (b +:+ c).
Proof.
  induction a as [| d a IH]; [reflexivity |].
  rewrite !append_cons, IH. reflexivity.
Qed.

Lemma length_append (a b : string) :
  String.length (a +:+ b) = (String.length a + String.length b)%nat.
Proof.
  induction a as [| d a IH]; [reflexivity |].
  rewrite append_cons. cbn [String.length]. rewrite IH. reflexivity.
Qed.

Lemma hasByte_append (a b : string) (c : ascii) :
  hasByte (a +:+ b) c = hasByte a c || hasByte b c.
Proof.
  unfold hasByte.
  induction a as [| d a IH]; [reflexivity |].
  simpl. rewrite IH. apply orb_assoc.
Qed.

(** Removing occurrences of a literal adds no byte. *)
Lemma hasByte_removeAllGo (old : string) (c : ascii) (s : string) :
  forall skip, hasByte (removeAllGo old skip s) c = true -> hasByte s c = true.
Proof.
  induction s as [| d s IH]; intros skip H; [discriminate H |].
  cbn [removeAllGo] in H. cbn. apply orb_true_iff.
  destruct skip as [| k].
  - destruct (HasPrefix (String d s) old).
    + right. exact (IH _ H).
    + cbn in H. apply orb_true_iff in H as [H | H]; [left; exact H |].
      right. exact (IH _ H).
  - right. exact (IH _ H).
Qed.

(** A regular-expression replacement adds no byte but those of the
    replacement. *)
Lemma hasByte_replaceAllGo (re : string -> option nat) (repl : string)
    (c : ascii) (s : string) :
  forall skip,
    hasByte (replaceAllGo re repl skip s) c = true ->
    hasByte s c = true \/ hasByte repl c = true.
Proof.
  induction s as [| d s IH]; intros skip H; [discriminate H |].
  cbn [replaceAllGo] in H.
  assert (Htail : forall k, hasByte (replaceAllGo re repl k s) c = true ->
            hasByte (String d s) c = true \/ hasByte repl c = true).
  { intros k Hk. destruct (IH _ Hk) as [Hs | Hr]; [left | right; exact Hr].
    cbn. rewrite orb_true_iff. right. exact Hs. }
  destruct skip as [| k]; [| exact (Htail _ H)].
  destruct (re (String d s)) as [[| n] |].
  - cbn in H. apply orb_true_iff in H as [H | H]; [| exact (Htail _ H)].
    left. cbn. rewrite H. reflexivity.
  - rewrite hasByte_append in H. apply orb_true_iff in H as [H | H];
      [right; exact H | exact (Htail _ H)].
  - cbn in H. apply orb_true_iff in H as [H | H]; [| exact (Htail _ H)].
    left. cbn. rewrite H. reflexivity.
Qed.

Lemma hasByte_trimLeftGo (c : ascii) (s : string) :
  forall skip, hasByte (trimLeftGo skip s) c = true -> hasByte s c = true.
Proof.
  induction s as [| d s IH]; intros skip H; [discriminate H |].
  cbn [trimLeftGo] in H.
  assert (Htail : forall k, hasByte (trimLeftGo k s) c = true ->
            hasByte (String d s) c = true).
  { intros k Hk. cbn. rewrite orb_true_iff. right. exact (IH _ Hk). }
  destruct skip as [| k]; [| exact (Htail _ H)].
  destruct (spaceLen (String d s)); [exact H | exact (Htail _ H)].
Qed.

Lemma hasByte_trimRight (c : ascii) (s : string) :
  hasByte (trimRight s) c = true -> hasByte s c = true.
Proof.
  induction s as [| d s IH]; intro H; [discriminate H |].
  cbn [trimRight] in H.
  destruct (allSpace (String d s)); [discriminate H |].
  cbn in *. apply orb_true_iff in H as [H | H]; apply orb_true_iff;
    [left; exact H | right; exact (IH H)].
Qed.

Lemma hasByte_TrimSpace (c : ascii) (s : string) :
  hasByte (TrimSpace s) c = true -> hasByte s c = true.
Proof.
  unfold TrimSpace. intro H.
  exact (hasByte_trimLeftGo _ _ _ (hasByte_trimRight _ _ H)).
Qed.

Lemma HasPrefix_empty (s : string) : HasPrefix s "" = true.
Proof. destruct s; reflexivity. Qed.

(** After the removal of the one-byte string ESC no ESC is left. *)
Lemma RemoveAll_ESC (s : string) :
  hasByte (RemoveAll s (String ESC EmptyString)) ESC = false.
Proof.
  unfold RemoveAll.
  induction s as [| d s IH]; [reflexivity |].
  cbn [removeAllGo HasPrefix String.length Nat.sub].
  rewrite HasPrefix_empty, andb_true_r.
  destruct (Ascii.eqb ESC d) eqn:Hd; [exact IH |].
  unfold hasByte in *. cbn [inCutset]. rewrite Hd. exact IH.
Qed.

(** The output of [stripANSI] has no ESC byte. *)
Lemma stripANSI_no_ESC (line : string) : hasByte (stripANSI line) ESC = false.
Proof.
  unfold stripANSI, ReplaceAllString.
  set (r0 := replaceAllGo ansiEscapeRegex "" 0 _).
  destruct (hasByte (TrimSpace _) ESC) eqn:H; [exfalso | reflexivity].
  apply hasByte_TrimSpace in H.
  apply hasByte_replaceAllGo in H as [H | H]; [| discriminate H].
  apply hasByte_replaceAllGo in H as [H | H]; [| discriminate H].
  unfold RemoveAll in H.
  do 3 apply hasByte_removeAllGo in H.
  pose proof (RemoveAll_ESC r0) as Hno. unfold RemoveAll in Hno. congruence.
Qed.

Lemma replaceAllGo_skip (re : string -> option nat) (repl : string) (x rest : string) :
  replaceAllGo re repl (String.length x) (x +:+ rest) = replaceAllGo re repl 0 rest.
Proof.
  induction x as [| d x IH]; [destruct rest; reflexivity |].
  rewrite append_cons. cbn [String.length replaceAllGo]. exact IH.
Qed.

Lemma paramsThenM_params (params rest : string) :
  allParams params = true ->
  paramsThenM (params +:+ String "m" rest) = Some (S (String.length params)).
Proof.
  induction params as [| d params IH]; intro H.
  - reflexivity.
  - cbn [allParams] in H. apply andb_true_iff in H as [Hd Hp].
    rewrite append_cons. cbn [paramsThenM String.length].
    rewrite Hd, (IH Hp). reflexivity.
Qed.

(** The residue pass, read left to right: text without a bracket is
    copied, and a bracket followed by parameters and [m] is dropped. *)
Lemma sgrResidue_pass (pre params rest : string) :
  hasByte pre "[" = false ->
  isEmpty params = false ->
  allParams params = true ->
  ReplaceAllString sgrResidueRegex (pre +:+ String "[" (params +:+ String "m" rest)) ""
  = pre +:+ ReplaceAllString sgrResidueRegex rest "".
Proof.
  intros Hpre Hne Hall. unfold ReplaceAllString.
  induction pre as [| d pre IH].
  - rewrite !append_nil.
    destruct params as [| p0 params]; [discriminate Hne |].
    cbn [allParams] in Hall. apply andb_true_iff in Hall as [Hp0 Hps].
    rewrite append_cons. cbn [replaceAllGo sgrResidueRegex].
    rewrite Hp0. cbn [Ascii.eqb Bool.eqb andb].
    rewrite (paramsThenM_params _ _ Hps). cbn [option_map Nat.add].
    rewrite append_nil.
    rewrite <- (replaceAllGo_skip sgrResidueRegex "" (String p0 params +:+ "m") rest).
    rewrite length_append, Nat.add_1_r. cbn [String.length].
    rewrite append_assoc, !append_cons, append_nil. reflexivity.
  - unfold hasByte in Hpre. cbn [inCutset] in Hpre.
    apply orb_false_iff in Hpre as [Hd Hpre].
    rewrite append_cons. cbn [replaceAllGo].
    assert (Hno : sgrResidueRegex
              (String d (pre +:+ String "[" (params +:+ String "m" rest))) = None).
    { unfold sgrResidueRegex.
      destruct (pre +:+ String "[" (params +:+ String "m" rest)); [reflexivity |].
      rewrite Ascii.eqb_sym, Hd. reflexivity. }
    rewrite Hno, (IH Hpre). reflexivity.
Qed.

(** The passes of stripANSI, from the text that the residue pass reads. *)
Lemma stripANSI_passes (s : string) :
  stripANSI s
  = TrimSpace
      (ReplaceAllString spacesRegex
         (ReplaceAllString sgrResidueRegex (withoutEscapes s) "") " ").
Proof. reflexivity. Qed.

Lemma hasMatch_tail (re : string -> option nat) (c : ascii) (s : string) :
  hasMatch re s = true -> hasMatch re (String c s) = true.
Proof.
  intro H. cbn [hasMatch]. destruct (re (String c s)); [reflexivity | exact H].
Qed.

Lemma hasMatch_cons (re : string -> option nat) (c : ascii) (s : string) :
  hasMatch re (String c s) = true ->
  (exists n, re (String c s) = Some n) \/ hasMatch re s = true.
Proof.
  cbn [hasMatch]. destruct (re (String c s)) as [n |];
    [intros _; left; exists n; reflexivity | intro H; right; exact H].
Qed.

Lemma sgrResidue_not_bracket (c : ascii) (s : string) :
  Ascii.eqb c "[" = false -> sgrResidueRegex (String c s) = None.
Proof.
  intro H. unfold sgrResidueRegex. destruct s; [reflexivity |].
  rewrite H. reflexivity.
Qed.

Lemma sgrResidue_not_zero (s : string) : sgrResidueRegex s <> Some O.
Proof.
  unfold sgrResidueRegex. destruct s as [| c0 [| c1 s]]; try discriminate.
  destruct (Ascii.eqb c0 "[" && isParam c1); [| discriminate].
  destruct (paramsThenM s); cbn; discriminate.
Qed.

(** Past a bracket that no second bracket follows after parameters, the
    residue pass copies the parameters: it neither makes nor breaks a
    residue that starts there. *)
Lemma paramsThenM_residue_pass (x : string) :
  paramsThenOpen x = None ->
  paramsThenM (replaceAllGo sgrResidueRegex "" 0 x) = paramsThenM x.
Proof.
  induction x as [| c x IH]; intro H; [reflexivity |].
  cbn [paramsThenOpen] in H.
  destruct (Ascii.eqb c "[") eqn:Hc; [discriminate H |].
  cbn [replaceAllGo]. rewrite (sgrResidue_not_bracket _ _ Hc).
  cbn [paramsThenM]. destruct (isParam c); [| reflexivity].
  rewrite IH; [reflexivity |]. destruct (paramsThenOpen x); [discriminate H | reflexivity].
Qed.

Lemma sgrResidue_residue_pass (x : string) :
  paramsThenOpen x = None ->
  sgrResidueRegex (String "[" (replaceAllGo sgrResidueRegex "" 0 x))
  = sgrResidueRegex (String "[" x).
Proof.
  intro H. destruct x as [| c1 x]; [reflexivity |].
  cbn [paramsThenOpen] in H.
  destruct (Ascii.eqb c1 "[") eqn:Hc; [discriminate H |].
  cbn [replaceAllGo]. rewrite (sgrResidue_not_bracket _ _ Hc).
  unfold sgrResidueRegex. destruct (isParam c1); [| reflexivity].
  cbn [andb]. rewrite paramsThenM_residue_pass; [reflexivity |].
  destruct (paramsThenOpen x); [discriminate H | reflexivity].
Qed.

(** The residue pass leaves no residue behind in a text where no
    bracket is followed by parameters and another bracket. *)
Lemma residue_pass_leaves_none (t : string) :
  hasMatch bracketPairRegex t = false ->
  forall skip, hasMatch sgrResidueRegex (replaceAllGo sgrResidueRegex "" skip t) = false.
Proof.
  induction t as [| c t IH]; intros H skip; [reflexivity |].
  cbn [hasMatch] in H.
  destruct (bracketPairRegex (String c t)) eqn:Hpair; [discriminate H |].
  cbn [replaceAllGo]. destruct skip as [| k]; [| apply IH; exact H].
  destruct (sgrResidueRegex (String c t)) as [[| n] |] eqn:Hre.
  - destruct (sgrResidue_not_zero _ Hre).
  - rewrite append_nil. apply IH; exact H.
  - cbn [hasMatch].
    assert (Hnone : sgrResidueRegex
                      (String c (replaceAllGo sgrResidueRegex "" 0 t)) = None).
    { destruct (Ascii.eqb c "[") eqn:Hc; [| apply sgrResidue_not_bracket; exact Hc].
      apply Ascii.eqb_eq in Hc. subst c.
      rewrite sgrResidue_residue_pass; [exact Hre |].
      unfold bracketPairRegex in Hpair. cbn [Ascii.eqb Bool.eqb] in Hpair.
      destruct (paramsThenOpen t); [discriminate Hpair | reflexivity]. }
    rewrite Hnone. apply IH; exact H.
Qed.

Lemma paramsThenM_blank (s : string) : paramsThenM (String " " s) = None.
Proof. reflexivity. Qed.

Lemma collapse_cons (d : ascii) (o : string) :
  replaceAllGo spacesRegex " " 0 (String d o)
  = if isRegexpSpace d
    then String " " (replaceAllGo spacesRegex " " (spacesLen o) o)
    else String d (replaceAllGo spacesRegex " " 0 o).
Proof.
  cbn [replaceAllGo]. unfold spacesRegex. cbn [spacesLen].
  destruct (isRegexpSpace d); reflexivity.
Qed.

Lemma paramsThenM_collapse (o : string) (n : nat) :
  paramsThenM (replaceAllGo spacesRegex " " 0 o) = Some n -> paramsThenM o = Some n.
Proof.
  revert n. induction o as [| d o IH]; intros n H; [discriminate H |].
  rewrite collapse_cons in H. destruct (isRegexpSpace d).
  - rewrite paramsThenM_blank in H. discriminate H.
  - cbn [paramsThenM] in *. destruct (isParam d); [| exact H].
    destruct (paramsThenM (replaceAllGo spacesRegex " " 0 o)) as [k |];
      [| discriminate H].
    rewrite (IH k eq_refl). exact H.
Qed.

Lemma sgrResidue_collapse (o : string) (n : nat) :
  sgrResidueRegex (replaceAllGo spacesRegex " " 0 o) = Some n ->
  sgrResidueRegex o = Some n.
Proof.
  destruct o as [| c0 o]; [discriminate |].
  rewrite collapse_cons. destruct (isRegexpSpace c0).
  - rewrite sgrResidue_not_bracket; [discriminate | reflexivity].
  - destruct o as [| c1 o]; [discriminate |].
    rewrite collapse_cons. destruct (isRegexpSpace c1).
    + unfold sgrResidueRegex. rewrite andb_false_r. discriminate.
    + unfold sgrResidueRegex. destruct (Ascii.eqb c0 "[" && isParam c1); [| discriminate].
      destruct (paramsThenM (replaceAllGo spacesRegex " " 0 o)) as [k |] eqn:Hk;
        [| discriminate].
      rewrite (paramsThenM_collapse _ _ Hk). exact id.
Qed.

(** Collapsing white space makes no residue. *)
Lemma hasMatch_collapse (o : string) :
  forall skip,
    hasMatch sgrResidueRegex (replaceAllGo spacesRegex " " skip o) = true ->
    hasMatch sgrResidueRegex o = true.
Proof.
  induction o as [| d o IH]; intros skip H; [discriminate H |].
  destruct skip as [| k];
    [| cbn [replaceAllGo] in H; apply hasMatch_tail; exact (IH _ H)].
  pose proof (collapse_cons d o) as Heq.
  destruct (isRegexpSpace d).
  - rewrite Heq in H. apply hasMatch_cons in H as [[n Hn] | Ht].
    + rewrite sgrResidue_not_bracket in Hn; [discriminate Hn | reflexivity].
    + apply hasMatch_tail. exact (IH _ Ht).
  - rewrite Heq in H. apply hasMatch_cons in H as [[n Hn] | Ht].
    + rewrite <- Heq in Hn. apply sgrResidue_collapse in Hn.
      cbn [hasMatch]. rewrite Hn. reflexivity.
    + apply hasMatch_tail. exact (IH _ Ht).
Qed.

Lemma hasMatch_trimLeftGo (re : string -> option nat) (s : string) :
  forall skip, hasMatch re (trimLeftGo skip s) = true -> hasMatch re s = true.
Proof.
  induction s as [| d s IH]; intros skip H; [exact H |].
  cbn [trimLeftGo] in H.
  destruct skip as [| k]; [| apply hasMatch_tail; exact (IH _ H)].
  destruct (spaceLen (String d s)); [exact H | apply hasMatch_tail; exact (IH _ H)].
Qed.

Lemma paramsThenM_trimRight (s : string) (n : nat) :
  paramsThenM (trimRight s) = Some n -> paramsThenM s = Some n.
Proof.
  revert n. induction s as [| d s IH]; intros n H; [discriminate H |].
  cbn [trimRight] in H. destruct (allSpace (String d s)); [discriminate H |].
  cbn [paramsThenM] in *. destruct (isParam d); [| exact H].
  destruct (paramsThenM (trimRight s)) as [k |]; [| cbn in H; discriminate H].
  rewrite (IH k eq_refl). exact H.
Qed.

Lemma sgrResidue_trimRight (s : string) (n : nat) :
  sgrResidueRegex (trimRight s) = Some n -> sgrResidueRegex s = Some n.
Proof.
  destruct s as [| c0 s]; [discriminate |].
  cbn [trimRight]. destruct (allSpace (String c0 s)); [discriminate |].
  destruct s as [| c1 s]; [discriminate |].
  cbn [trimRight]. destruct (allSpace (String c1 s)); [discriminate |].
  unfold sgrResidueRegex. destruct (Ascii.eqb c0 "[" && isParam c1); [| discriminate].
  destruct (paramsThenM (trimRight s)) as [k |] eqn:Hk; [| cbn; discriminate].
  rewrite (paramsThenM_trimRight _ _ Hk). exact id.
Qed.

Lemma hasMatch_trimRight (s : string) :
  hasMatch sgrResidueRegex (trimRight s) = true -> hasMatch sgrResidueRegex s = true.
Proof.
  induction s as [| d s IH]; intro H; [exact H |].
  destruct (allSpace (String d s)) eqn:Hall.
  - cbn [trimRight] in H. rewrite Hall in H. discriminate H.
  - assert (Heq : trimRight (String d s) = String d (trimRight s))
      by (cbn [trimRight]; rewrite Hall; reflexivity).
    rewrite Heq in H. apply hasMatch_cons in H as [[n Hn] | Ht].
    + rewrite <- Heq in Hn. apply sgrResidue_trimRight in Hn.
      cbn [hasMatch]. rewrite Hn. reflexivity.
    + apply hasMatch_tail. exact (IH Ht).
Qed.

(** No residue in the output, for a line that leaves no bracket pair
    behind when its escapes are removed. *)
Lemma stripANSI_no_residue (line : string) :
  hasMatch bracketPairRegex (withoutEscapes line) = false ->
  hasMatch sgrResidueRegex (stripANSI line) = false.
Proof.
  intro H. rewrite stripANSI_passes.
  destruct (hasMatch sgrResidueRegex
              (TrimSpace
                 (ReplaceAllString spacesRegex
                    (ReplaceAllString sgrResidueRegex (withoutEscapes line) "") " ")))
    eqn:Hm; [| reflexivity].
  unfold TrimSpace in Hm.
  apply hasMatch_trimRight, hasMatch_trimLeftGo, hasMatch_collapse in Hm.
  unfold ReplaceAllString in Hm.
  rewrite (residue_pass_leaves_none _ H) in Hm. discriminate Hm.
Qed.

(** C5, as the code has it.  The output of stripANSI has no ESC byte;
    it has no bare residue of a bracket, parameters and [m] either, for
    every line that, once its escapes are removed, has no bracket
    followed by parameters and another bracket (there the removal of a
    residue can put a new one together, and the pass runs once); the
    pass knows no final letter but [m].  A line whose stripped form is
    empty leaves the capturer's state as it was, so it is neither
    appended to the ring nor sent on the channel; any other line is
    appended. *)
Theorem stripANSI_output_and_empty_lines :
  forall (line : string) (isStderr : bool) (st : Capture) (t : Z),
    hasByte (stripANSI line) ESC = false
    /\ (hasMatch bracketPairRegex (withoutEscapes line) = false ->
        hasMatch sgrResidueRegex (stripANSI line) = false)
    /\ (if isEmpty (stripANSI line)
        then captureLine isStderr st line t = st
             /\ LogBuffer (handle (captureLine isStderr st line t)) = LogBuffer (handle st)
             /\ Logs (handle (captureLine isStderr st line t)) = Logs (handle st)
        else last (LogBuffer (handle (captureLine isStderr st line t)))
             = Some ((if isStderr then "[ERROR] " else "") +:+ stripANSI line)).
Proof.
  intros line isStderr st t.
  split; [apply stripANSI_no_ESC |].
  split; [apply stripANSI_no_residue |].
  destruct (isEmpty (stripANSI line)) eqn:Hempty.
  - rewrite (captureLine_empty _ _ _ _ Hempty). repeat split.
  - rewrite (captureLine_handle isStderr st line t Hempty).
    cbn [withLogs LogBuffer addToLogBuffer].
    destruct isStderr; apply appendLogBuffer_last.
Qed.

(** *** Port extraction *)

Lemma HasPrefix_byte (c d : ascii) (s : string) :
  HasPrefix (String d s) (String c EmptyString) = Ascii.eqb c d.
Proof. cbn [HasPrefix]. rewrite HasPrefix_empty. apply andb_true_r. Qed.

Lemma lastIndexFrom_absent (c : ascii) (s : string) :
  forall i, hasByte s c = false -> lastIndexFrom i s (String c EmptyString) = -1.
Proof.
  induction s as [| d s IH]; intros i H; [reflexivity |].
  unfold hasByte in H. cbn [inCutset] in H. apply orb_false_iff in H as [Hd Hs].
  cbn [lastIndexFrom]. rewrite (IH _ Hs), HasPrefix_byte, Hd. reflexivity.
Qed.

Lemma lastIndexFrom_found (c : ascii) (text pre : string) :
  hasByte text c = false ->
  forall i, 0 <= i ->
    lastIndexFrom i (pre +:+ String c text) (String c EmptyString)
    = i + Z.of_nat (String.length pre).
Proof.
  intro Htext. induction pre as [| d pre IH]; intros i Hi.
  - rewrite append_nil. cbn [lastIndexFrom String.length].
    rewrite (lastIndexFrom_absent _ _ _ Htext), HasPrefix_byte, Ascii.eqb_refl.
    cbn. lia.
  - rewrite append_cons. cbn [lastIndexFrom String.length].
    rewrite IH by lia.
    destruct (Z.eqb_spec (i + 1 + Z.of_nat (String.length pre)) (-1)); lia.
Qed.

Lemma sliceFrom_append (pre rest : string) :
  sliceFrom (String.length pre) (pre +:+ rest) = rest.
Proof.
  induction pre as [| d pre IH]; [destruct rest; reflexivity |].
  rewrite append_cons. exact IH.
Qed.

Lemma sliceTo_append (pre rest : string) :
  sliceTo (String.length pre) (pre +:+ rest) = pre.
Proof.
  induction pre as [| d pre IH]; [destruct rest; reflexivity |].
  rewrite append_cons. cbn [String.length sliceTo]. rewrite IH. reflexivity.
Qed.

Lemma indexFrom_absent (c : ascii) (s : string) :
  forall i, hasByte s c = false -> indexFrom i s (String c EmptyString) = -1.
Proof.
  induction s as [| d s IH]; intros i H; [reflexivity |].
  unfold hasByte in H. cbn [inCutset] in H. apply orb_false_iff in H as [Hd Hs].
  cbn [indexFrom]. rewrite HasPrefix_byte, Hd. apply IH; exact Hs.
Qed.

Lemma indexFrom_found (c : ascii) (rest pre : string) :
  hasByte pre c = false ->
  forall i,
    indexFrom i (pre +:+ String c rest) (String c EmptyString)
    = i + Z.of_nat (String.length pre).
Proof.
  induction pre as [| d pre IH]; intros Hpre i.
  - rewrite append_nil. cbn [indexFrom String.length].
    rewrite HasPrefix_byte, Ascii.eqb_refl. cbn. lia.
  - unfold hasByte in Hpre. cbn [inCutset] in Hpre.
    apply orb_false_iff in Hpre as [Hd Hpre].
    rewrite append_cons. cbn [indexFrom String.length].
    rewrite HasPrefix_byte, Hd, (IH Hpre). lia.
Qed.

(** The text after the last colon, as the two parsers cut it. *)
Lemma after_last_colon (pre text : string) :
  hasByte text ":" = false ->
  LastIndex (pre +:+ String ":" text) ":" = Z.of_nat (String.length pre)
  /\ sliceFrom (Z.to_nat (Z.of_nat (String.length pre) + 1)) (pre +:+ String ":" text)
     = text.
Proof.
  intro H. split.
  - unfold LastIndex. rewrite (lastIndexFrom_found _ _ _ H) by lia. lia.
  - replace (Z.to_nat (Z.of_nat (String.length pre) + 1))
      with (String.length (pre +:+ ":")) by (rewrite length_append; cbn; lia).
    replace (pre +:+ String ":" text) with ((pre +:+ ":") +:+ text)
      by (rewrite append_assoc; reflexivity).
    apply sliceFrom_append.
Qed.

Lemma hasByte_trimLeftCut (cutset : string) (c : ascii) (s : string) :
  hasByte (trimLeftCut cutset s) c = true -> hasByte s c = true.
Proof.
  induction s as [| d s IH]; intro H; [discriminate H |].
  cbn [trimLeftCut] in H. destruct (inCutset d cutset); [| exact H].
  unfold hasByte in *. cbn [inCutset]. rewrite (IH H). apply orb_true_r.
Qed.

Lemma hasByte_trimRightCut (cutset : string) (c : ascii) (s : string) :
  hasByte (trimRightCut cutset s) c = true -> hasByte s c = true.
Proof.
  induction s as [| d s IH]; intro H; [discriminate H |].
  cbn [trimRightCut] in H.
  destruct (allInCutset cutset (String d s)); [discriminate H |].
  unfold hasByte in *. cbn [inCutset] in *.
  apply orb_true_iff in H as [H | H]; apply orb_true_iff;
    [left; exact H | right; exact (IH H)].
Qed.

Lemma hasByte_Trim_false (cutset : string) (c : ascii) (s : string) :
  hasByte s c = false -> hasByte (Trim s cutset) c = false.
Proof.
  intro H. destruct (hasByte (Trim s cutset) c) eqn:Ht; [| reflexivity].
  unfold Trim in Ht.
  apply hasByte_trimRightCut, hasByte_trimLeftCut in Ht. congruence.
Qed.

Lemma portValue_range (parsed : option Z) : 0 <= portValue parsed <= 65535.
Proof.
  unfold portValue. destruct parsed as [n |]; [| lia].
  destruct (Z.ltb_spec 0 n), (Z.leb_spec n 65535); cbn [andb]; lia.
Qed.

Lemma portValue_guard (parsed : option Z) :
  match parsed with
  | None => 0
  | Some port_ => if (port_ <=? 0) || (65535 <? port_) then 0 else port_
  end = portValue parsed.
Proof.
  unfold portValue. destruct parsed as [n |]; [| reflexivity].
  destruct (Z.leb_spec n 0), (Z.ltb_spec 65535 n), (Z.ltb_spec 0 n),
    (Z.leb_spec n 65535); cbn [andb orb]; lia.
Qed.

Lemma extractPortFromAddr_colon (pre text : string) :
  hasByte text ":" = false ->
  extractPortFromAddr (pre +:+ String ":" text) = portValue (Atoi text).
Proof.
  intro H. unfold extractPortFromAddr.
  destruct (after_last_colon pre text H) as [-> ->].
  destruct (Z.eqb_spec (Z.of_nat (String.length pre)) (-1)); [lia |].
  apply portValue_guard.
Qed.

Lemma extractPortFromAddr_no_colon (addr : string) :
  hasByte addr ":" = false -> extractPortFromAddr addr = 0.
Proof.
  intro H. unfold extractPortFromAddr, LastIndex.
  rewrite (lastIndexFrom_absent _ _ _ H). reflexivity.
Qed.

Lemma extractPortFromLsofName_no_colon (name_ : string) :
  hasByte name_ ":" = false -> extractPortFromLsofName name_ = 0.
Proof.
  intro H. unfold extractPortFromLsofName, LastIndex.
  rewrite (lastIndexFrom_absent _ _ _ (hasByte_Trim_false "[]" _ _ H)). reflexivity.
Qed.

Lemma extractPortFromLsofName_plain (name_ pre num : string) :
  Trim name_ "[]" = pre +:+ String ":" num ->
  hasByte num ":" = false -> hasByte num "(" = false ->
  extractPortFromLsofName name_ = portValue (Atoi (TrimSpace num)).
Proof.
  intros Htrim Hcolon Hparen. unfold extractPortFromLsofName. rewrite Htrim.
  destruct (after_last_colon pre num Hcolon) as [-> ->].
  destruct (Z.eqb_spec (Z.of_nat (String.length pre)) (-1)); [lia |].
  unfold Index. rewrite (indexFrom_absent _ _ _ Hparen). cbn [Z.eqb].
  apply portValue_guard.
Qed.

Lemma extractPortFromLsofName_annotated (name_ pre num note : string) :
  Trim name_ "[]" = pre +:+ String ":" (num +:+ String "(" note) ->
  hasByte num ":" = false -> hasByte note ":" = false -> hasByte num "(" = false ->
  extractPortFromLsofName name_ = portValue (Atoi (TrimSpace num)).
Proof.
  intros Htrim Hcolon Hnote Hparen. unfold extractPortFromLsofName. rewrite Htrim.
  assert (Htext : hasByte (num +:+ String "(" note) ":" = false).
  { rewrite hasByte_append, Hcolon. unfold hasByte in *. cbn [inCutset orb].
    rewrite Hnote. reflexivity. }
  destruct (after_last_colon pre _ Htext) as [-> ->].
  destruct (Z.eqb_spec (Z.of_nat (String.length pre)) (-1)); [lia |].
  unfold Index. rewrite (indexFrom_found _ _ _ Hparen).
  destruct (Z.eqb_spec (0 + Z.of_nat (String.length num)) (-1)); [lia |].
  replace (Z.to_nat (0 + Z.of_nat (String.length num))) with (String.length num) by lia.
  rewrite sliceTo_append. apply portValue_guard.
Qed.

Lemma allDigits_no_paren (s : string) :
  allDigits s = true -> hasByte s "(" = false.
Proof.
  induction s as [| d s IH]; intro H; [reflexivity |].
  cbn [allDigits] in H. apply andb_true_iff in H as [Hd Hs].
  unfold hasByte in *. cbn [inCutset]. rewrite (IH Hs), orb_false_r.
  destruct (Ascii.eqb_spec "(" d) as [<- |]; [discriminate Hd | reflexivity].
Qed.

(** Text with a parenthesis in it is no number for [strconv.Atoi]. *)
Lemma Atoi_paren (s : string) : hasByte s "(" = true -> Atoi s = None.
Proof.
  intro H. unfold Atoi.
  destruct s as [| c s]; [discriminate H |].
  assert (Hcase : forall ds (n : Z), hasByte ds "(" = true ->
    (if isEmpty ds || negb (allDigits ds) then None
     else if (minInt <=? n) && (n <=? maxInt) then Some n else None) = None).
  { intros ds n Hds. destruct (allDigits ds) eqn:Hall.
    - apply allDigits_no_paren in Hall. congruence.
    - rewrite orb_true_r. reflexivity. }
  assert (Htail : forall d, Ascii.eqb "(" d = false ->
            hasByte (String d s) "(" = true -> hasByte s "(" = true).
  { intros d Hd Hs. unfold hasByte in *. cbn [inCutset] in Hs.
    rewrite Hd in Hs. exact Hs. }
  cbv zeta.
  destruct (Ascii.eqb_spec c "-") as [-> | Hminus].
  - apply Hcase, (Htail "-"%char); [reflexivity | exact H].
  - destruct (Ascii.eqb_spec c "+") as [-> | Hplus].
    + apply Hcase, (Htail "+"%char); [reflexivity | exact H].
    + apply Hcase; exact H.
Qed.

Lemma extractPortFromAddr_range (addr : string) :
  0 <= extractPortFromAddr addr <= 65535.
Proof.
  unfold extractPortFromAddr.
  destruct (LastIndex addr ":" =? -1); [lia |].
  rewrite portValue_guard. apply portValue_range.
Qed.

Lemma extractPortFromLsofName_range (name_ : string) :
  0 <= extractPortFromLsofName name_ <= 65535.
Proof.
  unfold extractPortFromLsofName.
  destruct (LastIndex (Trim name_ "[]") ":" =? -1); [lia |].
  rewrite portValue_guard. apply portValue_range.
Qed.

(** C8, as the code has it.  Both parsers cut the text after the last
    colon and answer 0 when there is no colon.  [extractPortFromAddr]
    parses that text as it stands, so an address with an annotation in
    parentheses is answered with 0; [extractPortFromLsofName] first trims
    square brackets from both ends of the name, cuts the text at its first
    opening parenthesis and trims white space around what is left.  Each
    answers the number [strconv.Atoi] reads when that is in 1..65535 and 0
    otherwise, so no answer is outside 0..65535. *)
Theorem port_extraction_as_coded :
  forall (name_ pre num note : string),
    hasByte num ":" = false ->
    hasByte num "(" = false ->
    hasByte note ":" = false ->
    extractPortFromAddr (pre +:+ String ":" num) = portValue (Atoi num)
    /\ extractPortFromAddr (pre +:+ String ":" (num +:+ String "(" note)) = 0
    /\ (Trim name_ "[]" = pre +:+ String ":" num ->
        extractPortFromLsofName name_ = portValue (Atoi (TrimSpace num)))
    /\ (Trim name_ "[]" = pre +:+ String ":" (num +:+ String "(" note) ->
        extractPortFromLsofName name_ = portValue (Atoi (TrimSpace num)))
    /\ (hasByte name_ ":" = false ->
        extractPortFromAddr name_ = 0 /\ extractPortFromLsofName name_ = 0)
    /\ 0 <= extractPortFromAddr name_ <= 65535
    /\ 0 <= extractPortFromLsofName name_ <= 65535
    /\ (forall parsed : option Z,
          portValue parsed = 0
          <-> ~ exists n, parsed = Some n /\ 0 < n <= 65535).
Proof.
  intros name_ pre num note Hcolon Hparen Hnote.
  split; [apply extractPortFromAddr_colon; exact Hcolon |].
  split.
  { rewrite extractPortFromAddr_colon.
    - rewrite Atoi_paren; [reflexivity |].
      rewrite hasByte_append. unfold hasByte. cbn [inCutset Ascii.eqb Bool.eqb orb].
      apply orb_true_r.
    - rewrite hasByte_append, Hcolon. unfold hasByte in *. cbn [inCutset orb].
      rewrite Hnote. reflexivity. }
  split; [intro Ht; exact (extractPortFromLsofName_plain _ _ _ Ht Hcolon Hparen) |].
  split; [intro Ht; exact (extractPortFromLsofName_annotated _ _ _ _ Ht Hcolon Hnote Hparen) |].
  split.
  { intro Hn. split;
      [apply extractPortFromAddr_no_colon | apply extractPortFromLsofName_no_colon];
      exact Hn. }
  split; [apply extractPortFromAddr_range |].
  split; [apply extractPortFromLsofName_range |].
  intro parsed. unfold portValue. destruct parsed as [n |].
  - destruct (Z.ltb_spec 0 n), (Z.leb_spec n 65535); cbn [andb]; split;
      try lia; try (intros _ (k & [= <-] & Hk); lia).
    intros Hno. exfalso. apply Hno. exists n. split; [reflexivity | lia].
  - split; [intros _ (k & Hk & _); discriminate | reflexivity].
Qed.

(** *** Environment assembly *)

Lemma HasPrefix_append (a b : string) : HasPrefix (a +:+ b) a = true.
Proof.
  induction a as [| d a IH]; [apply HasPrefix_empty |].
  rewrite append_cons. cbn [HasPrefix]. rewrite Ascii.eqb_refl. exact IH.
Qed.

(** Two names free of ['='], one entry: the entry carries the name that
    prefixes it. *)
Lemma HasPrefix_entry_name (k k' v : string) :
  hasByte k "=" = false -> hasByte k' "=" = false ->
  HasPrefix (envEntry k v) (k' +:+ "=") = true -> k = k'.
Proof.
  unfold envEntry, hasByte. revert k'.
  induction k as [| d k IH]; intros k' Hk Hk' H.
  - destruct k' as [| d' k']; [reflexivity |].
    rewrite append_nil in H.
    change ("=" +:+ v) with (String "=" v) in H.
    rewrite append_cons in H. cbn [HasPrefix] in H.
    cbn [inCutset] in Hk'. apply orb_false_iff in Hk' as [Hd' _].
    rewrite Ascii.eqb_sym, Hd' in H. discriminate H.
  - cbn [inCutset] in Hk. apply orb_false_iff in Hk as [Hd Hk].
    destruct k' as [| d' k'].
    + rewrite append_nil, append_cons in H.
      change ("=" : string) with (String "=" EmptyString) in H.
      cbn [HasPrefix] in H.
      rewrite Hd in H. discriminate H.
    + rewrite !append_cons in H. cbn [HasPrefix] in H.
      apply andb_true_iff in H as [Hdd H].
      cbn [inCutset] in Hk'. apply orb_false_iff in Hk' as [_ Hk'].
      apply Ascii.eqb_eq in Hdd as ->. f_equal. exact (IH _ Hk Hk' H).
Qed.

Lemma envEntry_inj (k v v' : string) : envEntry k v = envEntry k v' -> v = v'.
Proof.
  unfold envEntry. induction k as [| d k IH]; intro H.
  - rewrite !append_nil in H. injection H as H. exact H.
  - rewrite !append_cons in H. injection H as H. exact (IH H).
Qed.

Lemma elem_of_removeEnvVar (env : list string) (key e : string) :
  e ∈ removeEnvVar env key <-> e ∈ env /\ HasPrefix e (key +:+ "=") = false.
Proof.
  unfold removeEnvVar. rewrite !list_elem_of_In, filter_In, negb_true_iff.
  reflexivity.
Qed.

(** Where the entries of a merge come from: an entry of the result is
    an entry of the start that no variable names, or the entry of a
    variable. *)
Lemma merge_list_origin (kvs : list (string * string)) :
  forall (env : list string) (e : string),
    e ∈ fold_left (fun env kv => removeEnvVar env (fst kv) ++ [fst kv +:+ "=" +:+ snd kv])
          kvs env ->
    (e ∈ env /\ Forall (fun kv => HasPrefix e (fst kv +:+ "=") = false) kvs)
    \/ (exists kv, kv ∈ kvs /\ e = envEntry (fst kv) (snd kv)).
Proof.
  induction kvs as [| [k v] kvs IH]; intros env e H.
  - left. split; [exact H | constructor].
  - cbn [fold_left fst snd] in H. apply IH in H.
    destruct H as [[He Hall] | (kv & Hkv & ->)].
    + apply elem_of_app in He as [He | He].
      * apply elem_of_removeEnvVar in He as [He Hpre].
        left. split; [exact He |]. constructor; [exact Hpre | exact Hall].
      * apply list_elem_of_singleton in He. subst e.
        right. exists (k, v). split; [left | reflexivity].
    + right. exists kv. split; [right; exact Hkv | reflexivity].
Qed.

(** An entry that no variable names stays. *)
Lemma merge_list_keeps (kvs : list (string * string)) :
  forall (env : list string) (e : string),
    e ∈ env ->
    Forall (fun kv => HasPrefix e (fst kv +:+ "=") = false) kvs ->
    e ∈ fold_left (fun env kv => removeEnvVar env (fst kv) ++ [fst kv +:+ "=" +:+ snd kv])
          kvs env.
Proof.
  induction kvs as [| [k v] kvs IH]; intros env e He Hall; [exact He |].
  apply Forall_cons in Hall as [Hpre Hall]. cbn [fst] in Hpre.
  cbn [fold_left fst snd]. apply IH; [| exact Hall].
  apply elem_of_app. left. apply elem_of_removeEnvVar. split; assumption.
Qed.

(** With distinct names free of ['='], the entry of every variable is in
    the result. *)
Lemma merge_list_binds (kvs : list (string * string)) :
  NoDup (kvs.*1) ->
  Forall (fun kv => hasByte (fst kv) "=" = false) kvs ->
  forall (env : list string) (kv : string * string),
    kv ∈ kvs ->
    envEntry (fst kv) (snd kv)
    ∈ fold_left (fun env kv => removeEnvVar env (fst kv) ++ [fst kv +:+ "=" +:+ snd kv])
        kvs env.
Proof.
  induction kvs as [| [k v] kvs IH]; intros Hnd Hplain env kv Hkv; [inversion Hkv |].
  cbn [fmap list_fmap fst] in Hnd. apply NoDup_cons in Hnd as [Hk Hnd].
  apply Forall_cons in Hplain as [Hkplain Hplain]. cbn [fst] in Hkplain.
  cbn [fold_left fst snd].
  apply elem_of_cons in Hkv as [-> | Hkv]; [| apply IH; assumption].
  cbn [fst snd]. apply merge_list_keeps.
  - apply elem_of_app. right. apply list_elem_of_singleton. reflexivity.
  - apply Forall_forall. intros [k' v'] Hin. cbn [fst].
    destruct (HasPrefix (envEntry k v) (k' +:+ "=")) eqn:Hpre; [| reflexivity].
    exfalso. apply Hk.
    rewrite Forall_forall in Hplain.
    pose proof (Hplain _ Hin) as Hk'. cbn [fst] in Hk'.
    rewrite (HasPrefix_entry_name _ _ _ Hkplain Hk' Hpre).
    apply list_elem_of_fmap. exists (k', v'). split; [reflexivity | exact Hin].
Qed.

Lemma elem_of_mapRange (vars : gmap string string) (k v : string) :
  (k, v) ∈ mapRange vars <-> vars !! k = Some v.
Proof using mapRange_perm. rewrite (mapRange_perm vars). apply elem_of_map_to_list. Qed.

(** An entry of [mergeEnv env vars] is an entry of [env] that no
    variable names, or the entry of a variable. *)
Lemma mergeEnv_origin (env : list string) (vars : gmap string string) (e : string) :
  e ∈ mergeEnv env vars ->
  (e ∈ env /\ notNamedBy vars e)
  \/ (exists k v, vars !! k = Some v /\ e = envEntry k v).
Proof using mapRange_perm.
  intro H. apply merge_list_origin in H as [[He Hall] | ([k v] & Hkv & ->)].
  - left. split; [exact He |]. intros k v Hkv.
    rewrite Forall_forall in Hall.
    apply (Hall (k, v)), elem_of_mapRange, Hkv.
  - right. exists k, v. split; [apply elem_of_mapRange, Hkv | reflexivity].
Qed.

(** An entry of [env] that no variable names is an entry of
    [mergeEnv env vars]. *)
Lemma mergeEnv_keeps (env : list string) (vars : gmap string string) (e : string) :
  e ∈ env -> notNamedBy vars e -> e ∈ mergeEnv env vars.
Proof using mapRange_perm.
  intros He Hno. apply merge_list_keeps; [exact He |].
  apply Forall_forall. intros [k v] Hin.
  apply (Hno k v), elem_of_mapRange, Hin.
Qed.

(** With names free of ['='], the entry of every variable is an entry
    of [mergeEnv env vars]. *)
Lemma mergeEnv_binds (env : list string) (vars : gmap string string) (k v : string) :
  plainNames vars -> vars !! k = Some v -> envEntry k v ∈ mergeEnv env vars.
Proof using mapRange_perm.
  intros Hplain Hkv.
  apply (merge_list_binds (mapRange vars)) with (kv := (k, v)).
  - rewrite (mapRange_perm vars). apply NoDup_fst_map_to_list.
  - apply Forall_forall. intros [k' v'] Hin. apply elem_of_mapRange in Hin.
    exact (Hplain k' v' Hin).
  - apply elem_of_mapRange, Hkv.
Qed.

Lemma mergeEnv_empty (env : list string) : mergeEnv env ∅ = env.
Proof using mapRange_perm.
  unfold mergeEnv.
  assert (H : mapRange ∅ = []).
  { apply Permutation_nil_r. rewrite (mapRange_perm ∅), map_to_list_empty. reflexivity. }
  rewrite H. reflexivity.
Qed.

Lemma splitFirst_name (sep : ascii) (s : string) :
  forall cur a b,
    hasByte cur sep = false ->
    splitFirst sep cur s = [a; b] -> hasByte a sep = false.
Proof.
  induction s as [| c s IH]; intros cur a b Hcur H; [discriminate H |].
  cbn [splitFirst] in H. destruct (Ascii.eqb c sep) eqn:Hc.
  - injection H as <- _. exact Hcur.
  - apply (IH _ _ _) in H; [exact H |].
    rewrite hasByte_append, Hcur. unfold hasByte. cbn [inCutset orb].
    rewrite Ascii.eqb_sym, Hc. reflexivity.
Qed.

Lemma hasByte_TrimSpace_false (c : ascii) (s : string) :
  hasByte s c = false -> hasByte (TrimSpace s) c = false.
Proof.
  intro H. destruct (hasByte (TrimSpace s) c) eqn:Ht; [| reflexivity].
  apply hasByte_TrimSpace in Ht. congruence.
Qed.

Lemma loadEnvLine_plainNames (envVars : gmap string string) (line : string) :
  plainNames envVars -> plainNames (loadEnvLine envVars line).
Proof.
  intro H. unfold loadEnvLine.
  destruct (isEmpty (TrimSpace line) || HasPrefix (TrimSpace line) "#"); [exact H |].
  unfold SplitN2.
  destruct (splitFirst "=" "" (TrimSpace line)) as [| k [| v [| ? ?]]] eqn:Hs;
    try exact H.
  apply map_Forall_insert_2; [| exact H].
  apply hasByte_TrimSpace_false.
  exact (splitFirst_name "=" (TrimSpace line) "" k v eq_refl Hs).
Qed.

(** The names read from an env file are free of ['=']. *)
Lemma loadEnvFile_plainNames (h : Host) (envPath : string) :
  plainNames (loadEnvFile h envPath).
Proof.
  unfold loadEnvFile. destruct (ReadFile h envPath) as [content |];
    [| apply map_Forall_empty].
  generalize (Split content LF). intro lines.
  assert (Hgen : forall acc, plainNames acc -> plainNames (fold_left loadEnvLine lines acc)).
  { induction lines as [| line lines IH]; intros acc Hacc; [exact Hacc |].
    cbn [fold_left]. apply IH, loadEnvLine_plainNames, Hacc. }
  apply Hgen, map_Forall_empty.
Qed.

Lemma envFileVars_plainNames (h : Host) (EnvFile Path : string) :
  plainNames (envFileVars h EnvFile Path).
Proof.
  unfold envFileVars.
  destruct (negb (isEmpty _)); [apply loadEnvFile_plainNames | apply map_Forall_empty].
Qed.

(** The list that [prepareEnvironment] returns: the two merges, then the
    two defaults. *)
Lemma prepareEnvironment_shape (h : Host) (Port : Z)
    (Environment EnvFile EnvVars Path : string) :
  let merged :=
    mergeEnv (mergeEnv (Environ h) (envFileVars h EnvFile Path)) (inlineVars EnvVars) in
  prepareEnvironment h Port Environment EnvFile EnvVars Path
  = merged ++ portDefault merged Port ++ environmentDefault merged Environment.
Proof using mapRange_perm.
  intro merged. unfold prepareEnvironment.
  set (envFilePath := if isEmpty EnvFile && negb (isEmpty Path)
                      then filepath_Join Path ".env" else EnvFile).
  assert (Hfile : (if negb (isEmpty envFilePath)
                   then mergeEnv (Environ h) (loadEnvFile h envFilePath)
                   else Environ h)
                  = mergeEnv (Environ h) (envFileVars h EnvFile Path)).
  { unfold envFileVars. fold envFilePath.
    destruct (negb (isEmpty envFilePath)); [reflexivity |].
    symmetry. apply mergeEnv_empty. }
  rewrite Hfile.
  assert (Hjson : (if negb (isEmpty EnvVars)
                   then mergeEnv (mergeEnv (Environ h) (envFileVars h EnvFile Path))
                          (parseEnvVarsJSON EnvVars)
                   else mergeEnv (Environ h) (envFileVars h EnvFile Path))
                  = merged).
  { subst merged. unfold inlineVars.
    destruct (negb (isEmpty EnvVars)); [reflexivity |].
    symmetry. apply mergeEnv_empty. }
  rewrite Hjson. unfold portDefault, environmentDefault.
  destruct (negb (existsb (fun e => HasPrefix e "PORT=") merged) && (0 <? Port)).
  - rewrite existsb_app. cbn [existsb].
    replace (HasPrefix ("PORT=" +:+ Itoa Port) "ENVIRONMENT=") with false by reflexivity.
    rewrite !orb_false_r.
    destruct (negb (existsb (fun e => HasPrefix e "ENVIRONMENT=") merged)
              && negb (isEmpty Environment)).
    + rewrite <- app_assoc. reflexivity.
    + rewrite app_nil_r. reflexivity.
  - cbn [app].
    destruct (negb (existsb (fun e => HasPrefix e "ENVIRONMENT=") merged)
              && negb (isEmpty Environment)).
    + reflexivity.
    + rewrite app_nil_r. reflexivity.
Qed.

(** A default entry names a variable only when [merged] has no entry of
    that name. *)
Lemma default_entry_fresh (merged : list string) (name_ value k v : string) :
  hasByte name_ "=" = false ->
  hasByte k "=" = false ->
  existsb (fun e => HasPrefix e (name_ +:+ "=")) merged = false ->
  envEntry k v ∈ merged ->
  HasPrefix (envEntry name_ value) (k +:+ "=") = false.
Proof.
  intros Hname Hk Hnone Hin.
  destruct (HasPrefix (envEntry name_ value) (k +:+ "=")) eqn:Hpre; [| reflexivity].
  apply (HasPrefix_entry_name _ _ _ Hname Hk) in Hpre. subst k.
  assert (Hex : existsb (fun e => HasPrefix e (name_ +:+ "=")) merged = true).
  { apply existsb_exists. exists (envEntry name_ v). split.
    - apply list_elem_of_In. exact Hin.
    - unfold envEntry. rewrite <- append_assoc. apply HasPrefix_append. }
  congruence.
Qed.

Lemma bindsOnly_defaults (merged : list string) (Port : Z) (Environment k v : string) :
  hasByte k "=" = false ->
  bindsOnly merged k v ->
  bindsOnly (merged ++ portDefault merged Port ++ environmentDefault merged Environment)
    k v.
Proof.
  intros Hk [Hin Honly]. split.
  - apply elem_of_app. left. exact Hin.
  - intros e He Hpre.
    apply elem_of_app in He as [He | He]; [exact (Honly _ He Hpre) |].
    exfalso.
    apply elem_of_app in He as [He | He].
    + unfold portDefault in He.
      destruct (negb (existsb (fun e => HasPrefix e "PORT=") merged)) eqn:Hno;
        cbn [andb] in He; [| inversion He].
      destruct (0 <? Port); [| inversion He].
      apply list_elem_of_singleton in He. subst e.
      apply negb_true_iff in Hno.
      pose proof (default_entry_fresh merged "PORT" (Itoa Port) k v
                    eq_refl Hk Hno Hin) as Hfresh.
      unfold envEntry in Hfresh. rewrite <- append_assoc in Hfresh.
      change ("PORT" +:+ "=") with "PORT=" in Hfresh. congruence.
    + unfold environmentDefault in He.
      destruct (negb (existsb (fun e => HasPrefix e "ENVIRONMENT=") merged)) eqn:Hno;
        cbn [andb] in He; [| inversion He].
      destruct (negb (isEmpty Environment)); [| inversion He].
      apply list_elem_of_singleton in He. subst e.
      apply negb_true_iff in Hno.
      pose proof (default_entry_fresh merged "ENVIRONMENT" Environment k v
                    eq_refl Hk Hno Hin) as Hfresh.
      unfold envEntry in Hfresh. rewrite <- append_assoc in Hfresh.
      change ("ENVIRONMENT" +:+ "=") with "ENVIRONMENT=" in Hfresh. congruence.
Qed.

(** A variable of the later merge binds its name alone. *)
Lemma bindsOnly_mergeEnv (env : list string) (vars : gmap string string) (k v : string) :
  plainNames vars ->
  vars !! k = Some v ->
  bindsOnly (mergeEnv env vars) k v.
Proof using mapRange_perm.
  intros Hplain Hkv. split.
  - apply mergeEnv_binds; assumption.
  - intros e He Hpre.
    apply mergeEnv_origin in He as [[_ Hno] | (k' & v' & Hkv' & ->)].
    + rewrite (Hno k v Hkv) in Hpre. discriminate Hpre.
    + apply HasPrefix_entry_name in Hpre;
        [| exact (Hplain _ _ Hkv') | exact (Hplain _ _ Hkv)].
      subst k'. congruence.
Qed.

(** A binding survives a later merge that has no variable of its name. *)
Lemma bindsOnly_mergeEnv_other (env : list string) (vars : gmap string string)
    (k v : string) :
  plainNames vars ->
  hasByte k "=" = false ->
  vars !! k = None ->
  bindsOnly env k v ->
  bindsOnly (mergeEnv env vars) k v.
Proof using mapRange_perm.
  intros Hplain Hk Hnone [Hin Honly]. split.
  - apply mergeEnv_keeps; [exact Hin |].
    intros k' v' Hkv'.
    destruct (HasPrefix (envEntry k v) (k' +:+ "=")) eqn:Hpre; [| reflexivity].
    apply HasPrefix_entry_name in Hpre; [| exact Hk | exact (Hplain _ _ Hkv')].
    subst k'. congruence.
  - intros e He Hpre.
    apply mergeEnv_origin in He as [[He _] | (k' & v' & Hkv' & ->)].
    + exact (Honly _ He Hpre).
    + apply HasPrefix_entry_name in Hpre; [| exact (Hplain _ _ Hkv') | exact Hk].
      subst k'. congruence.
Qed.

(** C2.  The child's environment is the merged list, then
    [PORT=<port>] exactly when no merged entry starts with [PORT=] and
    the port is positive, then [ENVIRONMENT=<tag>] exactly when no
    merged entry starts with [ENVIRONMENT=] and the tag is not empty.
    In the merged list an inherited entry is left only if neither the
    env file nor the inline JSON has a variable that names it, and an
    entry of the env file only if the inline JSON has no variable that
    names it; an inherited entry that neither names always stays.  With
    the names of the inline JSON free of ['='] (the names of an env file
    always are), a variable of the inline JSON is in the environment
    with its JSON value and no other entry has its name, and a variable
    of the env file that the JSON does not name is there with the file's
    value and no other entry has its name.  This holds for every order
    in which the two maps are ranged over. *)
Theorem prepareEnvironment_precedence :
  forall (h : Host) (Port : Z) (Environment EnvFile EnvVars Path : string),
    let fileVars := envFileVars h EnvFile Path in
    let jsonVars := inlineVars EnvVars in
    let merged := mergeEnv (mergeEnv (Environ h) fileVars) jsonVars in
    let env := prepareEnvironment h Port Environment EnvFile EnvVars Path in
    env
    = merged
      ++ (if negb (existsb (fun e => HasPrefix e "PORT=") merged) && (0 <? Port)
          then ["PORT=" +:+ Itoa Port] else [])
      ++ (if negb (existsb (fun e => HasPrefix e "ENVIRONMENT=") merged)
             && negb (isEmpty Environment)
          then ["ENVIRONMENT=" +:+ Environment] else [])
    /\ (forall e, e ∈ merged ->
          (e ∈ Environ h /\ notNamedBy fileVars e /\ notNamedBy jsonVars e)
          \/ (notNamedBy jsonVars e
              /\ exists k v, fileVars !! k = Some v /\ e = envEntry k v)
          \/ (exists k v, jsonVars !! k = Some v /\ e = envEntry k v))
    /\ (forall e, e ∈ Environ h -> notNamedBy fileVars e -> notNamedBy jsonVars e ->
          e ∈ env)
    /\ (plainNames jsonVars ->
        (forall k v, jsonVars !! k = Some v -> bindsOnly env k v)
        /\ (forall k v, fileVars !! k = Some v -> jsonVars !! k = None ->
              bindsOnly env k v)).
Proof using mapRange_perm.
  intros h Port Environment EnvFile EnvVars Path fileVars jsonVars merged env.
  pose proof (envFileVars_plainNames h EnvFile Path) as Hfile. fold fileVars in Hfile.
  assert (Henv : env = merged ++ portDefault merged Port
                         ++ environmentDefault merged Environment)
    by (apply prepareEnvironment_shape).
  split; [exact Henv |].
  split; [| split].
  - intros e He. subst merged.
    apply mergeEnv_origin in He as [[He Hj] | Hjson]; [| right; right; exact Hjson].
    apply mergeEnv_origin in He as [[He Hf] | Hfrom].
    + left. repeat split; assumption.
    + right. left. split; assumption.
  - intros e He Hf Hj. rewrite Henv. apply elem_of_app. left.
    apply mergeEnv_keeps; [| exact Hj]. apply mergeEnv_keeps; assumption.
  - intro Hjson. split.
    + intros k v Hkv. rewrite Henv.
      apply bindsOnly_defaults; [exact (Hjson _ _ Hkv) |].
      apply bindsOnly_mergeEnv; assumption.
    + intros k v Hkv Hnone. rewrite Henv.
      apply bindsOnly_defaults; [exact (Hfile _ _ Hkv) |].
      apply bindsOnly_mergeEnv_other;
        [exact Hjson | exact (Hfile _ _ Hkv) | exact Hnone |].
      apply bindsOnly_mergeEnv; assumption.
Qed.

(** ** Further properties of the supervisor *)

(** *** Lifecycle *)

Lemma Updates_stoppedRow (projectID : N) (t : Z) (d : gmap N Project) (p : Project) :
  d !! projectID = Some p ->
  Updates projectID [col_status StatusStopped; col_stop_time t; col_p_id 0] d
  = <[projectID := stoppedRow p t (last_error p)]> d.
Proof.
  intro Hp. apply map_eq; intro j. rewrite Updates_lookup.
  destruct (decide (projectID = j)) as [<- | Hne].
  - rewrite lookup_insert_eq, Hp. reflexivity.
  - rewrite lookup_insert_ne by exact Hne. reflexivity.
Qed.

Lemma Updates_stopping_stopped (projectID : N) (t : Z) (d : gmap N Project) (p : Project) :
  d !! projectID = Some p ->
  Updates projectID [col_status StatusStopped; col_stop_time t; col_p_id 0]
    (Update projectID (col_status StatusStopping) d)
  = <[projectID := stoppedRow p t (last_error p)]> d.
Proof.
  intro Hp. apply map_eq; intro j. unfold Update. rewrite !Updates_lookup.
  destruct (decide (projectID = j)) as [<- | Hne].
  - rewrite lookup_insert_eq, Hp. reflexivity.
  - rewrite lookup_insert_ne by exact Hne. reflexivity.
Qed.

(** What Stop returns for a project in the catalog, in every branch. *)
Lemma StopService_result :
  forall (projectID : N) (m : Manager) (h : Host) (p : Project),
    db m !! projectID = Some p ->
    exists h' : Host,
      StopService projectID m h
      = (None,
         mkManager (<[projectID := stoppedRow p (Now h') (last_error p)]> (db m))
           (delete projectID (processes m)),
         h').
Proof.
  intros projectID m h p Hp. unfold StopService. rewrite Hp.
  destruct (processes m !! projectID) as [processInfo |] eqn:Hproc.
  - rewrite bool_decide_true by (eexists; reflexivity).
    rewrite andb_false_r.
    destruct (WaitDone projectID 10000 (CtxCancel projectID h)) as [done h1] eqn:Hw.
    destruct done.
    + exists h1. rewrite (Updates_stopping_stopped _ _ _ _ Hp). reflexivity.
    + destruct (Process processInfo) as [pid |].
      * destruct (WaitDone projectID 2000 (KillChild pid h1)) as [done2 h2] eqn:Hw2.
        destruct done2; eexists;
          rewrite (Updates_stopping_stopped _ _ _ _ Hp); reflexivity.
      * exists h1. rewrite (Updates_stopping_stopped _ _ _ _ Hp). reflexivity.
  - rewrite bool_decide_false by (intros [? ?]; discriminate).
    rewrite (delete_id _ _ Hproc).
    destruct ((0 <? p_id p) && FindProcess h (p_id p) && Signal0 h (p_id p)) eqn:Hrun;
      cbn [negb andb].
    + assert (Hpos : (0 <? p_id p) = true).
      { apply andb_true_iff in Hrun as [Hrun _].
        apply andb_true_iff in Hrun as [Hrun _]. exact Hrun. }
      rewrite Hpos. eexists.
      rewrite (Updates_stopping_stopped _ _ _ _ Hp). reflexivity.
    + exists h. rewrite (Updates_stoppedRow _ _ _ _ Hp). reflexivity.
Qed.

(** X1.  For a project in the catalog, Stop returns no error in every
    branch (no process, tracked handle that exits in time or has to be
    killed, orphan PID killed by number): afterwards the project has no
    handle, its row reads [stopped] with PID 0 and the stop time taken at
    the end, its other columns and all other rows and handles are as
    before. *)
Theorem Stop_always_stops :
  forall (projectID j : N) (m : Manager) (h : Host) (p : Project),
    db m !! projectID = Some p ->
    exists (m' : Manager) (h' : Host),
      StopService projectID m h = (None, m', h')
      /\ processes m' !! projectID = None
      /\ db m' !! projectID = Some (stoppedRow p (Now h') (last_error p))
      /\ (status <$> db m' !! projectID) = Some "stopped"
      /\ (p_id <$> db m' !! projectID) = Some 0
      /\ (stop_time <$> db m' !! projectID) = Some (Some (Now h'))
      /\ (if decide (projectID = j) then True
          else db m' !! j = db m !! j /\ processes m' !! j = processes m !! j).
Proof.
  intros projectID j m h p Hp.
  destruct (StopService_result projectID m h p Hp) as [h' Hstop].
  eexists _, h'. split; [exact Hstop |]. cbn [processes db].
  rewrite lookup_delete_eq, lookup_insert_eq.
  repeat (split; [reflexivity |]).
  destruct (decide (projectID = j)) as [| Hne]; [exact I |].
  rewrite lookup_insert_ne, lookup_delete_ne by exact Hne. split; reflexivity.
Qed.

(** X2.  For an id that is not in the catalog, Stop, ForceKill and the
    status read return an error, and so do Start and Restart when no
    handle is tracked for it; none of them changes the catalog, the
    handle map or the host. *)
Theorem unknown_project_is_refused :
  forall (projectID : N) (m : Manager) (h : Host),
    db m !! projectID = None ->
    StopService projectID m h = (Some "project not found", m, h)
    /\ ForceKillService projectID m h = (Some "project not found", m, h)
    /\ (exists err, GetServiceStatus projectID m h = ((None, Some err), m))
    /\ (processes m !! projectID = None ->
        StartService projectID m h = Returned (Some "project not found", m, h)
        /\ RestartService projectID m h = Returned (Some "project not found", m, h)).
Proof.
  intros projectID m h Hnone.
  unfold StopService, ForceKillService, GetServiceStatus, RestartService, StartService.
  rewrite Hnone.
  split; [reflexivity |]. split; [reflexivity |]. split.
  - destruct (projectID =? 0)%N; eexists; reflexivity.
  - intros ->. split; reflexivity.
Qed.

(** The row that a successful Start leaves. *)
Lemma Updates_running (projectID : N) (pid t : Z) (d : gmap N Project) (p : Project) :
  d !! projectID = Some p ->
  Updates projectID
    [col_status StatusRunning; col_p_id pid; col_start_time t; col_last_error ""]
    (Update projectID (col_status StatusStarting) d) !! projectID
  = Some (mkProject (name p) (type p) (path p) (command p) (args p) (working_dir p)
            (port p) (environment p) (env_file p) (env_vars p)
            StatusRunning pid (Some t) (stop_time p) "" (logs p)).
Proof.
  intro Hp. unfold Update. rewrite !Updates_lookup, !decide_True by reflexivity.
  rewrite Hp. reflexivity.
Qed.

(** What Start leaves on a catalog row without handle, when it returns. *)
Lemma StartService_outcome :
  forall (projectID : N) (m m' : Manager) (h h' : Host) (p : Project) (err : error),
    db m !! projectID = Some p ->
    processes m !! projectID = None ->
    StartService projectID m h = Returned (err, m', h') ->
    match err with
    | None =>
        exists pid t,
          0 < pid
          /\ processes m'
             = <[projectID := mkProcessInfo projectID (Some pid) t (makeChan 1000) [] false]>
                 (processes m)
          /\ db m' !! projectID
             = Some (mkProject (name p) (type p) (path p) (command p) (args p)
                       (working_dir p) (port p) (environment p) (env_file p)
                       (env_vars p) StatusRunning pid (Some (Now h')) (stop_time p)
                       "" (logs p))
    | Some _ =>
        processes m' = processes m
        /\ exists q, db m' !! projectID = Some q
                     /\ (status q = StatusStarting \/ status q = StatusError)
    end.
Proof.
  intros projectID m m' h h' p err Hp Hproc Hstart.
  unfold StartService in Hstart. rewrite Hproc, Hp in Hstart.
  destruct (prepareCommand (command p) (args p) (type p)) as [cmd | msg];
    [| discriminate Hstart].
  cbn [bindOutcome] in Hstart.
  assert (Hstarting : Update projectID (col_status StatusStarting) (db m) !! projectID
                      = Some (setColumn p (col_status StatusStarting))).
  { unfold Update. rewrite Updates_lookup, decide_True by reflexivity.
    rewrite Hp. reflexivity. }
  destruct (fst (PipesOK h)); cbn [negb] in Hstart.
  2:{ injection Hstart as <- <- <-. cbn [processes db].
      split; [reflexivity |]. eexists. split; [exact Hstarting | left; reflexivity]. }
  destruct (snd (PipesOK h)); cbn [negb] in Hstart.
  2:{ injection Hstart as <- <- <-. cbn [processes db].
      split; [reflexivity |]. eexists. split; [exact Hstarting | left; reflexivity]. }
  destruct (StartCmd _ h) as [[pid | msg] h1].
  - destruct (Z.leb_spec pid 0) as [Hle | Hgt].
    + injection Hstart as <- <- <-. cbn [processes db]. split.
      * rewrite delete_insert_eq. apply delete_id. exact Hproc.
      * unfold Update. rewrite !Updates_lookup, !decide_True by reflexivity.
        rewrite Hp. eexists. split; [reflexivity | right; reflexivity].
    + injection Hstart as <- <- <-. cbn [processes db StartTime].
      exists pid, (Now h). split; [exact Hgt |]. split; [reflexivity |].
      apply Updates_running. exact Hp.
  - injection Hstart as <- <- <-. cbn [processes db]. split.
    + rewrite delete_insert_eq. apply delete_id. exact Hproc.
    + unfold Update. rewrite !Updates_lookup, !decide_True by reflexivity.
      rewrite Hp. eexists. split; [reflexivity | right; reflexivity].
Qed.

(** X3.  Start on a catalog row without handle, when it returns,
    installs a handle exactly when it returns no error.  With no error
    the handle sits under the id with an empty ring, an open channel of
    capacity 1000 and the positive PID of the child, and the row reads
    [running] with that PID, the start time and no last error; with an
    error the handle map is as before and the row is left [starting] (a
    pipe could not be made) or [error] (the child could not be started,
    or had no valid PID). *)
Theorem Start_installs_handle_iff_success :
  forall (projectID : N) (m m' : Manager) (h h' : Host) (p : Project) (err : error),
    db m !! projectID = Some p ->
    processes m !! projectID = None ->
    StartService projectID m h = Returned (err, m', h') ->
    (err = None <-> is_Some (processes m' !! projectID))
    /\ match err with
       | None =>
           exists pid t,
             0 < pid
             /\ processes m' !! projectID
                = Some (mkProcessInfo projectID (Some pid) t (makeChan 1000) [] false)
             /\ (status <$> db m' !! projectID) = Some "running"
             /\ (p_id <$> db m' !! projectID) = Some pid
             /\ (start_time <$> db m' !! projectID) = Some (Some (Now h'))
             /\ (last_error <$> db m' !! projectID) = Some ""
       | Some _ =>
           processes m' = processes m
           /\ ((status <$> db m' !! projectID) = Some "starting"
               \/ (status <$> db m' !! projectID) = Some "error")
       end.
Proof.
  intros projectID m m' h h' p err Hp Hproc Hstart.
  pose proof (StartService_outcome _ _ _ _ _ _ _ Hp Hproc Hstart) as Hs.
  destruct err as [msg |].
  - destruct Hs as (Hsame & q & Hq & Hstatus). split.
    + split; [discriminate |]. rewrite Hsame, Hproc. intros [? ?]. discriminate.
    + split; [exact Hsame |]. rewrite Hq. cbn.
      destruct Hstatus as [-> | ->]; [left | right]; reflexivity.
  - destruct Hs as (pid & t & Hpos & Hprocs & Hrow). split.
    + split; [| reflexivity]. intros _. rewrite Hprocs, lookup_insert_eq. eauto.
    + exists pid, t. rewrite Hprocs, lookup_insert_eq, Hrow.
      repeat split; assumption.
Qed.

Lemma tracked_delete (m : Manager) (d : gmap N Project) (projectID : N) :
  tracked m -> tracked (mkManager d (delete projectID (processes m))).
Proof.
  intros Ht j processInfo Hj. cbn [processes] in Hj.
  apply lookup_delete_Some in Hj as [_ Hj]. exact (Ht _ _ Hj).
Qed.

Lemma tracked_same (m : Manager) (d : gmap N Project) :
  tracked m -> tracked (mkManager d (processes m)).
Proof. intros Ht j processInfo Hj. exact (Ht _ _ Hj). Qed.

(** X4.  The handle map keeps its shape: if every handle sits under its
    own project id and holds a positive child PID, the same is true
    after Start (when it returns), Stop, ForceKill, Restart (when it
    returns), the exit watcher and the status read. *)
Theorem handle_map_invariant :
  forall (projectID : N) (m : Manager) (h : Host)
         (processInfo : ProcessInfo) (waitErr : error),
    tracked m ->
    tracked (snd (fst (StopService projectID m h)))
    /\ tracked (snd (fst (ForceKillService projectID m h)))
    /\ tracked (monitorProcess processInfo waitErr m h)
    /\ tracked (snd (GetServiceStatus projectID m h))
    /\ (forall r, StartService projectID m h = Returned r -> tracked (snd (fst r)))
    /\ (forall r, RestartService projectID m h = Returned r -> tracked (snd (fst r))).
Proof.
  intros projectID m h processInfo waitErr Ht.
  assert (Hstop : forall m0 h0, tracked m0 ->
            tracked (snd (fst (StopService projectID m0 h0)))).
  { intros m0 h0 Ht0. destruct (db m0 !! projectID) as [p |] eqn:Hp.
    - destruct (StopService_result projectID m0 h0 p Hp) as [h' ->].
      apply tracked_delete, Ht0.
    - unfold StopService. rewrite Hp. exact Ht0. }
  assert (Hstart : forall m0 h0 r, tracked m0 ->
            StartService projectID m0 h0 = Returned r -> tracked (snd (fst r))).
  { intros m0 h0 [[err m'] h'] Ht0 Hr. cbn [fst snd].
    destruct (processes m0 !! projectID) as [pi0 |] eqn:Hproc.
    - unfold StartService in Hr. rewrite Hproc in Hr.
      injection Hr as <- <- <-. exact Ht0.
    - destruct (db m0 !! projectID) as [p |] eqn:Hp.
      + pose proof (StartService_outcome _ _ _ _ _ _ _ Hp Hproc Hr) as Hs.
        destruct err as [msg |].
        * destruct Hs as [Hsame _]. intros j pj Hj. rewrite Hsame in Hj.
          exact (Ht0 _ _ Hj).
        * destruct Hs as (pid & t & Hpos & Hprocs & _).
          intros j pj Hj. rewrite Hprocs in Hj.
          apply lookup_insert_Some in Hj as [[<- <-] | [_ Hj]];
            [| exact (Ht0 _ _ Hj)].
          split; [reflexivity |]. exists pid. split; [reflexivity | exact Hpos].
      + unfold StartService in Hr. rewrite Hproc, Hp in Hr.
        injection Hr as <- <- <-. exact Ht0. }
  split; [apply Hstop; exact Ht |].
  split.
  { unfold ForceKillService. destruct (db m !! projectID) as [p |]; [| exact Ht].
    destruct (processes m !! projectID) eqn:Hproc; cbn [fst snd].
    - apply tracked_delete, Ht.
    - apply tracked_same, Ht. }
  split; [apply tracked_delete, Ht |].
  split.
  { unfold GetServiceStatus.
    destruct (projectID =? 0)%N; [exact Ht |].
    destruct (db m !! projectID) as [p |]; [| exact Ht].
    destruct (IsServiceRunning m h projectID); cbn [andb negb].
    - destruct (String.eqb (status p) StatusStopped
                || String.eqb (status p) StatusStarting);
        [apply tracked_same, Ht | exact Ht].
    - destruct (processes m !! projectID) as [pi0 |].
      + destruct (Exited h projectID || _); [apply tracked_delete, Ht | exact Ht].
      + destruct (String.eqb (status p) StatusRunning
                  || String.eqb (status p) StatusStarting);
          [apply tracked_same, Ht | exact Ht]. }
  split; [intros r Hr; exact (Hstart m h r Ht Hr) |].
  intros r Hr. unfold RestartService in Hr.
  destruct (processes m !! projectID) as [pi0 |]; [| exact (Hstart m h r Ht Hr)].
  pose proof (Hstop m h Ht) as Hst.
  destruct (StopService projectID m h) as [[[msg |] m1] h1]; cbn [fst snd] in Hst.
  - injection Hr as <-. exact Hst.
  - exact (Hstart m1 _ r Hst Hr).
Qed.


Lemma Updates_other (projectID j : N) (cols : list Column) (d : gmap N Project) :
  projectID <> j -> Updates projectID cols d !! j = d !! j.
Proof. intro Hne. rewrite Updates_lookup, decide_False by exact Hne. reflexivity. Qed.

Lemma StartService_other (projectID j : N) (m : Manager) (h : Host)
    (r : error * Manager * Host) :
  projectID <> j ->
  StartService projectID m h = Returned r ->
  db (snd (fst r)) !! j = db m !! j
  /\ processes (snd (fst r)) !! j = processes m !! j.
Proof.
  intros Hne Hr. unfold StartService in Hr.
  destruct (processes m !! projectID) as [pi0 |] eqn:Hproc.
  { injection Hr as <-. split; reflexivity. }
  destruct (db m !! projectID) as [p |] eqn:Hp.
  2:{ injection Hr as <-. split; reflexivity. }
  destruct (prepareCommand (command p) (args p) (type p)) as [cmd | msg];
    [| discriminate Hr].
  cbn [bindOutcome] in Hr.
  destruct (fst (PipesOK h)); cbn [negb] in Hr.
  2:{ injection Hr as <-. cbn [fst snd db processes]. unfold Update.
      rewrite Updates_other by exact Hne. split; reflexivity. }
  destruct (snd (PipesOK h)); cbn [negb] in Hr.
  2:{ injection Hr as <-. cbn [fst snd db processes]. unfold Update.
      rewrite Updates_other by exact Hne. split; reflexivity. }
  destruct (StartCmd _ h) as [[pid | msg] h1].
  - destruct (pid <=? 0); injection Hr as <-; cbn [fst snd db processes];
      unfold Update; rewrite !Updates_other by exact Hne.
    + rewrite lookup_delete_ne, lookup_insert_ne by exact Hne. split; reflexivity.
    + rewrite lookup_insert_ne by exact Hne. split; reflexivity.
  - injection Hr as <-. cbn [fst snd db processes]. unfold Update.
    rewrite !Updates_other by exact Hne.
    rewrite lookup_delete_ne, lookup_insert_ne by exact Hne. split; reflexivity.
Qed.

Lemma StopService_other (projectID j : N) (m : Manager) (h : Host) :
  projectID <> j ->
  db (snd (fst (StopService projectID m h))) !! j = db m !! j
  /\ processes (snd (fst (StopService projectID m h))) !! j = processes m !! j.
Proof.
  intro Hne. destruct (db m !! projectID) as [p |] eqn:Hp.
  - destruct (StopService_result projectID m h p Hp) as [h' ->].
    cbn [fst snd db processes].
    rewrite lookup_insert_ne, lookup_delete_ne by exact Hne. split; reflexivity.
  - unfold StopService. rewrite Hp. split; reflexivity.
Qed.

(** X6.  An operation on one service leaves the others alone: the rows
    and the handles of every other id are the same after ForceKill, the
    exit watcher, the status read, and Start and Restart when they
    return. *)
Theorem other_services_untouched :
  forall (projectID j : N) (m : Manager) (h : Host)
         (processInfo : ProcessInfo) (waitErr : error),
    projectID <> j ->
    let same (m' : Manager) :=
      db m' !! j = db m !! j /\ processes m' !! j = processes m !! j in
    same (snd (fst (ForceKillService projectID m h)))
    /\ (ProjectID processInfo = projectID ->
        same (monitorProcess processInfo waitErr m h))
    /\ same (snd (GetServiceStatus projectID m h))
    /\ (forall r, StartService projectID m h = Returned r -> same (snd (fst r)))
    /\ (forall r, RestartService projectID m h = Returned r -> same (snd (fst r))).
Proof.
  intros projectID j m h processInfo waitErr Hne same. subst same. cbv beta.
  split.
  { unfold ForceKillService. destruct (db m !! projectID) as [p |];
      [| split; reflexivity].
    destruct (processes m !! projectID); cbn [fst snd db processes];
      rewrite Updates_other by exact Hne.
    - rewrite lookup_delete_ne by exact Hne. split; reflexivity.
    - split; reflexivity. }
  split.
  { intro Heq. unfold monitorProcess. cbn [db processes]. rewrite Heq.
    rewrite Updates_other, lookup_delete_ne by exact Hne. split; reflexivity. }
  split.
  { unfold GetServiceStatus.
    destruct (projectID =? 0)%N; [split; reflexivity |].
    destruct (db m !! projectID) as [p |]; [| split; reflexivity].
    destruct (IsServiceRunning m h projectID); cbn [andb negb].
    - destruct (String.eqb (status p) StatusStopped
                || String.eqb (status p) StatusStarting); cbn [snd db processes];
        [rewrite Updates_other by exact Hne |]; split; reflexivity.
    - destruct (processes m !! projectID) as [pi0 |].
      + destruct (Exited h projectID || _); cbn [snd db processes];
          [rewrite Updates_other, lookup_delete_ne by exact Hne |]; split; reflexivity.
      + destruct (String.eqb (status p) StatusRunning
                  || String.eqb (status p) StatusStarting); cbn [snd db processes];
          [rewrite Updates_other by exact Hne |]; split; reflexivity. }
  split; [intros r Hr; exact (StartService_other _ _ _ _ _ Hne Hr) |].
  intros r Hr. unfold RestartService in Hr.
  destruct (processes m !! projectID) as [pi0 |];
    [| exact (StartService_other _ _ _ _ _ Hne Hr)].
  pose proof (StopService_other projectID j m h Hne) as [Hdb Hprocs].
  destruct (StopService projectID m h) as [[[msg |] m1] h1]; cbn [fst snd] in *.
  - injection Hr as <-. cbn [fst snd]. split; assumption.
  - destruct (StartService_other _ _ _ _ _ Hne Hr) as [Hdb' Hprocs'].
    split; congruence.
Qed.

Lemma StartService_not_already_running (projectID : N) (m m' : Manager) (h h' : Host)
    (msg : string) :
  processes m !! projectID = None ->
  StartService projectID m h = Returned (Some msg, m', h') ->
  msg <> "service is already running".
Proof.
  intros Hproc Hr. unfold StartService in Hr. rewrite Hproc in Hr.
  destruct (db m !! projectID) as [p |].
  2:{ injection Hr as <- _ _. discriminate. }
  destruct (prepareCommand (command p) (args p) (type p)) as [cmd | ?];
    [| discriminate Hr].
  cbn [bindOutcome] in Hr.
  destruct (fst (PipesOK h)); cbn [negb] in Hr.
  2:{ injection Hr as <- _ _. discriminate. }
  destruct (snd (PipesOK h)); cbn [negb] in Hr.
  2:{ injection Hr as <- _ _. discriminate. }
  destruct (StartCmd _ h) as [[pid | err] h1].
  - destruct (pid <=? 0); [| discriminate Hr].
    injection Hr as <- _ _. discriminate.
  - injection Hr as <- _ _. rewrite append_cons. discriminate.
Qed.

(** X7.  Restart of a project in the catalog is Start on a state without
    handle for it: the state as it is when no handle is tracked, else
    the state that Stop leaves, two seconds later.  Stop cannot fail
    there, so Restart never answers [failed to stop service], and it
    never answers [already running]. *)
Theorem Restart_is_Start_after_Stop :
  forall (projectID : N) (m : Manager) (h : Host) (p : Project),
    db m !! projectID = Some p ->
    exists (m1 : Manager) (h1 : Host),
      RestartService projectID m h = StartService projectID m1 h1
      /\ processes m1 !! projectID = None
      /\ (match processes m !! projectID with
          | None => m1 = m /\ h1 = h
          | Some _ =>
              exists h0, StopService projectID m h = (None, m1, h0)
                         /\ h1 = Sleep 2000 h0
          end)
      /\ (forall msg m' h',
            RestartService projectID m h = Returned (Some msg, m', h') ->
            msg <> "service is already running").
Proof.
  intros projectID m h p Hp. unfold RestartService.
  destruct (processes m !! projectID) as [pi0 |] eqn:Hproc.
  - destruct (StopService_result projectID m h p Hp) as [h0 Hstop].
    rewrite Hstop. eexists _, (Sleep 2000 h0).
    split; [reflexivity |]. cbn [processes].
    split; [apply lookup_delete_eq |].
    split; [exists h0; split; reflexivity |].
    intros msg m' h' Hr.
    apply (StartService_not_already_running _ _ _ _ _ _ (lookup_delete_eq _ _) Hr).
  - exists m, h. split; [reflexivity |]. split; [exact Hproc |].
    split; [split; reflexivity |].
    intros msg m' h' Hr.
    exact (StartService_not_already_running _ _ _ _ _ _ Hproc Hr).
Qed.

(** *** Reconciliation *)

Lemma IsServiceRunning_settled (m : Manager) (h : Host) (projectID : N) (p : Project) :
  processes m !! projectID = None ->
  db m !! projectID = Some p ->
  p_id p = 0 ->
  IsServiceRunning m h projectID = (0 <? port p) && isPortInUse h (port p).
Proof.
  intros Hproc Hp Hpid. unfold IsServiceRunning. rewrite Hproc, Hp, Hpid.
  destruct ((0 <? port p) && isPortInUse h (port p)); reflexivity.
Qed.

(** X8.  Once Stop, ForceKill or the exit watcher has run for a project
    in the catalog, only the port rule can make the service live: at any
    later state of the host, IsServiceRunning answers true exactly when
    the declared port is positive and in use. *)
Theorem after_stop_only_the_port_counts :
  forall (projectID : N) (m : Manager) (h later : Host) (p : Project)
         (processInfo : ProcessInfo) (waitErr : error),
    db m !! projectID = Some p ->
    let portRule := (0 <? port p) && isPortInUse later (port p) in
    IsServiceRunning (snd (fst (StopService projectID m h))) later projectID = portRule
    /\ IsServiceRunning (snd (fst (ForceKillService projectID m h))) later projectID
       = portRule
    /\ (ProjectID processInfo = projectID ->
        IsServiceRunning (monitorProcess processInfo waitErr m h) later projectID
        = portRule).
Proof.
  intros projectID m h later p processInfo waitErr Hp portRule. subst portRule.
  split; [| split].
  - destruct (StopService_result projectID m h p Hp) as [h' ->]. cbn [fst snd].
    rewrite (IsServiceRunning_settled _ later projectID
               (stoppedRow p (Now h') (last_error p))); cbn [processes db];
      [reflexivity | apply lookup_delete_eq | apply lookup_insert_eq | reflexivity].
  - unfold ForceKillService. rewrite Hp.
    set (h1 := if 0 <? p_id p then killByPID (p_id p) 500 h else h).
    assert (Hrow : forall t d,
      d !! projectID = Some p ->
      Updates projectID
        [col_status StatusStopped; col_stop_time t; col_p_id 0;
         col_last_error "Force killed"] d !! projectID
      = Some (stoppedRow p t "Force killed")).
    { intros t d Hd. rewrite Updates_lookup, decide_True by reflexivity.
      rewrite Hd. reflexivity. }
    destruct (processes m !! projectID) as [pi0 |] eqn:Hproc; cbn [fst snd].
    + rewrite (IsServiceRunning_settled _ later projectID
                 (stoppedRow p (Now (CtxCancel projectID h1)) "Force killed"));
        cbn [processes db];
        [reflexivity | apply lookup_delete_eq | apply Hrow; exact Hp | reflexivity].
    + rewrite (IsServiceRunning_settled _ later projectID
                 (stoppedRow p (Now h1) "Force killed"));
        cbn [processes db];
        [reflexivity | exact Hproc | apply Hrow; exact Hp | reflexivity].
  - intro Heq. unfold monitorProcess. rewrite Heq.
    set (status_ := match waitErr with Some _ => StatusError | None => StatusStopped end).
    set (lastError := match waitErr with Some err => err | None => "" end).
    rewrite (IsServiceRunning_settled _ later projectID
               (mkProject (name p) (type p) (path p) (command p) (args p)
                  (working_dir p) (port p) (environment p) (env_file p) (env_vars p)
                  status_ 0 (start_time p) (Some (Now h)) lastError (logs p)));
      cbn [processes db port p_id];
      [reflexivity | apply lookup_delete_eq | | reflexivity].
    rewrite Updates_lookup, decide_True by reflexivity. rewrite Hp. reflexivity.
Qed.

Lemma IsServiceRunning_false_handle (m : Manager) (h : Host) (projectID : N)
    (processInfo : ProcessInfo) (pid : Z) :
  IsServiceRunning m h projectID = false ->
  processes m !! projectID = Some processInfo ->
  Process processInfo = Some pid ->
  ChildSignal0 h pid = false.
Proof.
  intros Hrun Hproc Hpid. unfold IsServiceRunning in Hrun.
  rewrite Hproc, Hpid in Hrun.
  destruct (ChildSignal0 h pid); [discriminate Hrun | reflexivity].
Qed.

(** X9.  The status read of a project in the catalog (id not 0, handles
    well formed) returns no error and returns the row as the catalog has
    it afterwards.  If the service is live, the handle map is untouched
    and the row is not left [stopped] or [starting]; if it is not live,
    no handle is left for it and the row is not left [running] or
    [starting], and a row that was corrected has PID 0. *)
Theorem status_read_reconciles :
  forall (projectID : N) (m : Manager) (h : Host) (p : Project),
    db m !! projectID = Some p ->
    projectID <> 0%N ->
    tracked m ->
    exists (m' : Manager) (q : Project),
      GetServiceStatus projectID m h = ((Some q, None), m')
      /\ db m' !! projectID = Some q
      /\ (if IsServiceRunning m h projectID
          then processes m' = processes m
               /\ status q <> "stopped" /\ status q <> "starting"
          else processes m' !! projectID = None
               /\ status q <> "running" /\ status q <> "starting"
               /\ (q = p \/ (status q = "stopped" /\ p_id q = 0))).
Proof.
  intros projectID m h p Hp Hid Ht. unfold GetServiceStatus.
  rewrite (proj2 (N.eqb_neq projectID 0) Hid), Hp.
  assert (Hupd : forall cols,
    Updates projectID cols (db m) !! projectID = Some (fold_left setColumn cols p)).
  { intro cols. rewrite Updates_lookup, decide_True by reflexivity.
    rewrite Hp. reflexivity. }
  destruct (IsServiceRunning m h projectID) eqn:Hrun; cbn [andb negb].
  - destruct (String.eqb_spec (status p) StatusStopped) as [Hs1 | Hs1]; cbn [orb].
    + eexists _, _. split; [reflexivity |]. cbn [db processes].
      split; [apply Hupd |]. repeat split; discriminate.
    + destruct (String.eqb_spec (status p) StatusStarting) as [Hs2 | Hs2].
      * eexists _, _. split; [reflexivity |]. cbn [db processes].
        split; [apply Hupd |]. repeat split; discriminate.
      * exists m, p. split; [reflexivity |]. split; [exact Hp |].
        repeat split; assumption.
  - destruct (processes m !! projectID) as [pi0 |] eqn:Hproc.
    + destruct (Ht _ _ Hproc) as (_ & pid & Hpid & _). rewrite Hpid.
      rewrite (IsServiceRunning_false_handle _ _ _ _ _ Hrun Hproc Hpid).
      rewrite orb_true_r.
      eexists _, _. split; [reflexivity |]. cbn [db processes].
      split; [apply Hupd |].
      split; [apply lookup_delete_eq |].
      split; [discriminate |]. split; [discriminate |].
      right. split; reflexivity.
    + destruct (String.eqb_spec (status p) StatusRunning) as [Hs1 | Hs1]; cbn [orb].
      * eexists _, _. split; [reflexivity |]. cbn [db processes].
        split; [apply Hupd |]. split; [exact Hproc |].
        split; [discriminate |]. split; [discriminate |].
        right. split; reflexivity.
      * destruct (String.eqb_spec (status p) StatusStarting) as [Hs2 | Hs2].
        -- eexists _, _. split; [reflexivity |]. cbn [db processes].
           split; [apply Hupd |]. split; [exact Hproc |].
           split; [discriminate |]. split; [discriminate |].
           right. split; reflexivity.
        -- exists m, p. split; [reflexivity |]. split; [exact Hp |].
           split; [exact Hproc |]. split; [exact Hs1 |]. split; [exact Hs2 |].
           left. reflexivity.
Qed.

(** X10.  The live channel is handed out only for a service that the
    liveness check accepts: when GetServiceLogs returns a channel, it is
    the channel of the tracked handle and IsServiceRunning answers true
    on the same host state; without a handle it returns nothing, even
    if the port rule makes the service live. *)
Theorem live_logs_only_for_live_handle :
  forall (m : Manager) (h : Host) (projectID : N),
    match GetServiceLogs m h projectID with
    | Some ch =>
        IsServiceRunning m h projectID = true
        /\ (Logs <$> processes m !! projectID) = Some ch
    | None => ~ handleLive m h projectID
    end.
Proof.
  intros m h projectID. unfold GetServiceLogs, IsServiceRunning, handleLive.
  destruct (processes m !! projectID) as [processInfo |].
  - destruct (Process processInfo) as [pid |] eqn:Hpid.
    + destruct (ChildSignal0 h pid) eqn:Hsig.
      * split; reflexivity.
      * intros (pi0 & pid0 & [= <-] & Hp0 & Hs0). congruence.
    + intros (pi0 & pid0 & [= <-] & Hp0 & _). congruence.
  - intros (pi0 & pid0 & Hq & _). discriminate.
Qed.

(** *** The capture loop as a whole *)

Lemma handle_capture_loop (isStderr : bool) (lines : list (string * Z)) :
  forall st : Capture,
    handle (fold_left (fun st lt => captureLine isStderr st (fst lt) (snd lt)) lines st)
    = fold_left logTo (logLines isStderr lines) (handle st).
Proof.
  induction lines as [| [line t] lines IH]; intro st; [reflexivity |].
  cbn [fold_left logLines omap list_omap fst snd]. rewrite IH.
  destruct (isEmpty (stripANSI line)) eqn:Hempty.
  - rewrite (captureLine_empty _ _ _ _ Hempty). reflexivity.
  - cbn [fold_left]. rewrite (captureLine_handle isStderr st line t Hempty).
    reflexivity.
Qed.

Lemma LogBuffer_fold_logTo (ls : list string) :
  forall p, LogBuffer (fold_left logTo ls p) = fold_left appendLogBuffer ls (LogBuffer p).
Proof.
  induction ls as [| l ls IH]; intro p; [reflexivity |].
  cbn [fold_left]. rewrite IH. reflexivity.
Qed.

Lemma Logs_fold_logTo (ls : list string) :
  forall p,
    Logs (fold_left logTo ls p)
    = fold_left (fun ch l => fst (safeSendLog ch l)) ls (Logs p).
Proof.
  induction ls as [| l ls IH]; intro p; [reflexivity |].
  cbn [fold_left]. rewrite IH. reflexivity.
Qed.

Lemma ProjectID_fold_logTo (ls : list string) :
  forall p, ProjectID (fold_left logTo ls p) = ProjectID p.
Proof.
  induction ls as [| l ls IH]; intro p; [reflexivity |].
  cbn [fold_left]. rewrite IH. reflexivity.
Qed.

(** Sends on a closed channel change nothing. *)
Lemma sends_closed (ls : list string) :
  forall ch, chClosed ch = true ->
    fold_left (fun ch l => fst (safeSendLog ch l)) ls ch = ch.
Proof.
  induction ls as [| l ls IH]; intros ch Hc; [reflexivity |].
  cbn [fold_left]. unfold safeSendLog at 2. rewrite Hc. cbn [fst]. apply IH, Hc.
Qed.

(** Sends on an open channel fill its buffer up to the capacity and are
    dropped from then on. *)
Lemma sends_open (ls : list string) :
  forall ch, chClosed ch = false ->
    (length (chBuf ch) <= chCap ch)%nat ->
    fold_left (fun ch l => fst (safeSendLog ch l)) ls ch
    = mkChan (take (chCap ch) (chBuf ch ++ ls)) (chCap ch) false.
Proof.
  induction ls as [| l ls IH]; intros [buf cap cl] Hc Hlen; cbn [chBuf chCap chClosed] in *.
  - subst cl. cbn [fold_left]. rewrite app_nil_r, take_ge by exact Hlen. reflexivity.
  - subst cl. cbn [fold_left]. unfold safeSendLog at 2. cbn [chBuf chCap chClosed].
    destruct (Nat.ltb_spec (length buf) cap) as [Hlt | Hge]; cbn [fst].
    + rewrite IH; cbn [chBuf chCap chClosed];
        [| reflexivity | rewrite length_app; cbn [length]; lia].
      rewrite <- app_assoc. reflexivity.
    + rewrite IH; cbn [chBuf chCap chClosed]; [| reflexivity | exact Hlen].
      f_equal. rewrite !take_app_le by lia. reflexivity.
Qed.

(** X11.  A whole run of the capturer over the lines of a pipe, from a
    handle whose ring holds at most 1000 lines and whose channel holds
    at most its capacity: the ring ends as the old ring followed by the
    logged lines (stripped, empty ones left out, stderr ones marked),
    cut to its last 1000 lines, so the newest lines survive; an open
    channel ends as its old content followed by the logged lines, cut to
    its first [capacity] messages, so once it is full the newest lines
    are the ones dropped; a closed channel is left as it was. *)
Theorem capture_run_keeps_newest_in_ring_oldest_in_channel :
  forall (isStderr : bool) (st : Capture) (lines : list (string * Z)),
    (length (LogBuffer (handle st)) <= 1000)%nat ->
    (length (chBuf (Logs (handle st))) <= chCap (Logs (handle st)))%nat ->
    let st' := captureOutputWithBuffer isStderr st lines None in
    let logged := logLines isStderr lines in
    let ring := LogBuffer (handle st) ++ logged in
    let ch := Logs (handle st) in
    LogBuffer (handle st') = drop (length ring - 1000) ring
    /\ chBuf (Logs (handle st'))
       = (if chClosed ch then chBuf ch else take (chCap ch) (chBuf ch ++ logged))
    /\ chClosed (Logs (handle st')) = chClosed ch
    /\ chCap (Logs (handle st')) = chCap ch
    /\ (length (chBuf (Logs (handle st'))) <= chCap ch)%nat.
Proof.
  intros isStderr st lines Hring Hchan st' logged ring ch.
  subst st'. rewrite captureOutputWithBuffer_unfold. cbn [afterScan fold_left].
  rewrite handle_capture_loop.
  fold logged. rewrite LogBuffer_fold_logTo, Logs_fold_logTo. fold ch.
  split.
  { pose proof (fold_appendLogBuffer logged (LogBuffer (handle st))) as H.
    change maxBufferSize with 1000%nat in H.
    replace (length (LogBuffer (handle st)) - 1000)%nat with 0%nat in H by lia.
    rewrite drop_0 in H. exact H. }
  destruct (chClosed ch) eqn:Hc.
  - rewrite (sends_closed _ _ Hc). fold ch in Hchan. repeat split; assumption.
  - rewrite (sends_open _ _ Hc Hchan). cbn [chBuf chCap chClosed].
    repeat split. rewrite length_take. lia.
Qed.

Lemma saveLogsToDatabase_frame (projectID j : N) (ls : list string)
    (d : gmap N Project) :
  withoutLogs <$> saveLogsToDatabase projectID ls d !! j = withoutLogs <$> d !! j
  /\ (projectID <> j -> saveLogsToDatabase projectID ls d !! j = d !! j).
Proof.
  unfold saveLogsToDatabase, Update.
  destruct (length ls =? 0)%nat; [split; reflexivity |].
  rewrite Updates_lookup.
  destruct (decide (projectID = j)) as [-> | Hne].
  - split; [| intros Hn; contradiction]. destruct (d !! j); reflexivity.
  - split; reflexivity.
Qed.

Lemma captureLine_ProjectID (isStderr : bool) (st : Capture) (line : string) (t : Z) :
  ProjectID (handle (captureLine isStderr st line t)) = ProjectID (handle st).
Proof.
  destruct (isEmpty (stripANSI line)) eqn:Hempty.
  - rewrite (captureLine_empty _ _ _ _ Hempty). reflexivity.
  - rewrite (captureLine_handle isStderr st line t Hempty). reflexivity.
Qed.

Lemma captureLine_catalog (isStderr : bool) (st : Capture) (line : string) (t : Z)
    (j : N) :
  withoutLogs <$> catalog (captureLine isStderr st line t) !! j
  = withoutLogs <$> catalog st !! j
  /\ (ProjectID (handle st) <> j ->
      catalog (captureLine isStderr st line t) !! j = catalog st !! j).
Proof.
  rewrite captureLine_unfold. cbv zeta.
  destruct (isEmpty (stripANSI line)); [split; reflexivity |].
  destruct (2000 <? t - lastSaveTime st); cbn [catalog]; [| split; reflexivity].
  apply saveLogsToDatabase_frame.
Qed.

(** X12.  Log capture writes nothing to the catalog but the [logs]
    column of its own project: after a whole run, with or without a
    scanner error, every row has all its other columns as before
    (status, PID, times and last error among them), the rows of other
    projects are the same, and no row appears or disappears. *)
Theorem capture_run_touches_only_own_logs :
  forall (isStderr : bool) (st : Capture) (lines : list (string * Z))
         (scanErr : option string) (j : N),
    let st' := captureOutputWithBuffer isStderr st lines scanErr in
    withoutLogs <$> catalog st' !! j = withoutLogs <$> catalog st !! j
    /\ (if decide (ProjectID (handle st) = j) then True
        else catalog st' !! j = catalog st !! j)
    /\ ProjectID (handle st') = ProjectID (handle st).
Proof.
  intros isStderr st lines scanErr j st'. subst st'.
  assert (Hloop : forall st0,
    let st1 := fold_left (fun st lt => captureLine isStderr st (fst lt) (snd lt))
                 lines st0 in
    withoutLogs <$> catalog st1 !! j = withoutLogs <$> catalog st0 !! j
    /\ (ProjectID (handle st0) <> j -> catalog st1 !! j = catalog st0 !! j)
    /\ ProjectID (handle st1) = ProjectID (handle st0)).
  { induction lines as [| [line t] lines IH]; intro st0; cbv zeta.
    - repeat split.
    - cbn [fold_left fst snd].
      destruct (IH (captureLine isStderr st0 line t)) as (H1 & H2 & H3).
      destruct (captureLine_catalog isStderr st0 line t j) as [H4 H5].
      rewrite captureLine_ProjectID in H2, H3.
      split; [congruence |]. split; [| exact H3].
      intro Hne. rewrite (H2 Hne). exact (H5 Hne). }
  destruct (Hloop st) as (H1 & H2 & H3). rewrite captureOutputWithBuffer_unfold.
  set (st1 := fold_left (fun st lt => captureLine isStderr st (fst lt) (snd lt))
                lines st) in *.
  destruct scanErr as [err |]; cbn [afterScan fold_left].
  - cbn [exec catalog handle lastSaveTime withLogs addToLogBuffer ProjectID].
    match goal with
    | |- context [saveLogsToDatabase ?a ?b ?c] =>
        destruct (saveLogsToDatabase_frame a j b c) as [H4 H5];
        assert (Ha : a = ProjectID (handle st)) by exact H3
    end.
    split; [congruence |]. split; [| exact H3].
    destruct (decide (ProjectID (handle st) = j)) as [| Hne]; [exact I |].
    rewrite H5 by (rewrite Ha; exact Hne). exact (H2 Hne).
  - split; [exact H1 |]. split; [| exact H3].
    destruct (decide (ProjectID (handle st) = j)) as [| Hne]; [exact I | exact (H2 Hne)].
Qed.

(** *** The child command, for every command string *)

Lemma fieldsGo_nil (s : string) :
  forall skip cur, fieldsGo skip cur s = [] -> cur = "" /\ allSpaceGo skip s = true.
Proof.
  induction s as [| c s IH]; intros skip cur H.
  - cbn [fieldsGo allSpaceGo] in *. unfold flushField in H.
    destruct cur; [split; reflexivity | discriminate H].
  - cbn [fieldsGo allSpaceGo] in *. destruct skip as [| k]; [| exact (IH _ _ H)].
    destruct (spaceLen (String c s)) as [| n].
    + apply IH in H as [Hcur _]. destruct cur; discriminate Hcur.
    + apply app_eq_nil in H as [Hflush Hrest].
      apply IH in Hrest as [_ Hsp]. split; [| exact Hsp].
      unfold flushField in Hflush. destruct cur; [reflexivity | discriminate Hflush].
Qed.

Lemma fieldsGo_nonempty (s : string) :
  forall skip cur, Forall (fun f => isEmpty f = false) (fieldsGo skip cur s).
Proof.
  assert (Hflush : forall cur, Forall (fun f => isEmpty f = false) (flushField cur)).
  { intro cur. unfold flushField. destruct (isEmpty cur) eqn:He; [constructor |].
    constructor; [exact He | constructor]. }
  induction s as [| c s IH]; intros skip cur; cbn [fieldsGo]; [apply Hflush |].
  destruct skip as [| k]; [| apply IH].
  destruct (spaceLen (String c s)); [apply IH |].
  apply Forall_app. split; [apply Hflush | apply IH].
Qed.

Lemma Fields_empty_string : Fields "" = [].
Proof. reflexivity. Qed.

(** X13.  For every non-empty command string, prepareCommand panics
    exactly when the string is white space only; otherwise it returns
    the invocation whose argument vector is the fields of the command
    followed by the fields of the arguments string, with no working
    directory or environment set yet, and no argument of it is empty. *)
Theorem prepareCommand_argv :
  forall (Command Args_ Type_ : string),
    isEmpty Command = false ->
    if allSpace Command
    then prepareCommand Command Args_ Type_ = Panicked "index out of range"
    else prepareCommand Command Args_ Type_
         = Returned (mkCmd (Fields Command ++ Fields Args_) "" [])
         /\ Fields Command <> []
         /\ Forall (fun arg => isEmpty arg = false) (Fields Command ++ Fields Args_).
Proof.
  intros Command Args_ Type_ Hne.
  destruct (allSpace Command) eqn:Hsp;
    [apply prepareCommand_allSpace_panics; assumption |].
  assert (Hfields : Fields Command <> []).
  { intro Hnil. apply fieldsGo_nil in Hnil as [_ Hall].
    unfold allSpace in Hsp. congruence. }
  split; [| split; [exact Hfields |]].
  - unfold prepareCommand. rewrite Hne. cbn [negb].
    destruct (Fields Command) as [| name_ rest] eqn:Hf; [contradiction |].
    assert (Hcmd : (if (1 <? length (name_ :: rest))%nat
                    then (name0 <- indexSlice (name_ :: rest) 0 ;;
                          Returned (CommandContext name0 (drop 1 (name_ :: rest))))
                    else (name0 <- indexSlice (name_ :: rest) 0 ;;
                          Returned (CommandContext name0 [])))
                   = Returned (mkCmd (name_ :: rest) "" [])).
    { destruct rest as [| r rest]; reflexivity. }
    rewrite Hcmd. cbn [bindOutcome Args Dir Env].
    destruct Args_ as [| a Args_]; cbn [isEmpty negb].
    + rewrite Fields_empty_string, app_nil_r. reflexivity.
    + reflexivity.
  - apply Forall_app. split; apply fieldsGo_nonempty.
Qed.

(** *** Ports printed and read back *)

Lemma digit_code (m : N) :
  (m < 10)%N -> code (ascii_of_N (48 + m)) = (48 + m)%N.
Proof. intro H. unfold code. apply N_ascii_embedding. lia. Qed.

Lemma digitsValue_append (x y : string) :
  forall acc, digitsValue acc (x +:+ y) = digitsValue (digitsValue acc x) y.
Proof.
  induction x as [| d x IH]; intro acc; [reflexivity |].
  rewrite append_cons. cbn [digitsValue]. apply IH.
Qed.

Lemma allDigits_append (x y : string) :
  allDigits (x +:+ y) = allDigits x && allDigits y.
Proof.
  induction x as [| d x IH]; [reflexivity |].
  rewrite append_cons. cbn [allDigits]. rewrite IH. apply andb_assoc.
Qed.

Lemma digit_facts (m : N) :
  (m < 10)%N ->
  isDigit (ascii_of_N (48 + m)) = true
  /\ digitVal (ascii_of_N (48 + m)) = Z.of_N m.
Proof.
  intro Hm. unfold isDigit, digitVal. rewrite (digit_code _ Hm). split; [| lia].
  apply andb_true_iff. split; apply N.leb_le; lia.
Qed.

Lemma natDigits_spec (fuel : nat) :
  forall (n : N) (acc : string),
    (N.to_nat (N.log2 n) < fuel)%nat ->
    exists ds,
      natDigits fuel n acc = ds +:+ acc /\ isEmpty ds = false
      /\ allDigits ds = true /\ digitsValue 0 ds = Z.of_N n.
Proof.
  induction fuel as [| f IH]; intros n acc Hfuel; [lia |].
  cbn [natDigits].
  pose proof (N.div_mod n 10 ltac:(discriminate)) as Hdm.
  assert (Hm : (n mod 10 < 10)%N) by (apply N.mod_lt; discriminate).
  assert (Hlog : (n / 10)%N <> 0%N -> (N.to_nat (N.log2 (n / 10)) < f)%nat).
  { intro Hq.
    assert (Hpos : (0 < n / 10)%N) by (apply N.neq_0_lt_0; exact Hq).
    assert (Hn : (0 < n)%N).
    { destruct (N.eq_dec n 0%N) as [-> |]; [contradiction Hq; reflexivity |].
      apply N.neq_0_lt_0. assumption. }
    assert (Hlt : (n / 10 < 2 ^ N.log2 n)%N).
    { destruct (N.log2_spec n Hn) as [_ Hup].
      rewrite N.pow_succ_r' in Hup.
      apply N.Div0.div_lt_upper_bound.
      generalize dependent (2 ^ N.log2 n)%N. clear. intros. lia. }
    apply (N.log2_lt_pow2 _ _ Hpos) in Hlt.
    generalize dependent (N.log2 (n / 10)). generalize dependent (N.log2 n).
    clear. intros. lia. }
  revert Hdm Hm Hlog.
  generalize (n mod 10)%N as m. generalize (n / 10)%N as q.
  intros q m Hdm Hm Hlog.
  destruct (digit_facts m Hm) as [Hdigit Hval].
  destruct (N.eqb_spec q 0%N) as [Hq | Hq].
  - exists (String (ascii_of_N (48 + m)) "").
    split; [reflexivity |]. split; [reflexivity |].
    split; [cbn [allDigits]; rewrite Hdigit; reflexivity |].
    cbn [digitsValue]. rewrite Hval. lia.
  - destruct (IH q (String (ascii_of_N (48 + m)) acc) (Hlog Hq))
      as (ds & Heq & Hne & Hall & Hv).
    exists (ds +:+ String (ascii_of_N (48 + m)) "").
    rewrite Heq, append_assoc, append_cons, append_nil.
    split; [reflexivity |].
    split; [destruct ds; [discriminate Hne | reflexivity] |].
    split.
    + rewrite allDigits_append, Hall. cbn [allDigits andb]. rewrite Hdigit. reflexivity.
    + rewrite digitsValue_append, Hv. cbn [digitsValue]. rewrite Hval. lia.
Qed.

(** The decimal text of a number that is not negative. *)
Lemma Itoa_digits (n : Z) :
  0 <= n ->
  isEmpty (Itoa n) = false /\ allDigits (Itoa n) = true
  /\ digitsValue 0 (Itoa n) = n.
Proof.
  intro Hn. unfold Itoa.
  destruct (Z.ltb_spec n 0) as [Hneg | _]; [lia |].
  destruct (natDigits_spec (S (N.to_nat (N.log2 (Z.abs_N n)))) (Z.abs_N n) ""
              ltac:(lia)) as (ds & Heq & Hne & Hall & Hv).
  assert (Hds : ds +:+ "" = ds).
  { clear. induction ds as [| d ds IH]; [reflexivity |].
    rewrite append_cons, IH. reflexivity. }
  rewrite Heq, Hds. split; [exact Hne |]. split; [exact Hall |].
  rewrite Hv. lia.
Qed.

Lemma Atoi_digits (ds : string) :
  isEmpty ds = false -> allDigits ds = true -> digitsValue 0 ds <= maxInt ->
  0 <= digitsValue 0 ds ->
  Atoi ds = Some (digitsValue 0 ds).
Proof.
  intros Hne Hall Hmax Hmin. unfold Atoi.
  destruct ds as [| d ds]; [discriminate Hne |].
  assert (Hd : isDigit d = true).
  { cbn [allDigits] in Hall. apply andb_true_iff in Hall as [Hd _]. exact Hd. }
  destruct (Ascii.eqb_spec d "-") as [-> |]; [discriminate Hd |].
  destruct (Ascii.eqb_spec d "+") as [-> |]; [discriminate Hd |].
  rewrite Hall. cbn [isEmpty negb orb].
  assert (Hlo : (minInt <=? digitsValue 0 (String d ds)) = true).
  { apply Z.leb_le. unfold minInt. lia. }
  assert (Hhi : (digitsValue 0 (String d ds) <=? maxInt) = true)
    by (apply Z.leb_le; exact Hmax).
  rewrite Hlo, Hhi. reflexivity.
Qed.

Lemma Atoi_Itoa (n : Z) : 0 <= n <= maxInt -> Atoi (Itoa n) = Some n.
Proof.
  intros [Hlo Hhi]. destruct (Itoa_digits n Hlo) as (Hne & Hall & Hv).
  rewrite (Atoi_digits _ Hne Hall); rewrite Hv; [reflexivity | lia | lia].
Qed.

Lemma allDigits_hasByte (c : ascii) (s : string) :
  isDigit c = false -> allDigits s = true -> hasByte s c = false.
Proof.
  intro Hc. induction s as [| d s IH]; intro H; [reflexivity |].
  cbn [allDigits] in H. apply andb_true_iff in H as [Hd Hs].
  unfold hasByte in *. cbn [inCutset]. rewrite (IH Hs), orb_false_r.
  destruct (Ascii.eqb_spec c d) as [<- |]; [congruence | reflexivity].
Qed.

Lemma spaceLen_digit (d : ascii) (s : string) :
  isDigit d = true -> spaceLen (String d s) = O.
Proof.
  intro H.
  destruct d as [[] [] [] [] [] [] [] []];
    first [discriminate H | reflexivity].
Qed.

Lemma trimRight_digits_space (ds : string) :
  allDigits ds = true -> trimRight (ds +:+ " ") = ds /\ trimRight ds = ds.
Proof.
  induction ds as [| d ds IH]; intro H; [split; reflexivity |].
  cbn [allDigits] in H. apply andb_true_iff in H as [Hd Hs].
  destruct (IH Hs) as [IH1 IH2].
  rewrite append_cons. cbn [trimRight]. unfold allSpace. cbn [allSpaceGo].
  rewrite !(spaceLen_digit _ _ Hd), IH1, IH2. split; reflexivity.
Qed.

Lemma TrimSpace_digits (ds : string) :
  allDigits ds = true -> TrimSpace (ds +:+ " ") = ds /\ TrimSpace ds = ds.
Proof.
  intro H. unfold TrimSpace.
  destruct ds as [| d ds]; [split; reflexivity |].
  assert (Hd : isDigit d = true).
  { cbn [allDigits] in H. apply andb_true_iff in H as [Hd _]. exact Hd. }
  rewrite append_cons. cbn [trimLeftGo]. rewrite !(spaceLen_digit _ _ Hd).
  rewrite <- append_cons. apply trimRight_digits_space; exact H.
Qed.

Lemma trimLeftCut_append (cutset a b : string) (c : ascii) :
  inCutset c cutset = false ->
  trimLeftCut cutset (a +:+ String c b) = trimLeftCut cutset a +:+ String c b.
Proof.
  intro Hc. induction a as [| d a IH].
  - rewrite append_nil. cbn [trimLeftCut]. rewrite Hc. reflexivity.
  - rewrite append_cons. cbn [trimLeftCut].
    destruct (inCutset d cutset); [exact IH | reflexivity].
Qed.

Lemma allInCutset_append (cutset a b : string) :
  allInCutset cutset (a +:+ b) = allInCutset cutset a && allInCutset cutset b.
Proof.
  induction a as [| d a IH]; [reflexivity |].
  rewrite append_cons. cbn [allInCutset]. rewrite IH. apply andb_assoc.
Qed.

Lemma trimRightCut_append (cutset a b : string) :
  allInCutset cutset b = false ->
  trimRightCut cutset (a +:+ b) = a +:+ trimRightCut cutset b.
Proof.
  intro Hb. induction a as [| d a IH]; [reflexivity |].
  rewrite !append_cons. cbn [trimRightCut].
  rewrite <- append_cons, allInCutset_append, Hb, andb_false_r, IH. reflexivity.
Qed.

Lemma trimRightCut_brackets (b : string) :
  hasByte b "[" = false -> hasByte b "]" = false ->
  trimRightCut "[]" b = b /\ (isEmpty b = false -> allInCutset "[]" b = false).
Proof.
  unfold hasByte.
  induction b as [| d b IH]; intros H1 H2; [split; [reflexivity | discriminate] |].
  cbn [inCutset] in H1, H2.
  apply orb_false_iff in H1 as [Hd1 Hb1]. apply orb_false_iff in H2 as [Hd2 Hb2].
  destruct (IH Hb1 Hb2) as [IH1 _].
  assert (Hd : inCutset d "[]" = false).
  { cbn [inCutset]. rewrite (Ascii.eqb_sym d "["), (Ascii.eqb_sym d "]"), Hd1, Hd2.
    reflexivity. }
  assert (Hall : allInCutset "[]" (String d b) = false)
    by (cbn [allInCutset]; rewrite Hd; reflexivity).
  split; [| intros _; exact Hall].
  cbn [trimRightCut]. rewrite Hall, IH1. reflexivity.
Qed.

(** What [strings.Trim(name, "[]")] leaves of an address that ends in a
    colon and text without brackets. *)
Lemma Trim_brackets_address (host text : string) :
  hasByte text "[" = false -> hasByte text "]" = false ->
  Trim (host +:+ String ":" text) "[]"
  = trimLeftCut "[]" host +:+ String ":" text.
Proof.
  intros H1 H2. unfold Trim.
  rewrite trimLeftCut_append by reflexivity.
  assert (Hb1 : hasByte (String ":" text) "[" = false)
    by (unfold hasByte in *; cbn [inCutset]; rewrite H1; reflexivity).
  assert (Hb2 : hasByte (String ":" text) "]" = false)
    by (unfold hasByte in *; cbn [inCutset]; rewrite H2; reflexivity).
  destruct (trimRightCut_brackets _ Hb1 Hb2) as [Hkeep Hall].
  rewrite trimRightCut_append by (apply Hall; reflexivity).
  rewrite Hkeep. reflexivity.
Qed.

(** X14.  A port printed in decimal after the last colon of an address
    is read back by both parsers, whatever the text before the colon:
    from a netstat or ss address, from an lsof name, and from an lsof
    name followed by a state such as (LISTEN).  The parsers answer the
    port itself when it lies in 1..65535 and 0 otherwise. *)
Theorem port_text_round_trip :
  forall (host : string) (p : Z),
    0 <= p <= maxInt ->
    let answer := if (1 <=? p) && (p <=? 65535) then p else 0 in
    extractPortFromAddr (host +:+ ":" +:+ Itoa p) = answer
    /\ extractPortFromLsofName (host +:+ ":" +:+ Itoa p) = answer
    /\ extractPortFromLsofName (host +:+ ":" +:+ Itoa p +:+ " (LISTEN)") = answer.
Proof.
  intros host p Hp answer.
  destruct (Itoa_digits p (proj1 Hp)) as (Hne & Hall & _).
  pose proof (Atoi_Itoa p Hp) as Hatoi.
  assert (Hanswer : portValue (Some p) = answer).
  { unfold portValue, answer.
    destruct (Z.ltb_spec 0 p), (Z.leb_spec 1 p); try lia; reflexivity. }
  assert (Hno : forall c, isDigit c = false -> hasByte (Itoa p) c = false)
    by (intros c Hc; apply allDigits_hasByte; assumption).
  destruct (TrimSpace_digits _ Hall) as [Htrim1 Htrim2].
  split; [| split].
  - change (host +:+ ":" +:+ Itoa p) with (host +:+ String ":" (Itoa p)).
    rewrite extractPortFromAddr_colon by (apply Hno; reflexivity).
    rewrite Hatoi. exact Hanswer.
  - change (host +:+ ":" +:+ Itoa p) with (host +:+ String ":" (Itoa p)).
    rewrite (extractPortFromLsofName_plain _ (trimLeftCut "[]" host) (Itoa p)).
    + rewrite Htrim2, Hatoi. exact Hanswer.
    + apply Trim_brackets_address; apply Hno; reflexivity.
    + apply Hno; reflexivity.
    + apply Hno; reflexivity.
  - change (host +:+ ":" +:+ Itoa p +:+ " (LISTEN)")
      with (host +:+ String ":" (Itoa p +:+ " (LISTEN)")).
    rewrite (extractPortFromLsofName_annotated _ (trimLeftCut "[]" host)
               (Itoa p +:+ " ") "LISTEN)").
    + rewrite Htrim1, Hatoi. exact Hanswer.
    + rewrite append_assoc. apply Trim_brackets_address;
        rewrite hasByte_append, Hno by reflexivity; reflexivity.
    + rewrite hasByte_append, Hno by reflexivity. reflexivity.
    + reflexivity.
    + rewrite hasByte_append, Hno by reflexivity. reflexivity.
Qed.

(** *** The port inventory *)

Lemma Forall_omap {A B : Type} (f : A -> option B) (P : B -> Prop) (l : list A) :
  (forall x y, f x = Some y -> P y) -> Forall P (omap f l).
Proof.
  intro H. induction l as [| x l IH]; [constructor |].
  cbn [omap list_omap]. destruct (f x) as [y |] eqn:Hfx; [| exact IH].
  constructor; [exact (H x y Hfx) | exact IH].
Qed.

Lemma port_guard_range (port_ : Z) :
  0 <= port_ <= 65535 -> (port_ =? 0) = false -> 1 <= port_ <= 65535.
Proof. intros H Hz. apply Z.eqb_neq in Hz. lia. Qed.

Lemma lsofRecord_valid (h : Host) (line : string) (r : PortInfo) :
  lsofRecord h line = Some r ->
  1 <= Port r <= 65535 /\ Status r = "LISTEN"
  /\ CommandLine r = getProcessCommand h (PID r).
Proof.
  unfold lsofRecord. intro H.
  destruct (isEmpty (TrimSpace line)); [discriminate H |].
  destruct (length (Fields line) <? 8)%nat; [discriminate H |].
  destruct (Fields line !! 0%nat); [| discriminate H].
  destruct (Fields line !! 1%nat) as [pidStr |]; [| discriminate H].
  destruct (Fields line !! 2%nat); [| discriminate H].
  destruct (Atoi pidStr); [| discriminate H].
  destruct (lsofNameField (Fields line)) as [nameField |]; [| discriminate H].
  destruct (isEmpty nameField); [discriminate H |].
  destruct (extractPortFromLsofName nameField =? 0) eqn:Hport; [discriminate H |].
  injection H as <-. cbn [Port Status CommandLine PID].
  split; [| split; reflexivity].
  apply port_guard_range; [apply extractPortFromLsofName_range | exact Hport].
Qed.

Lemma netstatRecord_valid (h : Host) (line : string) (r : PortInfo) :
  netstatRecord h line = Some r ->
  1 <= Port r <= 65535 /\ Status r = "LISTEN"
  /\ CommandLine r = getProcessCommand h (PID r)
  /\ 0 < PID r /\ User r = "unknown".
Proof.
  unfold netstatRecord. intro H.
  destruct (Contains line "LISTEN"); [| discriminate H].
  destruct (length (Fields line) <? 4)%nat; [discriminate H |].
  destruct (Fields line !! 3%nat) as [localAddr |]; [| discriminate H].
  destruct (extractPortFromAddr localAddr =? 0) eqn:Hport; [discriminate H |].
  match type of H with
  | (if 0 <? ?pid then _ else _) = _ =>
      destruct (Z.ltb_spec 0 pid) as [Hpid |]; [| discriminate H]
  end.
  injection H as <-. cbn [Port Status CommandLine PID User].
  split; [| repeat (split; [reflexivity |]); split; [exact Hpid | reflexivity]].
  apply port_guard_range; [apply extractPortFromAddr_range | exact Hport].
Qed.

Lemma ssRecord_valid (h : Host) (line : string) (r : PortInfo) :
  ssRecord h line = Some r ->
  1 <= Port r <= 65535 /\ Status r = "LISTEN"
  /\ CommandLine r = getProcessCommand h (PID r)
  /\ 0 < PID r /\ User r = "unknown".
Proof.
  unfold ssRecord. intro H.
  destruct (Contains line "LISTEN"); [| discriminate H].
  destruct (length (Fields line) <? 5)%nat; [discriminate H |].
  destruct (Fields line !! 3%nat) as [localAddr |]; [| discriminate H].
  destruct (extractPortFromAddr localAddr =? 0) eqn:Hport; [discriminate H |].
  match type of H with
  | (if 0 <? ?pid then _ else _) = _ =>
      destruct (Z.ltb_spec 0 pid) as [Hpid |]; [| discriminate H]
  end.
  injection H as <-. cbn [Port Status CommandLine PID User].
  split; [| repeat (split; [reflexivity |]); split; [exact Hpid | reflexivity]].
  apply port_guard_range; [apply extractPortFromAddr_range | exact Hport].
Qed.

(** X15.  Whatever the three listing tools print, every record of the
    port inventory has a port in 1..65535, the status LISTEN and the
    command line that ps gives for its PID; a record read from netstat
    or ss, that is when lsof failed, has a positive PID and the user
    unknown.  The inventory reports an error exactly when lsof, netstat
    and ss all failed, and it is empty then. *)
Theorem port_inventory_records_valid :
  forall (h : Host),
    Forall (fun r =>
              1 <= Port r <= 65535 /\ Status r = "LISTEN"
              /\ CommandLine r = getProcessCommand h (PID r)
              /\ (lsof_iTCP h = None -> 0 < PID r /\ User r = "unknown"))
           (fst (GetPortsInUse h))
    /\ (snd (GetPortsInUse h) <> None
        <-> lsof_iTCP h = None /\ netstat_tlnp h = None /\ ss_tlnp h = None)
    /\ (snd (GetPortsInUse h) <> None -> fst (GetPortsInUse h) = []).
Proof.
  intro h. unfold GetPortsInUse, getPortsFromNetstat, getPortsFromSS.
  destruct (lsof_iTCP h) as [out1 |]; cbn [fst snd].
  { split; [| split].
    - apply Forall_omap. intros line r Hr.
      destruct (lsofRecord_valid h line r Hr) as (Hp & Hs & Hc).
      split; [exact Hp | split; [exact Hs | split; [exact Hc |]]].
      discriminate.
    - split; [intro H; contradiction H; reflexivity | intros [H _]; discriminate H].
    - intro H. contradiction H. reflexivity. }
  destruct (netstat_tlnp h) as [out2 |]; cbn [fst snd].
  { split; [| split].
    - apply Forall_omap. intros line r Hr.
      destruct (netstatRecord_valid h line r Hr) as (Hp & Hs & Hc & Hpid & Hu).
      split; [exact Hp | split; [exact Hs | split; [exact Hc |]]].
      intros _. split; assumption.
    - split; [intro H; contradiction H; reflexivity | intros (_ & H & _); discriminate H].
    - intro H. contradiction H. reflexivity. }
  destruct (ss_tlnp h) as [out3 |]; cbn [fst snd].
  { split; [| split].
    - apply Forall_omap. intros line r Hr.
      destruct (ssRecord_valid h line r Hr) as (Hp & Hs & Hc & Hpid & Hu).
      split; [exact Hp | split; [exact Hs | split; [exact Hc |]]].
      intros _. split; assumption.
    - split; [intro H; contradiction H; reflexivity | intros (_ & _ & H); discriminate H].
    - intro H. contradiction H. reflexivity. }
  split; [constructor |]. split; [| reflexivity].
  split; [intros _; repeat split | discriminate].
Qed.

(** *** The process field of ss *)

Lemma splitGo_first (sep : ascii) (x rest : string) :
  hasByte x sep = false ->
  forall cur,
    exists more, splitGo sep cur (x +:+ String sep rest) = (cur +:+ x) :: more.
Proof.
  induction x as [| d x IH]; intros Hx cur.
  - rewrite append_nil. cbn [splitGo]. rewrite Ascii.eqb_refl.
    exists (splitGo sep "" rest). f_equal.
    clear. induction cur as [| c cur IH]; [reflexivity |].
    rewrite append_cons, <- IH. reflexivity.
  - unfold hasByte in Hx. cbn [inCutset] in Hx.
    apply orb_false_iff in Hx as [Hd Hx].
    rewrite append_cons. cbn [splitGo].
    rewrite Ascii.eqb_sym, Hd.
    destruct (IH Hx (cur +:+ String d "")) as [more Hmore].
    exists more. rewrite Hmore, append_assoc, append_cons, append_nil. reflexivity.
Qed.

Lemma splitGo_whole (sep : ascii) (x : string) :
  hasByte x sep = false -> forall cur, splitGo sep cur x = [cur +:+ x].
Proof.
  induction x as [| d x IH]; intros Hx cur.
  - cbn [splitGo]. f_equal.
    clear. induction cur as [| c cur IH]; [reflexivity |].
    rewrite append_cons, <- IH. reflexivity.
  - unfold hasByte in Hx. cbn [inCutset] in Hx.
    apply orb_false_iff in Hx as [Hd Hx].
    cbn [splitGo]. rewrite Ascii.eqb_sym, Hd.
    rewrite (IH Hx), append_assoc, append_cons, append_nil. reflexivity.
Qed.

Lemma indexFrom_word (c : ascii) (word rest pre : string) :
  hasByte pre c = false ->
  forall i,
    indexFrom i (pre +:+ String c word +:+ rest) (String c word)
    = i + Z.of_nat (String.length pre).
Proof.
  induction pre as [| d pre IH]; intros Hpre i.
  - rewrite append_nil.
    assert (Hp : HasPrefix (String c word +:+ rest) (String c word) = true)
      by apply HasPrefix_append.
    destruct (String c word +:+ rest) eqn:Heq; [discriminate Heq |].
    cbn [indexFrom]. rewrite Hp. cbn [String.length]. lia.
  - unfold hasByte in Hpre. cbn [inCutset] in Hpre.
    apply orb_false_iff in Hpre as [Hd Hpre].
    rewrite append_cons. cbn [indexFrom HasPrefix String.length].
    rewrite Hd. cbn [andb]. rewrite (IH Hpre). lia.
Qed.

(** X16.  The process field in the form the parsers are written for,
    pid=N,cmd=NAME with more comma-separated text allowed after it, is
    read back: extractPIDFromSS gives N and extractProcessNameFromSS
    gives NAME, for every N that fits a Go int and every NAME without a
    comma. *)
Theorem ss_process_field_round_trip :
  forall (n : Z) (name_ rest : string),
    0 <= n <= maxInt ->
    hasByte name_ "," = false ->
    (isEmpty rest = true \/ HasPrefix rest "," = true) ->
    let field := "pid=" +:+ Itoa n +:+ ",cmd=" +:+ name_ +:+ rest in
    extractPIDFromSS field = n /\ extractProcessNameFromSS field = name_.
Proof.
  intros n name_ rest Hn Hname Hrest field.
  destruct (Itoa_digits n (proj1 Hn)) as (Hne & Hall & _).
  assert (Hno : forall c, isDigit c = false -> hasByte (Itoa n) c = false)
    by (intros c Hc; apply allDigits_hasByte; assumption).
  split.
  - unfold extractPIDFromSS.
    assert (Hpre : HasPrefix field "pid=" = true) by apply HasPrefix_append.
    rewrite Hpre. unfold Split.
    assert (Hfield : field
                     = ("pid=" +:+ Itoa n) +:+ String "," ("cmd=" +:+ name_ +:+ rest)).
    { unfold field. rewrite append_assoc. reflexivity. }
    destruct (splitGo_first "," ("pid=" +:+ Itoa n) ("cmd=" +:+ name_ +:+ rest)
                ltac:(rewrite hasByte_append, Hno by reflexivity; reflexivity) "")
      as [more Hsplit].
    rewrite Hfield, Hsplit, append_nil.
    unfold TrimPrefix. rewrite HasPrefix_append.
    change (String.length "pid=") with 4%nat.
    change (sliceFrom 4 ("pid=" +:+ Itoa n)) with (Itoa n).
    rewrite (Atoi_Itoa n Hn). reflexivity.
  - unfold extractProcessNameFromSS.
    assert (Hfield : field
                     = ("pid=" +:+ Itoa n +:+ ",") +:+ "cmd=" +:+ (name_ +:+ rest)).
    { unfold field. rewrite !append_assoc. reflexivity. }
    assert (Hidx : Index field "cmd="
                   = Z.of_nat (String.length ("pid=" +:+ Itoa n +:+ ","))).
    { unfold Index. rewrite Hfield.
      rewrite (indexFrom_word "c" "md=" (name_ +:+ rest)).
      - lia.
      - rewrite !hasByte_append, Hno by reflexivity. reflexivity. }
    rewrite Hidx.
    destruct (Z.eqb_spec (Z.of_nat (String.length ("pid=" +:+ Itoa n +:+ ","))) (-1));
      [lia |].
    assert (Hcut : sliceFrom
                     (Z.to_nat (Z.of_nat (String.length ("pid=" +:+ Itoa n +:+ ",")) + 4))
                     field
                   = name_ +:+ rest).
    { replace (Z.to_nat (Z.of_nat (String.length ("pid=" +:+ Itoa n +:+ ",")) + 4))
        with (String.length (("pid=" +:+ Itoa n +:+ ",") +:+ "cmd="))
        by (rewrite (length_append _ "cmd="); cbn [String.length]; lia).
      rewrite Hfield.
      rewrite <- (append_assoc ("pid=" +:+ Itoa n +:+ ",") "cmd=" (name_ +:+ rest)).
      apply sliceFrom_append. }
    cbv zeta. rewrite Hcut.
    destruct Hrest as [Hempty | Hcomma].
    + destruct rest; [| discriminate Hempty].
      assert (Hname_ : name_ +:+ "" = name_).
      { clear. induction name_ as [| d s IH]; [reflexivity |].
        rewrite append_cons, IH. reflexivity. }
      rewrite Hname_. unfold Index.
      rewrite (indexFrom_absent _ _ _ Hname). reflexivity.
    + destruct rest as [| c rest]; [discriminate Hcomma |].
      cbn [HasPrefix] in Hcomma. rewrite HasPrefix_empty, andb_true_r in Hcomma.
      apply Ascii.eqb_eq in Hcomma as <-.
      unfold Index. rewrite (indexFrom_found _ _ _ Hname).
      destruct (Z.eqb_spec (0 + Z.of_nat (String.length name_)) (-1)); [lia |].
      replace (Z.to_nat (0 + Z.of_nat (String.length name_)))
        with (String.length name_) by lia.
      apply sliceTo_append.
Qed.

(** *** The environment file *)

Lemma append_empty (s : string) : s +:+ "" = s.
Proof.
  induction s as [| d s IH]; [reflexivity |].
  rewrite append_cons, IH. reflexivity.
Qed.

Lemma splitGo_append (sep : ascii) (a b : string) :
  forall cur,
    splitGo sep cur (a +:+ String sep b) = splitGo sep cur a ++ splitGo sep "" b.
Proof.
  induction a as [| c a IH]; intro cur.
  - rewrite append_nil. cbn [splitGo]. rewrite Ascii.eqb_refl. reflexivity.
  - rewrite append_cons. cbn [splitGo].
    destruct (Ascii.eqb c sep); [rewrite IH; reflexivity | apply IH].
Qed.

Lemma splitFirst_found (sep : ascii) (k v : string) :
  hasByte k sep = false ->
  forall cur, splitFirst sep cur (k +:+ String sep v) = [cur +:+ k; v].
Proof.
  induction k as [| d k IH]; intros Hk cur.
  - rewrite append_nil, append_empty. cbn [splitFirst].
    rewrite Ascii.eqb_refl. reflexivity.
  - unfold hasByte in Hk. cbn [inCutset] in Hk.
    apply orb_false_iff in Hk as [Hd Hk].
    rewrite append_cons. cbn [splitFirst]. rewrite Ascii.eqb_sym, Hd.
    rewrite (IH Hk), append_assoc, append_cons, append_nil. reflexivity.
Qed.

Lemma get_last_byte (w : string) (q : ascii) :
  String.get (String.length w) (w +:+ String q "") = Some q.
Proof.
  induction w as [| d w IH]; [reflexivity |].
  rewrite append_cons. exact IH.
Qed.

Lemma unquote_quoted (q : ascii) (w : string) :
  q = DQUOTE \/ q = SQUOTE -> unquote (String q (w +:+ String q "")) = w.
Proof.
  intro Hq. unfold unquote.
  assert (Hlen : String.length (String q (w +:+ String q ""))
                 = S (S (String.length w))).
  { cbn [String.length]. rewrite length_append. cbn [String.length]. lia. }
  rewrite Hlen. cbn [Nat.leb andb].
  replace (S (S (String.length w)) - 1)%nat with (S (String.length w)) by lia.
  replace (S (S (String.length w)) - 2)%nat with (String.length w) by lia.
  cbn [String.get sliceFrom]. rewrite get_last_byte, sliceTo_append.
  destruct Hq as [-> | ->]; reflexivity.
Qed.

Lemma loadEnvLine_assignment (envVars : gmap string string) (line k v : string) :
  TrimSpace line = k +:+ String "=" v ->
  hasByte k "=" = false -> HasPrefix k "#" = false ->
  loadEnvLine envVars line = <[TrimSpace k := unquote (TrimSpace v)]> envVars.
Proof.
  intros Hline Hk Hhash. unfold loadEnvLine. rewrite Hline.
  assert (Hguard : isEmpty (k +:+ String "=" v) || HasPrefix (k +:+ String "=" v) "#"
                   = false).
  { destruct k as [| d k]; [reflexivity |].
    rewrite append_cons. cbn [isEmpty orb HasPrefix] in *.
    rewrite HasPrefix_empty in *. exact Hhash. }
  rewrite Hguard. unfold SplitN2.
  rewrite (splitFirst_found _ _ _ Hk), append_nil. reflexivity.
Qed.

Lemma loadEnvLine_lineKey (envVars : gmap string string) (line key : string) :
  lineKey line <> Some key ->
  loadEnvLine envVars line !! key = envVars !! key.
Proof.
  unfold lineKey, loadEnvLine. intro H.
  destruct (isEmpty (TrimSpace line) || HasPrefix (TrimSpace line) "#");
    [reflexivity |].
  destruct (SplitN2 (TrimSpace line) "=") as [| k [| v [| ? ?]]]; try reflexivity.
  apply lookup_insert_ne. intro Heq. apply H. rewrite Heq. reflexivity.
Qed.

Lemma fold_loadEnvLine_lineKey (key : string) (lines : list string) :
  Forall (fun later => lineKey later <> Some key) lines ->
  forall envVars, fold_left loadEnvLine lines envVars !! key = envVars !! key.
Proof.
  induction 1 as [| later lines Hlater _ IH]; intro envVars; [reflexivity |].
  cbn [fold_left]. rewrite IH. apply loadEnvLine_lineKey. exact Hlater.
Qed.

(** X17.  The last assignment of a key in the environment file wins.
    When a line of the file is an assignment, that is its text with the
    white space around it removed is KEY=VALUE with no equal sign in KEY
    and KEY not starting with the comment sign, and no later line
    assigns the same key, the loaded map binds the trimmed KEY to the
    trimmed VALUE with one pair of matching quotes removed, whatever the
    lines before it assign and whatever follows it (other assignments,
    comments, blank lines, the empty text after a final line feed).  A
    value between two double quotes or two single quotes loses exactly
    these two. *)
Theorem env_file_last_assignment_wins :
  forall (h : Host) (envPath content line k v : string)
         (before after : list string),
    ReadFile h envPath = Some content ->
    Split content LF = before ++ line :: after ->
    TrimSpace line = k +:+ String "=" v ->
    hasByte k "=" = false -> HasPrefix k "#" = false ->
    Forall (fun later => lineKey later <> Some (TrimSpace k)) after ->
    loadEnvFile h envPath !! TrimSpace k = Some (unquote (TrimSpace v))
    /\ (forall w, unquote (String DQUOTE (w +:+ String DQUOTE "")) = w
                  /\ unquote (String SQUOTE (w +:+ String SQUOTE "")) = w).
Proof.
  intros h envPath content line k v before after Hread Hsplit Hkv Hk Hhash Hafter.
  split.
  - unfold loadEnvFile. rewrite Hread, Hsplit, fold_left_app. cbn [fold_left].
    rewrite (fold_loadEnvLine_lineKey _ _ Hafter).
    rewrite (loadEnvLine_assignment _ _ _ _ Hkv Hk Hhash).
    apply lookup_insert_eq.
  - intro w. split; apply unquote_quoted; [left | right]; reflexivity.
Qed.

(** *** White space in a cleaned line *)

Lemma regexpSpace_not_blank (a : ascii) :
  isRegexpSpace a = false -> Ascii.eqb a " " = false.
Proof.
  unfold isRegexpSpace. intro H.
  apply orb_false_iff in H as [_ H]. exact H.
Qed.

Lemma collapse_bytes (c : ascii) (s : string) :
  forall skip,
    hasByte (replaceAllGo spacesRegex " " skip s) c = true ->
    isRegexpSpace c = false \/ c = " "%char.
Proof.
  induction s as [| d s IH]; intros skip H; [discriminate H |].
  cbn [replaceAllGo] in H. destruct skip as [| k]; [| exact (IH _ H)].
  unfold spacesRegex in H. cbn [spacesLen] in H.
  destruct (isRegexpSpace d) eqn:Hd.
  - rewrite append_cons, append_nil in H.
    unfold hasByte in H. cbn [inCutset] in H.
    apply orb_true_iff in H as [H | H]; [| exact (IH _ H)].
    right. apply Ascii.eqb_eq in H. exact H.
  - unfold hasByte in H. cbn [inCutset] in H.
    apply orb_true_iff in H as [H | H]; [| exact (IH _ H)].
    left. apply Ascii.eqb_eq in H. subst c. exact Hd.
Qed.

Lemma noDoubleSpace_step (a b : ascii) (o : string) :
  noDoubleSpace (String a (String b o))
  = negb (Ascii.eqb a " " && Ascii.eqb b " ") && noDoubleSpace (String b o).
Proof. reflexivity. Qed.

Lemma noDoubleSpace_cons (a : ascii) (o : string) :
  noDoubleSpace o = true ->
  Ascii.eqb a " " = false \/ HasPrefix o " " = false ->
  noDoubleSpace (String a o) = true.
Proof.
  intros Ho Hhead. destruct o as [| b o]; [reflexivity |].
  rewrite noDoubleSpace_step, Ho, andb_true_r.
  rewrite HasPrefix_byte, (Ascii.eqb_sym " " b) in Hhead.
  destruct Hhead as [-> | ->]; [reflexivity | apply negb_true_iff, andb_false_r].
Qed.

Lemma noDoubleSpace_tail (a : ascii) (o : string) :
  noDoubleSpace (String a o) = true ->
  noDoubleSpace o = true
  /\ (Ascii.eqb a " " = false \/ HasPrefix o " " = false).
Proof.
  destruct o as [| b o]; [intros _; split; [reflexivity | right; reflexivity] |].
  rewrite noDoubleSpace_step. intro H. apply andb_true_iff in H as [Hab Ho].
  split; [exact Ho |].
  rewrite HasPrefix_byte, (Ascii.eqb_sym " " b).
  apply negb_true_iff, andb_false_iff in Hab. exact Hab.
Qed.

(** The collapsing pass leaves no two blanks side by side.  When the
    pass is skipping exactly the run of white space at the head of the
    text, what it writes next does not start with a blank. *)
Lemma collapse_noDoubleSpace (s : string) :
  (noDoubleSpace (replaceAllGo spacesRegex " " (spacesLen s) s) = true
   /\ HasPrefix (replaceAllGo spacesRegex " " (spacesLen s) s) " " = false)
  /\ noDoubleSpace (replaceAllGo spacesRegex " " 0 s) = true.
Proof.
  induction s as [| d s [[IHrun IHhead] IH0]]; [repeat split |].
  cbn [spacesLen replaceAllGo]. unfold spacesRegex. cbn [spacesLen].
  destruct (isRegexpSpace d) eqn:Hd.
  - split; [split; assumption |].
    rewrite append_cons, append_nil.
    apply noDoubleSpace_cons; [exact IHrun | right; exact IHhead].
  - assert (Hkeep : noDoubleSpace (String d (replaceAllGo spacesRegex " " 0 s)) = true).
    { apply noDoubleSpace_cons; [exact IH0 |].
      left. apply regexpSpace_not_blank. exact Hd. }
    split; [split; [exact Hkeep |] | exact Hkeep].
    rewrite HasPrefix_byte, Ascii.eqb_sym. apply regexpSpace_not_blank. exact Hd.
Qed.

Lemma noDoubleSpace_trimLeftGo (s : string) :
  forall skip, noDoubleSpace s = true -> noDoubleSpace (trimLeftGo skip s) = true.
Proof.
  induction s as [| d s IH]; intros skip H; [reflexivity |].
  cbn [trimLeftGo].
  destruct (noDoubleSpace_tail _ _ H) as [Hs _].
  destruct skip as [| k]; [| exact (IH _ Hs)].
  destruct (spaceLen (String d s)); [exact H | exact (IH _ Hs)].
Qed.

Lemma head_trimRight (c : ascii) (s : string) :
  HasPrefix (trimRight s) (String c "") = true -> HasPrefix s (String c "") = true.
Proof.
  destruct s as [| d s]; [discriminate |].
  cbn [trimRight]. destruct (allSpace (String d s)); [discriminate |].
  rewrite !HasPrefix_byte. exact id.
Qed.

Lemma noDoubleSpace_trimRight (s : string) :
  noDoubleSpace s = true -> noDoubleSpace (trimRight s) = true.
Proof.
  induction s as [| d s IH]; intro H; [reflexivity |].
  cbn [trimRight]. destruct (allSpace (String d s)); [reflexivity |].
  destruct (noDoubleSpace_tail _ _ H) as [Hs Hhead].
  apply noDoubleSpace_cons; [exact (IH Hs) |].
  destruct Hhead as [Hd | Hsp]; [left; exact Hd | right].
  destruct (HasPrefix (trimRight s) " ") eqn:Ht; [| reflexivity].
  apply head_trimRight in Ht. congruence.
Qed.

Lemma spaceLen_trimLeftGo (s : string) :
  forall skip, spaceLen (trimLeftGo skip s) = O.
Proof.
  induction s as [| d s IH]; intro skip; [reflexivity |].
  cbn [trimLeftGo]. destruct skip as [| k]; [| apply IH].
  destruct (spaceLen (String d s)) eqn:Hlen; [exact Hlen | apply IH].
Qed.

Lemma trimRight_nil (s : string) : trimRight s = "" -> allSpace s = true.
Proof.
  destruct s as [| d s]; [reflexivity |].
  cbn [trimRight]. destruct (allSpace (String d s)); [reflexivity | discriminate].
Qed.

Lemma endsWith_trimRight (s : string) : endsWith (trimRight s) " " = false.
Proof.
  induction s as [| d s IH]; [reflexivity |].
  cbn [trimRight]. destruct (allSpace (String d s)) eqn:Hall; [reflexivity |].
  destruct (trimRight s) as [| e t] eqn:Ht.
  - cbn [endsWith]. destruct (Ascii.eqb_spec " " d) as [<- |]; [| reflexivity].
    apply trimRight_nil in Ht.
    unfold allSpace in Hall. cbn [allSpaceGo] in Hall.
    change (spaceLen (String " " s)) with 1%nat in Hall.
    unfold allSpace in Ht. congruence.
  - exact IH.
Qed.

(** X18.  Whatever the line, the cleaned text holds no tab, line feed,
    form feed or carriage return, no two blanks side by side, and
    neither starts nor ends with a blank. *)
Theorem stripANSI_whitespace_normal :
  forall (s : string),
    hasByte (stripANSI s) TAB = false /\ hasByte (stripANSI s) LF = false
    /\ hasByte (stripANSI s) FF = false /\ hasByte (stripANSI s) CR = false
    /\ noDoubleSpace (stripANSI s) = true
    /\ HasPrefix (stripANSI s) " " = false
    /\ endsWith (stripANSI s) " " = false.
Proof.
  intro s. unfold stripANSI, ReplaceAllString. cbv zeta.
  match goal with
  | |- context [replaceAllGo spacesRegex " " 0 ?x] => generalize x
  end.
  intro x.
  assert (Hbytes : forall c, isRegexpSpace c = true -> c <> " "%char ->
            hasByte (TrimSpace (replaceAllGo spacesRegex " " 0 x)) c = false).
  { intros c Hc Hblank.
    destruct (hasByte (TrimSpace (replaceAllGo spacesRegex " " 0 x)) c) eqn:H;
      [| reflexivity].
    apply hasByte_TrimSpace, collapse_bytes in H as [H | H]; congruence. }
  repeat (split; [apply Hbytes; [reflexivity | discriminate] |]).
  split; [| split].
  - unfold TrimSpace.
    apply noDoubleSpace_trimRight, noDoubleSpace_trimLeftGo, collapse_noDoubleSpace.
  - unfold TrimSpace.
    destruct (HasPrefix (trimRight (trimLeftGo 0 (replaceAllGo spacesRegex " " 0 x))) " ")
      eqn:H; [| reflexivity].
    apply head_trimRight in H.
    pose proof (spaceLen_trimLeftGo (replaceAllGo spacesRegex " " 0 x) 0) as Hlen.
    destruct (trimLeftGo 0 (replaceAllGo spacesRegex " " 0 x)) as [| e t];
      [discriminate H |].
    rewrite HasPrefix_byte in H. apply Ascii.eqb_eq in H as <-.
    discriminate Hlen.
  - apply endsWith_trimRight.
Qed.

(** *** The rows of the tracked services *)


(** *** The owner of a port, looked up in netstat *)

Lemma HasPrefix_trans (a : string) :
  forall s x, HasPrefix s x = true -> HasPrefix x a = true -> HasPrefix s a = true.
Proof.
  induction a as [| c a IH]; intros s x Hsx Hxa; [apply HasPrefix_empty |].
  destruct x as [| d x]; [discriminate Hxa |].
  destruct s as [| e s]; [discriminate Hsx |].
  cbn [HasPrefix] in *.
  apply andb_true_iff in Hsx as [Hde Hsx]. apply andb_true_iff in Hxa as [Hcd Hxa].
  apply Ascii.eqb_eq in Hde as <-. rewrite Hcd. exact (IH _ _ Hsx Hxa).
Qed.

Lemma indexFrom_longer (x a : string) :
  HasPrefix x a = true ->
  forall s i, 0 <= i -> 0 <= indexFrom i s x -> 0 <= indexFrom i s a.
Proof.
  intros Hxa s. induction s as [| c s IH]; intros i Hi H.
  - cbn [indexFrom] in *. destruct (HasPrefix "" x) eqn:Hx; [| lia].
    rewrite (HasPrefix_trans _ _ _ Hx Hxa). exact Hi.
  - cbn [indexFrom] in *.
    destruct (HasPrefix (String c s) a) eqn:Ha; [exact Hi |].
    destruct (HasPrefix (String c s) x) eqn:Hx.
    + pose proof (HasPrefix_trans _ _ _ Hx Hxa) as Hcontra. congruence.
    + apply (IH (i + 1)); [lia | exact H].
Qed.

Lemma Contains_longer (line x a : string) :
  HasPrefix x a = true -> Contains line x = true -> Contains line a = true.
Proof.
  unfold Contains, Index. intros Hxa H.
  apply Z.leb_le. apply Z.leb_le in H.
  exact (indexFrom_longer _ _ Hxa _ 0 ltac:(lia) H).
Qed.

Lemma pidOfNetstatLine_longer (p q pid : Z) (line : string) :
  HasPrefix (Itoa q) (Itoa p) = true ->
  pidOfNetstatLine q line = Some pid -> pidOfNetstatLine p line = Some pid.
Proof.
  intros Hpq. unfold pidOfNetstatLine.
  destruct (Contains line (":" +:+ Itoa q)) eqn:Hq; [| discriminate].
  rewrite (Contains_longer line (":" +:+ Itoa q) (":" +:+ Itoa p)); [exact id | | exact Hq].
  rewrite !append_cons, !append_nil. cbn [HasPrefix]. exact Hpq.
Qed.

Lemma firstPid_longer (p q : Z) (lines : list string) :
  HasPrefix (Itoa q) (Itoa p) = true ->
  is_Some (firstPid q lines) -> is_Some (firstPid p lines).
Proof.
  intro Hpq. induction lines as [| line lines IH]; intro H; [exact H |].
  cbn [firstPid] in *.
  destruct (pidOfNetstatLine p line) as [pid |] eqn:Hp; [eexists; reflexivity |].
  destruct (pidOfNetstatLine q line) as [pid |] eqn:Hq; [| exact (IH H)].
  rewrite (pidOfNetstatLine_longer _ _ _ _ Hpq Hq) in Hp. discriminate Hp.
Qed.

(** X20.  The netstat fallback of getPIDByPort looks for the text of the
    port after a colon anywhere in the line, so a line that answers for
    a port answers as well for every port whose decimal text starts the
    same way (80 and 8080): when lsof gives no PID for such a port and
    netstat lists a listener for the longer one, the lookup for the
    shorter one succeeds too, and its answer is the PID read from a
    LISTEN line that holds the text. *)
Theorem netstat_lookup_matches_port_by_text :
  forall (h : Host) (p q : Z) (output : string),
    HasPrefix (Itoa q) (Itoa p) = true ->
    lsof_ti h p = None ->
    netstat_tlnp h = Some output ->
    is_Some (firstPid q (Split output LF)) ->
    exists pid line,
      getPIDByPort h p = (pid, None)
      /\ line ∈ Split output LF
      /\ pidOfNetstatLine p line = Some pid
      /\ Contains line (":" +:+ Itoa p) = true /\ Contains line "LISTEN" = true.
Proof.
  intros h p q output Hpq Hlsof Hnet Hq.
  destruct (firstPid_longer p q _ Hpq Hq) as [pid Hpid].
  assert (Hline : forall lines, firstPid p lines = Some pid ->
            exists line, line ∈ lines /\ pidOfNetstatLine p line = Some pid).
  { clear. induction lines as [| line lines IH]; intro H; [discriminate H |].
    cbn [firstPid] in H.
    destruct (pidOfNetstatLine p line) as [pid0 |] eqn:Hp.
    - injection H as ->. exists line. split; [left | exact Hp].
    - destruct (IH H) as (l & Hin & Hl). exists l. split; [right; exact Hin | exact Hl]. }
  destruct (Hline _ Hpid) as (line & Hin & Hl).
  exists pid, line. split; [| split; [exact Hin | split; [exact Hl |]]].
  - unfold getPIDByPort. rewrite Hlsof, Hnet, Hpid. reflexivity.
  - unfold pidOfNetstatLine in Hl.
    destruct (Contains line (":" +:+ Itoa p)); [| discriminate Hl].
    destruct (Contains line "LISTEN"); [| discriminate Hl].
    split; reflexivity.
Qed.

(** *** When Start returns *)

Lemma prepareCommand_empty_returns (Args_ Type_ : string) :
  exists cmd, prepareCommand "" Args_ Type_ = Returned cmd.
Proof.
  unfold prepareCommand. cbn [isEmpty negb].
  destruct (String.eqb Type_ TypeBackend); [eexists; reflexivity |].
  destruct (String.eqb Type_ TypeFrontend); eexists; reflexivity.
Qed.

Lemma StartService_after_prepare (projectID : N) (m : Manager) (h : Host)
    (p : Project) (cmd : Cmd) :
  db m !! projectID = Some p ->
  processes m !! projectID = None ->
  prepareCommand (command p) (args p) (type p) = Returned cmd ->
  exists r, StartService projectID m h = Returned r.
Proof.
  intros Hp Hnone Hcmd. unfold StartService. rewrite Hnone, Hp, Hcmd.
  cbn [bindOutcome].
  destruct (fst (PipesOK h)); cbn [negb]; [| eexists; reflexivity].
  destruct (snd (PipesOK h)); cbn [negb]; [| eexists; reflexivity].
  destruct (StartCmd _ h) as [[pid | msg] h1]; [| eexists; reflexivity].
  destruct (pid <=? 0); eexists; reflexivity.
Qed.

(** X21.  Start on a project in the catalog fails to return, with the
    panic of an index out of range, exactly when the project has no
    handle and its command is not empty but holds white space only; in
    every other case it returns, whatever the host answers. *)
Theorem Start_returns_unless_command_blank :
  forall (projectID : N) (m : Manager) (h : Host) (p : Project),
    db m !! projectID = Some p ->
    let blank :=
      processes m !! projectID = None
      /\ isEmpty (command p) = false /\ allSpace (command p) = true in
    (StartService projectID m h = Panicked "index out of range" <-> blank)
    /\ ((exists r, StartService projectID m h = Returned r) <-> ~ blank).
Proof.
  intros projectID m h p Hp blank.
  destruct (processes m !! projectID) as [processInfo |] eqn:Hproc.
  { assert (Hrun : StartService projectID m h
                   = Returned (Some "service is already running", m, h))
      by (unfold StartService; rewrite Hproc; reflexivity).
    assert (Hnot : ~ blank) by (intros [Hnone _]; discriminate Hnone).
    split; split.
    - intro H. rewrite Hrun in H. discriminate H.
    - intro H. contradiction.
    - intros _. exact Hnot.
    - intros _. eexists. exact Hrun. }
  destruct (isEmpty (command p)) eqn:Hempty.
  { assert (Hcmd : exists cmd, prepareCommand (command p) (args p) (type p) = Returned cmd).
    { destruct (command p); [apply prepareCommand_empty_returns | discriminate Hempty]. }
    destruct Hcmd as [cmd Hcmd].
    destruct (StartService_after_prepare projectID m h p cmd Hp Hproc Hcmd) as [r Hr].
    assert (Hnot : ~ blank)
      by (intros (_ & Hne & _); discriminate Hne).
    split; split.
    - intro H. rewrite Hr in H. discriminate H.
    - intro H. contradiction.
    - intros _. exact Hnot.
    - intros _. exists r. exact Hr. }
  destruct (allSpace (command p)) eqn:Hsp.
  - assert (Hpanic : StartService projectID m h = Panicked "index out of range").
    { unfold StartService. rewrite Hproc, Hp.
      rewrite (prepareCommand_allSpace_panics _ _ _ Hempty Hsp). reflexivity. }
    assert (Hblank : blank)
      by (unfold blank; repeat split).
    split; split.
    + intros _. exact Hblank.
    + intros _. exact Hpanic.
    + intros [r Hr] _. rewrite Hpanic in Hr. discriminate Hr.
    + intro H. contradiction.
  - assert (Hfields : exists name_ rest, Fields (command p) = name_ :: rest).
    { destruct (Fields (command p)) as [| name_ rest] eqn:Hf; [| eexists _, _; reflexivity].
      apply fieldsGo_nil in Hf as [_ Hall]. unfold allSpace in Hsp. congruence. }
    destruct Hfields as (name_ & rest & Hf).
    destruct (prepareCommand_returns _ (args p) (type p) _ _ Hf Hempty) as (cmd & Hcmd & _).
    destruct (StartService_after_prepare projectID m h p cmd Hp Hproc Hcmd) as [r Hr].
    assert (Hnot : ~ blank)
      by (intros (_ & _ & Hb); discriminate Hb).
    split; split.
    + intro H. rewrite Hr in H. discriminate H.
    + intro H. contradiction.
    + intros _. exact Hnot.
    + intros _. exists r. exact Hr.
Qed.

End Supervisor.

(** ** Examples: the theorems at work, and where the claims fail *)

(** C1 at its failing inputs.  Service 1 is tracked, its child 4242
    exists and no port is declared: the claim makes it live, the code
    reports it as not running.  A stopped service declares port 80 while
    the only listener of the host is on port 8080: the claim makes it
    not live, the code reports it as running, because the text [:80]
    occurs in the line that netstat prints for port 8080. *)
Lemma liveness_failing_inputs :
  IsServiceRunning unit found (nilSignalProbe unit alive4242) (nilSignalProbe unit alive4242)
    noOutput quiet quiet silent silent runningManager tt 1%N = false
  /\ handleAnswers unit alive4242 runningManager tt 1%N
  /\ ~ livenessAsClaimed unit found (nilSignalProbe unit alive4242) (nilSignalProbe unit alive4242)
         noOutput quiet quiet silent silent alive4242 listens8080
         runningManager tt 1%N
  /\ IsServiceRunning unit found (nilSignalProbe unit alive4242) (nilSignalProbe unit alive4242)
       noOutput quiet quiet exampleNetstat silent port80Manager tt 1%N = true
  /\ listens8080 tt 80 = false
  /\ ~ livenessAsClaimed unit found (nilSignalProbe unit alive4242) (nilSignalProbe unit alive4242)
         noOutput quiet quiet exampleNetstat silent alive4242 listens8080
         port80Manager tt 1%N.
Proof.
  assert (Hanswers : handleAnswers unit alive4242 runningManager tt 1%N).
  { exists exampleHandle, 4242. repeat split; vm_compute; reflexivity. }
  destruct (liveness_probe_never_answers unit found (nilSignalProbe unit alive4242)
              (nilSignalProbe unit alive4242) noOutput quiet quiet silent silent
              alive4242 listens8080 runningManager tt 1%N
              (fun _ _ => eq_refl) (fun _ _ => eq_refl))
    as (_ & Hmissed & _).
  destruct Hmissed as [Hrun Hclaim].
  { left. exact Hanswers. }
  { intros (p & Hp & Hport & _). vm_compute in Hp. injection Hp as <-.
    vm_compute in Hport. discriminate Hport. }
  { intros (p & Hp & _ & Hkids). vm_compute in Hp. injection Hp as <-.
    vm_compute in Hkids. discriminate Hkids. }
  destruct (liveness_probe_never_answers unit found (nilSignalProbe unit alive4242)
              (nilSignalProbe unit alive4242) noOutput quiet quiet exampleNetstat silent
              alive4242 listens8080 port80Manager tt 1%N
              (fun _ _ => eq_refl) (fun _ _ => eq_refl))
    as (_ & _ & Hextra).
  destruct Hextra as [Hrun' Hclaim'].
  { exists (exampleRow "npm start" 80 0 "stopped").
    repeat split; vm_compute; reflexivity. }
  { intros [(processInfo & pid & Hp & _) | [(p & Hp & _ & Hl) | [(p & Hp & Hpos & _)
            | (p & Hp & Hkids)]]].
    - vm_compute in Hp. discriminate Hp.
    - vm_compute in Hp. injection Hp as <-. vm_compute in Hl. discriminate Hl.
    - vm_compute in Hp. injection Hp as <-. vm_compute in Hpos. discriminate Hpos.
    - vm_compute in Hp. injection Hp as <-. vm_compute in Hkids. discriminate Hkids. }
  split; [exact Hrun |]. split; [exact Hanswers |]. split; [exact Hclaim |].
  split; [exact Hrun' |]. split; [reflexivity | exact Hclaim'].
Defined.

(** C7 at a run over one line, on an empty ring and an empty channel. *)
Lemma capture_send_witness :
  captureProgram false [("ready", 1700000000100)] None
  = [AddToLogBuffer "ready"] ++ SafeSendLog "ready" :: [SaveIfDue 1700000000100]
  /\ last (LogBuffer
             (handle
                (fold_left (exec (fun s => s)) [AddToLogBuffer "ready"]
                   (mkCapture exampleHandle (db runningManager) 1700000000000))))
     = Some "ready"
  /\ chBuf
       (Logs
          (handle
             (exec (fun s => s)
                (fold_left (exec (fun s => s)) [AddToLogBuffer "ready"]
                   (mkCapture exampleHandle (db runningManager) 1700000000000))
                (SafeSendLog "ready"))))
     = ["ready"].
Proof.
  assert (Hprog : captureProgram false [("ready", 1700000000100)] None
                  = [AddToLogBuffer "ready"] ++ SafeSendLog "ready"
                      :: [SaveIfDue 1700000000100])
    by (vm_compute; reflexivity).
  split; [exact Hprog |].
  pose proof (capture_appends_before_sending (fun s => s) false
                (mkCapture exampleHandle (db runningManager) 1700000000000)
                [("ready", 1700000000100)] None
                [AddToLogBuffer "ready"] [SaveIfDue 1700000000100] "ready" Hprog) as H.
  cbv zeta in H. destruct H as (_ & Hlast & _ & _ & _ & Hchan & _).
  split; [exact Hlast |]. rewrite Hchan. vm_compute. reflexivity.
Defined.

(** C3 at a row whose PID is not in the process table. *)
Lemma ForceKill_stale_pid_witness :
  db staleManager !! 5%N = Some (exampleRow "npm start" 0 999999 "running")
  /\ exists (m' : Manager) (h' : unit),
       ForceKillService unit quiet quiet still still clock stillN 5%N staleManager tt
       = (None, m', h')
       /\ processes m' !! 5%N = None
       /\ (status <$> db m' !! 5%N) = Some "stopped"
       /\ (p_id <$> db m' !! 5%N) = Some 0
       /\ (last_error <$> db m' !! 5%N) = Some "Force killed".
Proof.
  assert (Hrow : db staleManager !! 5%N
                 = Some (exampleRow "npm start" 0 999999 "running"))
    by (vm_compute; reflexivity).
  split; [exact Hrow |].
  destruct (ForceKill_always_succeeds unit quiet quiet still still clock stillN
              5%N staleManager tt _ Hrow)
    as (m' & h' & Hrun & _ & Hnone & _ & Hstatus & Hpid & Herr & _).
  exists m', h'. repeat split; assumption.
Defined.

(** C4 at a stopped service. *)
Lemma Stop_stopped_witness :
  db stoppedManager !! 1%N = Some (exampleRow "npm start" 0 0 "stopped")
  /\ processes stoppedManager !! 1%N = None
  /\ persistedPidAnswers unit quiet quiet tt (exampleRow "npm start" 0 0 "stopped")
     = false
  /\ exists m' : Manager,
       StopService unit quiet quiet still still clock stillN still waited
         1%N stoppedManager tt = (None, m', tt)
       /\ (status <$> db m' !! 1%N) = Some "stopped"
       /\ (p_id <$> db m' !! 1%N) = Some 0
       /\ fst (fst (StopService unit quiet quiet still still clock stillN still waited
                      1%N m' tt)) = None.
Proof.
  assert (Hrow : db stoppedManager !! 1%N
                 = Some (exampleRow "npm start" 0 0 "stopped"))
    by (vm_compute; reflexivity).
  assert (Hnone : processes stoppedManager !! 1%N = None)
    by (vm_compute; reflexivity).
  assert (Hdead : persistedPidAnswers unit quiet quiet tt
                    (exampleRow "npm start" 0 0 "stopped") = false)
    by reflexivity.
  split; [exact Hrow |]. split; [exact Hnone |]. split; [exact Hdead |].
  destruct (Stop_is_idempotent_when_stopped unit quiet quiet still still clock
              stillN still waited 1%N stoppedManager tt tt _ Hrow Hnone Hdead)
    as (m' & Hrun & _ & _ & Hstatus & Hpid & _ & Hagain).
  exists m'. split; [exact Hrun |]. split; [exact Hstatus |]. split; [exact Hpid |].
  rewrite Hagain. reflexivity.
Defined.

(** C2 where all three sources name [PORT]: the inline JSON wins. *)
Lemma prepareEnvironment_witness :
  (forall m : gmap string string, map_to_list m ≡ₚ map_to_list m)
  /\ plainNames
       (inlineVars Z unit (fun _ => Some {[ "PORT" := JNumber Z unit 8080 ]})
          Itoa (fun _ => "") "{}")
  /\ bindsOnly
       (prepareEnvironment unit exampleEnviron exampleEnvFile exampleJoin Z unit
          (fun _ => Some {[ "PORT" := JNumber Z unit 8080 ]}) Itoa (fun _ => "")
          map_to_list tt 5173 "development" "" "{}" "/srv/svc")
       "PORT" "8080".
Proof.
  assert (Hperm : forall m : gmap string string, map_to_list m ≡ₚ map_to_list m)
    by (intro m; reflexivity).
  assert (Hplain : plainNames
            (inlineVars Z unit (fun _ => Some {[ "PORT" := JNumber Z unit 8080 ]})
               Itoa (fun _ => "") "{}")).
  { unfold inlineVars, parseEnvVarsJSON. cbn [isEmpty negb].
    rewrite map_fmap_singleton. apply map_Forall_singleton. reflexivity. }
  split; [exact Hperm |]. split; [exact Hplain |].
  destruct (prepareEnvironment_precedence unit exampleEnviron exampleEnvFile
              exampleJoin Z unit (fun _ => Some {[ "PORT" := JNumber Z unit 8080 ]})
              Itoa (fun _ => "") map_to_list Hperm tt 5173 "development" "" "{}"
              "/srv/svc")
    as (_ & _ & _ & Hbinds).
  destruct (Hbinds Hplain) as [Hjson _].
  apply Hjson. vm_compute. reflexivity.
Defined.

(** C5 as stated fails on a residue that ends in another letter than
[m], and on a residue that the removal itself puts together. *)
Lemma stripping_claim_fails_on_residue :
  stripANSI "[0K" = "[0K"
  /\ stripANSI "[[1m1m" = "[1m"
  /\ hasMatch bareResidueRegex (stripANSI "[0K") = true
  /\ hasMatch bareResidueRegex (stripANSI "[[1m1m") = true
  /\ ~ strippedAsClaimed "[0K"
  /\ ~ strippedAsClaimed "[[1m1m".
Proof.
  assert (H1 : hasMatch bareResidueRegex (stripANSI "[0K") = true)
    by (vm_compute; reflexivity).
  assert (H2 : hasMatch bareResidueRegex (stripANSI "[[1m1m") = true)
    by (vm_compute; reflexivity).
  split; [vm_compute; reflexivity |]. split; [vm_compute; reflexivity |].
  split; [exact H1 |]. split; [exact H2 |].
  split; intros [_ Hres]; congruence.
Qed.

(** C8 as stated fails for [extractPortFromAddr] on an address with an
annotation: the claim cuts the annotation and reads 5173, the parser
does not cut it and answers 0. *)
Lemma port_claim_fails_on_annotated_addr :
  extractPortFromAddr "0.0.0.0:5173(LISTEN)" = 0
  /\ portAsClaimed "0.0.0.0:5173(LISTEN)" = 5173
  /\ ~ extractionAsClaimed "0.0.0.0:5173(LISTEN)".
Proof.
  assert (H1 : extractPortFromAddr "0.0.0.0:5173(LISTEN)" = 0)
    by (vm_compute; reflexivity).
  assert (H2 : portAsClaimed "0.0.0.0:5173(LISTEN)" = 5173)
    by (vm_compute; reflexivity).
  split; [exact H1 |]. split; [exact H2 |].
  intros [_ Heq]. rewrite H1, H2 in Heq. discriminate Heq.
Qed.

(** C8 at the NAME field of an [lsof] line for an IPv6 listener. *)
Lemma port_extraction_witness :
  hasByte "5173 " ":" = false
  /\ hasByte "5173 " "(" = false
  /\ hasByte "LISTEN)" ":" = false
  /\ Trim "[::1]:5173 (LISTEN)" "[]" = "::1]:5173 (LISTEN)"
  /\ extractPortFromLsofName "[::1]:5173 (LISTEN)"
     = portValue (Atoi (TrimSpace "5173 "))
  /\ extractPortFromAddr "::1]:5173 (LISTEN)" = 0.
Proof.
  assert (Htrim : Trim "[::1]:5173 (LISTEN)" "[]" = "::1]:5173 (LISTEN)")
    by (vm_compute; reflexivity).
  destruct (port_extraction_as_coded "[::1]:5173 (LISTEN)" "::1]" "5173 " "LISTEN)"
              eq_refl eq_refl eq_refl)
    as (_ & Haddr & _ & Hlsof & _).
  split; [reflexivity |]. split; [reflexivity |]. split; [reflexivity |].
  split; [exact Htrim |]. split; [exact (Hlsof Htrim) | exact Haddr].
Defined.

(** ** Examples for the further properties *)

(** X1 at a tracked service whose child takes the cancellation. *)
Lemma Stop_always_stops_witness :
  db runningManager !! 1%N = Some (exampleRow "npm start" 0 4242 "running")
  /\ exists (m' : Manager) (h' : unit),
       StopService unit quiet quiet still still clock stillN still waited
         1%N runningManager tt = (None, m', h')
       /\ processes m' !! 1%N = None
       /\ (status <$> db m' !! 1%N) = Some "stopped"
       /\ db m' !! 2%N = db runningManager !! 2%N.
Proof.
  assert (Hrow : db runningManager !! 1%N
                 = Some (exampleRow "npm start" 0 4242 "running"))
    by (vm_compute; reflexivity).
  split; [exact Hrow |].
  destruct (Stop_always_stops unit quiet quiet still still clock stillN still waited
              1%N 2%N runningManager tt _ Hrow)
    as (m' & h' & Hrun & Hnone & _ & Hstatus & _ & _ & Hother).
  exists m', h'. split; [exact Hrun |]. split; [exact Hnone |].
  split; [exact Hstatus |]. exact (proj1 Hother).
Defined.

(** X2 at an id that the catalog does not hold. *)
Lemma unknown_project_witness :
  db stoppedManager !! 7%N = None
  /\ StopService unit quiet quiet still still clock stillN still waited
       7%N stoppedManager tt = (Some "project not found", stoppedManager, tt)
  /\ ForceKillService unit quiet quiet still still clock stillN
       7%N stoppedManager tt = (Some "project not found", stoppedManager, tt).
Proof.
  assert (Hnone : db stoppedManager !! 7%N = None) by (vm_compute; reflexivity).
  split; [exact Hnone |].
  destruct (unknown_project_is_refused unit quiet quiet quiet still still clock stillN
              still waited pipesReady spawn noOutput quiet quiet silent silent
              exampleEnviron exampleEnvFile exampleJoin Z unit (fun _ => None) Itoa
              (fun _ => "") map_to_list notExited noOutput silent
              7%N stoppedManager tt Hnone)
    as (Hstop & Hkill & _).
  split; [exact Hstop | exact Hkill].
Defined.

(** X3 at a stopped service whose child starts. *)
Lemma Start_installs_handle_witness :
  exists (err : error) (m' : Manager) (h' : unit),
    db runningManager !! 2%N = Some (exampleRow "npm start" 0 0 "stopped")
    /\ processes runningManager !! 2%N = None
    /\ StartService unit clock stillN pipesReady spawn exampleEnviron exampleEnvFile
         exampleJoin Z unit (fun _ => None) Itoa (fun _ => "") map_to_list
         2%N runningManager tt = Returned (err, m', h')
    /\ (err = None <-> is_Some (processes m' !! 2%N)).
Proof.
  assert (Hrow : db runningManager !! 2%N
                 = Some (exampleRow "npm start" 0 0 "stopped"))
    by (vm_compute; reflexivity).
  assert (Hnone : processes runningManager !! 2%N = None)
    by (vm_compute; reflexivity).
  destruct (StartService unit clock stillN pipesReady spawn exampleEnviron
              exampleEnvFile exampleJoin Z unit (fun _ => None) Itoa (fun _ => "")
              map_to_list 2%N runningManager tt)
    as [[[err m'] h'] | msg] eqn:Hrun; [| vm_compute in Hrun; discriminate Hrun].
  exists err, m', h'.
  split; [exact Hrow |]. split; [exact Hnone |]. split; [reflexivity |].
  exact (proj1 (Start_installs_handle_iff_success unit clock stillN pipesReady spawn
                  exampleEnviron exampleEnvFile exampleJoin Z unit (fun _ => None)
                  Itoa (fun _ => "") map_to_list 2%N runningManager m' tt h' _ err
                  Hrow Hnone Hrun)).
Defined.

Lemma runningManager_tracked : tracked runningManager.
Proof.
  intros projectID processInfo H.
  unfold runningManager in H. cbn [processes] in H.
  apply lookup_singleton_Some in H as [<- <-].
  split; [reflexivity |]. exists 4242. split; [reflexivity | lia].
Defined.

(** X4 at a manager that tracks one service. *)
Lemma handle_map_invariant_witness :
  tracked runningManager
  /\ tracked (snd (fst (StopService unit quiet quiet still still clock stillN still
                          waited 1%N runningManager tt)))
  /\ tracked (snd (fst (ForceKillService unit quiet quiet still still clock stillN
                          1%N runningManager tt))).
Proof.
  split; [exact runningManager_tracked |].
  destruct (handle_map_invariant unit quiet quiet quiet still still clock stillN
              still waited pipesReady spawn noOutput quiet quiet silent silent
              exampleEnviron exampleEnvFile exampleJoin Z unit (fun _ => None) Itoa
              (fun _ => "") map_to_list notExited noOutput silent
              1%N runningManager tt exampleHandle None runningManager_tracked)
    as (Hstop & Hkill & _).
  split; [exact Hstop | exact Hkill].
Defined.


(** X6 for service 2 while service 1 is killed. *)
Lemma other_services_untouched_witness :
  1%N <> 2%N
  /\ db (snd (fst (ForceKillService unit quiet quiet still still clock stillN
                     1%N runningManager tt))) !! 2%N
     = db runningManager !! 2%N
  /\ processes (snd (fst (ForceKillService unit quiet quiet still still clock stillN
                            1%N runningManager tt))) !! 2%N
     = processes runningManager !! 2%N.
Proof.
  assert (Hne : 1%N <> 2%N) by discriminate.
  split; [exact Hne |].
  pose proof (other_services_untouched unit quiet quiet quiet still still clock stillN
                still waited pipesReady spawn noOutput quiet quiet silent silent
                exampleEnviron exampleEnvFile exampleJoin Z unit (fun _ => None) Itoa
                (fun _ => "") map_to_list notExited noOutput silent
                1%N 2%N runningManager tt exampleHandle None Hne) as H.
  cbv zeta in H. destruct H as ([Hdb Hproc] & _).
  split; [exact Hdb | exact Hproc].
Defined.

(** X7 at a tracked service. *)
Lemma Restart_is_Start_after_Stop_witness :
  db runningManager !! 1%N = Some (exampleRow "npm start" 0 4242 "running")
  /\ exists (m1 : Manager) (h1 : unit),
       RestartService unit quiet quiet still still clock stillN still waited
         pipesReady spawn exampleEnviron exampleEnvFile exampleJoin Z unit
         (fun _ => None) Itoa (fun _ => "") map_to_list 1%N runningManager tt
       = StartService unit clock stillN pipesReady spawn exampleEnviron exampleEnvFile
           exampleJoin Z unit (fun _ => None) Itoa (fun _ => "") map_to_list
           1%N m1 h1
       /\ processes m1 !! 1%N = None.
Proof.
  assert (Hrow : db runningManager !! 1%N
                 = Some (exampleRow "npm start" 0 4242 "running"))
    by (vm_compute; reflexivity).
  split; [exact Hrow |].
  destruct (Restart_is_Start_after_Stop unit quiet quiet still still clock stillN
              still waited pipesReady spawn exampleEnviron exampleEnvFile exampleJoin
              Z unit (fun _ => None) Itoa (fun _ => "") map_to_list
              1%N runningManager tt _ Hrow)
    as (m1 & h1 & Heq & Hnone & _).
  exists m1, h1. split; [exact Heq | exact Hnone].
Defined.

(** X8 at a tracked service without a declared port. *)
Lemma after_stop_only_the_port_counts_witness :
  db runningManager !! 1%N = Some (exampleRow "npm start" 0 4242 "running")
  /\ IsServiceRunning unit quiet quiet quiet noOutput quiet quiet silent silent
       (snd (fst (StopService unit quiet quiet still still clock stillN still waited
                    1%N runningManager tt)))
       tt 1%N
     = false.
Proof.
  assert (Hrow : db runningManager !! 1%N
                 = Some (exampleRow "npm start" 0 4242 "running"))
    by (vm_compute; reflexivity).
  split; [exact Hrow |].
  pose proof (after_stop_only_the_port_counts unit quiet quiet quiet still still clock
                stillN still waited noOutput quiet quiet silent silent
                1%N runningManager tt tt _ exampleHandle None Hrow) as H.
  cbv zeta in H. destruct H as (Hstop & _).
  rewrite Hstop. reflexivity.
Defined.

(** X9 at a tracked service whose child is gone. *)
Lemma status_read_reconciles_witness :
  db runningManager !! 1%N = Some (exampleRow "npm start" 0 4242 "running")
  /\ 1%N <> 0%N
  /\ tracked runningManager
  /\ exists (m' : Manager) (q : Project),
       GetServiceStatus unit quiet quiet quiet clock noOutput quiet quiet silent silent
         notExited noOutput silent 1%N runningManager tt
       = ((Some q, None), m')
       /\ db m' !! 1%N = Some q.
Proof.
  assert (Hrow : db runningManager !! 1%N
                 = Some (exampleRow "npm start" 0 4242 "running"))
    by (vm_compute; reflexivity).
  assert (Hid : 1%N <> 0%N) by discriminate.
  split; [exact Hrow |]. split; [exact Hid |].
  split; [exact runningManager_tracked |].
  destruct (status_read_reconciles unit quiet quiet quiet clock noOutput quiet quiet
              silent silent notExited noOutput silent 1%N runningManager tt _
              Hrow Hid runningManager_tracked)
    as (m' & q & Hrun & Hdb & _).
  exists m', q. split; [exact Hrun | exact Hdb].
Defined.

(** X11 at a capturer that reads a coloured line, a blank one and a
    plain one. *)
Lemma capture_run_witness :
  (length (LogBuffer exampleHandle) <= 1000)%nat
  /\ (length (chBuf (Logs exampleHandle)) <= chCap (Logs exampleHandle))%nat
  /\ LogBuffer
       (handle (captureOutputWithBuffer (fun s => s) false
                  (mkCapture exampleHandle (db runningManager) 1700000000000)
                  [(String ESC "[32mready" +:+ String ESC "[0m", 1700000000100);
                   ("   ", 1700000000200); ("listening", 1700000000300)]
                  None))
     = ["ready"; "listening"].
Proof.
  assert (Hring : (length (LogBuffer exampleHandle) <= 1000)%nat)
    by (cbn; lia).
  assert (Hchan : (length (chBuf (Logs exampleHandle)) <= chCap (Logs exampleHandle))%nat)
    by (cbn; lia).
  split; [exact Hring |]. split; [exact Hchan |].
  pose proof (capture_run_keeps_newest_in_ring_oldest_in_channel (fun s => s) false
                (mkCapture exampleHandle (db runningManager) 1700000000000)
                [(String ESC "[32mready" +:+ String ESC "[0m", 1700000000100);
                 ("   ", 1700000000200); ("listening", 1700000000300)]
                Hring Hchan) as H.
  cbv zeta in H. destruct H as (Hbuf & _).
  rewrite Hbuf. vm_compute. reflexivity.
Defined.

(** X13 at a command with two words and an arguments string. *)
Lemma prepareCommand_argv_witness :
  isEmpty "npm  run" = false
  /\ prepareCommand "npm  run" "dev --port 3000" "frontend"
     = Returned (mkCmd ["npm"; "run"; "dev"; "--port"; "3000"] "" []).
Proof.
  split; [reflexivity |].
  pose proof (prepareCommand_argv "npm  run" "dev --port 3000" "frontend" eq_refl) as H.
  change (allSpace "npm  run") with false in H.
  destruct H as (Hcmd & _). rewrite Hcmd. vm_compute. reflexivity.
Defined.

(** X14 at port 5173 behind an IPv6 address. *)
Lemma port_text_round_trip_witness :
  0 <= 5173 <= maxInt
  /\ extractPortFromAddr ("[::1]" +:+ ":" +:+ Itoa 5173) = 5173
  /\ extractPortFromLsofName ("[::1]" +:+ ":" +:+ Itoa 5173 +:+ " (LISTEN)") = 5173.
Proof.
  assert (Hp : 0 <= 5173 <= maxInt) by (unfold maxInt; lia).
  split; [exact Hp |].
  pose proof (port_text_round_trip "[::1]" 5173 Hp) as H.
  cbv zeta in H. destruct H as (Haddr & _ & Hlsof).
  split; [exact Haddr | exact Hlsof].
Defined.

(** X16 at the field of a node process. *)
Lemma ss_process_field_witness :
  0 <= 1234 <= maxInt
  /\ hasByte "node" "," = false
  /\ extractPIDFromSS ("pid=" +:+ Itoa 1234 +:+ ",cmd=" +:+ "node" +:+ ",fd=3") = 1234
  /\ extractProcessNameFromSS ("pid=" +:+ Itoa 1234 +:+ ",cmd=" +:+ "node" +:+ ",fd=3")
     = "node".
Proof.
  assert (Hn : 0 <= 1234 <= maxInt) by (unfold maxInt; lia).
  split; [exact Hn |]. split; [reflexivity |].
  pose proof (ss_process_field_round_trip 1234 "node" ",fd=3" Hn eq_refl
                (or_intror eq_refl)) as H.
  cbv zeta in H. exact H.
Defined.

(** X17 at a file of one assignment, quoted, then a comment and a final
    line feed; and at a file of one line. *)
Lemma env_file_witness :
  Split ("MODE='file'" +:+ String LF ("# end" +:+ String LF "")) LF
  = [] ++ "MODE='file'" :: ["# end"; ""]
  /\ TrimSpace "MODE='file'" = "MODE" +:+ String "=" "'file'"
  /\ Forall (fun later => lineKey later <> Some (TrimSpace "MODE")) ["# end"; ""]
  /\ loadEnvFile unit
       (fun _ _ => Some ("MODE='file'" +:+ String LF ("# end" +:+ String LF "")))
       tt "/srv/svc/.env" !! "MODE" = Some "file"
  /\ loadEnvFile unit (fun _ _ => Some "A=1") tt "/srv/svc/.env" !! "A" = Some "1".
Proof.
  assert (Hafter : Forall (fun later => lineKey later <> Some (TrimSpace "MODE"))
                     ["# end"; ""])
    by (repeat constructor; discriminate).
  split; [vm_compute; reflexivity |]. split; [vm_compute; reflexivity |].
  split; [exact Hafter |]. split.
  - exact (proj1 (env_file_last_assignment_wins unit
                    (fun _ _ => Some ("MODE='file'" +:+ String LF ("# end" +:+ String LF "")))
                    tt "/srv/svc/.env" _ "MODE='file'" "MODE" "'file'" [] ["# end"; ""]
                    eq_refl eq_refl eq_refl eq_refl eq_refl Hafter)).
  - exact (proj1 (env_file_last_assignment_wins unit (fun _ _ => Some "A=1")
                    tt "/srv/svc/.env" _ "A=1" "A" "1" [] []
                    eq_refl eq_refl eq_refl eq_refl eq_refl ltac:(constructor))).
Defined.

(** X20 for the ports 80 and 8080. *)
Lemma netstat_lookup_witness :
  HasPrefix (Itoa 8080) (Itoa 80) = true
  /\ firstPid 8080 (Split "tcp 0 0 0.0.0.0:8080 0.0.0.0:* LISTEN 4242/node" LF)
     = Some 4242
  /\ exists (pid : Z) (line : string),
       getPIDByPort unit noOutput exampleNetstat tt 80 = (pid, None)
       /\ pidOfNetstatLine 80 line = Some pid.
Proof.
  assert (Hpre : HasPrefix (Itoa 8080) (Itoa 80) = true) by (vm_compute; reflexivity).
  assert (Hfirst : firstPid 8080
                     (Split "tcp 0 0 0.0.0.0:8080 0.0.0.0:* LISTEN 4242/node" LF)
                   = Some 4242)
    by (vm_compute; reflexivity).
  split; [exact Hpre |]. split; [exact Hfirst |].
  destruct (netstat_lookup_matches_port_by_text unit noOutput exampleNetstat tt 80 8080
              "tcp 0 0 0.0.0.0:8080 0.0.0.0:* LISTEN 4242/node"
              Hpre eq_refl eq_refl (ex_intro _ 4242 Hfirst))
    as (pid & line & Hget & _ & Hline & _).
  exists pid, line. split; [exact Hget | exact Hline].
Defined.

(** X21 at a row whose command is one tab. *)
Lemma Start_blank_command_witness :
  db (NewManager {[ 3%N := exampleRow (String TAB "") 0 0 "stopped" ]}) !! 3%N
  = Some (exampleRow (String TAB "") 0 0 "stopped")
  /\ StartService unit clock stillN pipesReady spawn exampleEnviron exampleEnvFile
       exampleJoin Z unit (fun _ => None) Itoa (fun _ => "") map_to_list
       3%N (NewManager {[ 3%N := exampleRow (String TAB "") 0 0 "stopped" ]}) tt
     = Panicked "index out of range".
Proof.
  assert (Hrow : db (NewManager {[ 3%N := exampleRow (String TAB "") 0 0 "stopped" ]})
                   !! 3%N
                 = Some (exampleRow (String TAB "") 0 0 "stopped"))
    by (vm_compute; reflexivity).
  split; [exact Hrow |].
  pose proof (Start_returns_unless_command_blank unit clock stillN pipesReady spawn
                exampleEnviron exampleEnvFile exampleJoin Z unit (fun _ => None) Itoa
                (fun _ => "") map_to_list 3%N
                (NewManager {[ 3%N := exampleRow (String TAB "") 0 0 "stopped" ]}) tt
                _ Hrow) as H.
  cbv zeta in H. destruct H as [[_ Hpanic] _].
  apply Hpanic. repeat split; vm_compute; reflexivity.
Defined.
